(** * Rental ledger bot: a shallow embedding of [TelegramBot.py]

    The development follows the source file top to bottom: the text and
    calendar primitives of the Python runtime that the source calls, the
    persisted document with [load_data] / [save_data],
    [validate_datetime_format], the periodic job [check_rental_end_times],
    the handlers [show_category_stats], [undo_rental], [delete_category]
    and [handle_text], the menus with [button] and the handler table of
    [main], then the vocabulary of the statements, and then the properties
    of these definitions.

    Conventions.
    - A Python [str] is the list of its code points.  The white space and
      the decimal digits are those of Unicode 14.0, the tables of
      CPython 3.11: the regular-expression class [\d] and [int] accept the
      decimal digits of every script.
    - Amounts are Python floats.  The handlers are written once over the
      interface [Amount], with [float(text)] as the parameter [Conversion];
      [Binary64] is the instance the program runs on.
    - The JSON file and the chat transport belong to the host: a write and a
      send succeed.  The [IOError] branches of the source are not modelled,
      and a document is either unreadable or has the two keys
      ["categories"] and ["rentals"] with well-formed rentals.
    - The menu texts are presentation; a handler returns the kind of answer
      it sends.  The answers stand for the failures of the specification:
      [EndNotLater] for the order error, [UndoFailed] for the index error,
      [CategoryNotFound] for the not-found error. *)

From Stdlib Require Import ZArith NArith Ascii String List Lia.
From Stdlib Require Floats.
From stdpp Require Import base option list strings gmap fin_maps.

Local Open Scope string_scope.
Local Open Scope list_scope.
Local Open Scope Z_scope.

(** ** Python text *)

(** A [str]: its code points, in order. *)
Abbreviation text := (list N).

(** The code point of an ASCII character, and the [str] of an ASCII literal
    of this file. *)
Definition ch (a : ascii) : N := N_of_ascii a.

Definition py (s : string) : text := ch <$> list_ascii_of_string s.

Module PyStr.

Definition code (c : N) : Z := Z.of_N c.

(** [str.isspace] on one code point. *)
Definition is_space (c : N) : bool :=
  let n := code c in
  ((9 <=? n) && (n <=? 13)) || ((28 <=? n) && (n <=? 32))
  || (n =? 133) || (n =? 160) || (n =? 5760)
  || ((8192 <=? n) && (n <=? 8202))
  || (n =? 8232) || (n =? 8233) || (n =? 8239) || (n =? 8287)
  || (n =? 12288).

(** The first code point of each run of ten decimal digits, zero to nine. *)
Definition decimal_runs : list Z :=
  [48; 1632; 1776; 1984; 2406; 2534; 2662; 2790; 2918; 3046; 3174; 3302;
   3430; 3558; 3664; 3792; 3872; 4160; 4240; 6112; 6160; 6470; 6608; 6784;
   6800; 6992; 7088; 7232; 7248; 42528; 43216; 43264; 43472; 43504; 43600;
   44016; 65296; 66720; 68912; 69734; 69872; 69942; 70096; 70384; 70736;
   70864; 71248; 71360; 71472; 71904; 72016; 72784; 73040; 73120; 92768;
   92864; 93008; 120782; 120792; 120802; 120812; 120822; 123200; 123632;
   125264; 130032].

Fixpoint run_value (runs : list Z) (n : Z) : option Z :=
  match runs with
  | [] => None
  | s :: runs =>
      if (s <=? n) && (n <=? s + 9) then Some (n - s) else run_value runs n
  end.

(** The value of a decimal digit of any script; [None] when the code point
    is no decimal digit. *)
Definition digit_val (c : N) : option Z := run_value decimal_runs (code c).

(** [str.isdecimal] on one code point: the class [\d]. *)
Definition is_digit (c : N) : bool :=
  match digit_val c with Some _ => true | None => false end.

Definition eqc (a b : N) : bool := N.eqb a b.

Fixpoint lstrip_by (space : N -> bool) (s : text) : text :=
  match s with
  | c :: s' => if space c then lstrip_by space s' else s
  | [] => []
  end.

Definition strip_by (space : N -> bool) (s : text) : text :=
  reverse (lstrip_by space (reverse (lstrip_by space s))).

Definition lstrip (s : text) : text := lstrip_by is_space s.

Definition rstrip (s : text) : text := reverse (lstrip (reverse s)).

(** [s.strip()] *)
Definition strip (s : text) : text := rstrip (lstrip s).

(** [s.split(sep)] for a one-character separator: never an empty list. *)
Fixpoint split (sep : N) (s : text) : list text :=
  match s with
  | [] => [[]]
  | c :: s' =>
      if eqc c sep then [] :: split sep s'
      else match split sep s' with
           | x :: xs => (c :: x) :: xs
           | [] => [[c]]
           end
  end.

(** [s.split()]: the maximal runs of code points that are no white
    space. *)
Fixpoint split_ws_aux (cur : text) (s : text) : list text :=
  match s with
  | [] =>
      match cur with [] => [] | _ => [reverse cur] end
  | c :: s' =>
      if is_space c then
        match cur with
        | [] => split_ws_aux [] s'
        | _ => reverse cur :: split_ws_aux [] s'
        end
      else split_ws_aux (c :: cur) s'
  end.

Definition split_ws (s : text) : list text := split_ws_aux [] s.

(** The white space [int] and [float] skip at both ends: the ASCII white
    space of C, and the Unicode white space from 127 up, which they read as
    a space.  The separators 28 to 31 are white space for [str.isspace] and
    not here. *)
Definition is_int_space (c : N) : bool :=
  let n := code c in
  ((9 <=? n) && (n <=? 13)) || (n =? 32) || ((127 <=? n) && is_space c).

(** The digits of a decimal literal; one underscore may separate two
    digits. [seen] tells whether the previous character was a digit. *)
Fixpoint int_digits (acc : Z) (seen : bool) (s : text) : option Z :=
  match s with
  | [] => if seen then Some acc else None
  | c :: s' =>
      match digit_val c with
      | Some d => int_digits (10 * acc + d) true s'
      | None => if eqc c (ch "_") && seen then int_digits acc false s' else None
      end
  end.

(** [int(s)] for a [str] argument, base 10; [None] is [ValueError]. *)
Definition int (s : text) : option Z :=
  match strip_by is_int_space s with
  | c :: r =>
      if eqc c (ch "+") then int_digits 0 false r
      else if eqc c (ch "-") then Z.opp <$> int_digits 0 false r
      else int_digits 0 false (c :: r)
  | [] => None
  end.

End PyStr.

(** ** Python [datetime]

    A naive [datetime] is represented by its instant: the number of
    microseconds since 0001-01-01 00:00.  The representation is injective
    and monotone on valid field tuples, so comparing instants is comparing
    [datetime] objects. *)

Module PyDatetime.

Definition instant := Z.

Definition MINYEAR : Z := 1.
Definition MAXYEAR : Z := 9999.

Definition is_leap (year : Z) : bool :=
  (year mod 4 =? 0) && (negb (year mod 100 =? 0) || (year mod 400 =? 0)).

Definition days_before_year (year : Z) : Z :=
  let y := year - 1 in y * 365 + y / 4 - y / 100 + y / 400.

Definition DAYS_IN_MONTH : list Z :=
  [31; 28; 31; 30; 31; 30; 31; 31; 30; 31; 30; 31].

Definition days_in_month (year month : Z) : Z :=
  if (month =? 2) && is_leap year then 29
  else nth (Z.to_nat (month - 1)) DAYS_IN_MONTH 0.

Definition days_before_month (year month : Z) : Z :=
  foldr Z.add 0 (take (Z.to_nat (month - 1)) DAYS_IN_MONTH)
  + (if (2 <? month) && is_leap year then 1 else 0).

Definition ymd2ord (year month day : Z) : Z :=
  days_before_year year + days_before_month year month + day.

Definition us_per_minute : Z := 60 * 1000000.
Definition us_per_day : Z := 24 * 60 * us_per_minute.

(** [datetime(year, month, day, hour, minute)]; [None] is [ValueError]. *)
Definition datetime (year month day hour minute : Z) : option instant :=
  if (MINYEAR <=? year) && (year <=? MAXYEAR)
     && (1 <=? month) && (month <=? 12)
     && (1 <=? day) && (day <=? days_in_month year month)
     && (0 <=? hour) && (hour <=? 23)
     && (0 <=? minute) && (minute <=? 59)
  then Some ((ymd2ord year month day - 1) * us_per_day
             + (hour * 60 + minute) * us_per_minute)
  else None.

(** The instant of [datetime.max]. *)
Definition max_instant : instant :=
  days_before_year (MAXYEAR + 1) * us_per_day - 1.

(** [dt + timedelta(minutes=1)]; [None] is [OverflowError]. *)
Definition add_minute (dt : instant) : option instant :=
  if dt + us_per_minute <=? max_instant then Some (dt + us_per_minute)
  else None.

End PyDatetime.

(** ** The regular expression of [validate_datetime_format] *)

Module PyRe.

Inductive item :=
| Digit            (* \d *)
| Lit (c : N).     (* a literal character *)

(** Consumes the items from the front of the text and returns the rest. *)
Fixpoint match_items (p : list item) (s : text) : option text :=
  match p with
  | [] => Some s
  | i :: p' =>
      match s with
      | [] => None
      | c :: s' =>
          let ok := match i with
                    | Digit => PyStr.is_digit c
                    | Lit l => PyStr.eqc c l
                    end in
          if ok then match_items p' s' else None
      end
  end.

(** [$] without [re.MULTILINE]: the end of the text, or just before a
    line feed that ends the text. *)
Definition at_dollar (rest : text) : bool :=
  match rest with
  | [] => true
  | [c] => PyStr.eqc c (ch "010")
  | _ => false
  end.

(** [re.match('^' + p + '$', s)] as a truth value. *)
Definition matches (p : list item) (s : text) : bool :=
  match match_items p s with
  | Some rest => at_dollar rest
  | None => false
  end.

End PyRe.

(** ** Amounts *)

(** What the handlers need of the numbers they add up: Python's [0], [+]
    and [-]. *)
Class Amount := {
  num : Type;
  nzero : num;
  nadd : num -> num -> num;
  nsub : num -> num -> num;
  nsub_nzero : nsub nzero nzero = nzero      (* 0 - 0 == 0 *)
}.

(** The conversion [float(text)]; [None] is [ValueError]. *)
Class Conversion (A : Amount) := to_float : text -> option num.

(** IEEE 754 binary64, the representation of a Python float. *)
Module Binary64.

(** The float nearest to an integer, ties to even: what [float] gives for
    a decimal integer literal. *)
Definition of_Z (z : Z) : PrimFloat.float :=
  FloatOps.SF2Prim
    (SpecFloat.binary_normalize FloatOps.prec FloatOps.emax z 0 false).

(** [float(s)] on the decimal integer literals, signed or not.  Only the
    concrete runs of this file use it, at such literals; on a fraction, an
    exponent, [inf] or [nan] it gives [None] where [float] converts, and
    the general statements hold for every conversion. *)
Definition float_of_literal (s : text) : option PrimFloat.float :=
  match s with
  | c :: r =>
      if PyStr.eqc c (ch "+") then of_Z <$> PyStr.int_digits 0 false r
      else if PyStr.eqc c (ch "-")
      then (fun z => PrimFloat.opp (of_Z z)) <$> PyStr.int_digits 0 false r
      else of_Z <$> PyStr.int_digits 0 false s
  | [] => None
  end.

Definition amount : Amount :=
  {| num := PrimFloat.float;
     nzero := PrimFloat.zero;
     nadd := PrimFloat.add;
     nsub := PrimFloat.sub;
     nsub_nzero := eq_refl |}.

Definition conversion : Conversion amount := float_of_literal.

End Binary64.

(** ** The store and the handlers *)

Section Bot.

Context {A : Amount} {F : Conversion A}.

(** The value of a category: [{"profit": .., "expense": .., "income": ..}]. *)
Record totals := Totals {
  cat_profit : num;
  cat_expense : num;
  cat_income : num
}.

(** One element of [data['rentals']]. *)
Record rental := Rental {
  category : text;
  profit : num;
  expense : num;
  start_time : text;
  end_time : text;
  income : num;
  notified : bool
}.

(** The dictionary the handlers work on after [load_data]. *)
Record data := Data {
  categories : gmap text totals;
  rentals : list rental
}.

(** The value under ["categories"] in the file: a legacy list of names or
    the dictionary. *)
Inductive categories_json :=
| NameList (names : list text)
| Dict (m : gmap text totals).

Record document := Document {
  doc_categories : categories_json;
  doc_rentals : list rental
}.

(** [DATA_FILE] as [load_data] tells its states apart. *)
Inductive file :=
| Missing                 (* os.path.exists is false *)
| Blank                   (* st_size == 0 *)
| Malformed               (* json.load raises JSONDecodeError *)
| Json (doc : document).

Definition zero_totals : totals := Totals nzero nzero nzero.

Definition default_data : data := Data ∅ [].

Definition save_data (d : data) (f : file) : file :=
  Json (Document (Dict (categories d)) (rentals d)).

(** [{cat: {"profit": 0, "expense": 0, "income": 0} for cat in names}] *)
Definition migrate (names : list text) : gmap text totals :=
  foldl (fun m cat => <[cat := zero_totals]> m) ∅ names.

Definition load_data (f : file) : data * file :=
  match f with
  | Missing => (default_data, save_data default_data f)
  | Blank => (default_data, save_data default_data f)
  | Malformed => (default_data, save_data default_data f)
  | Json doc =>
      match doc_categories doc with
      | NameList names =>
          let d := Data (migrate names) (doc_rentals doc) in
          (d, save_data d f)
      | Dict m => (Data m (doc_rentals doc), f)
      end
  end.

(** *** Time texts *)

(** [r'^\d{2}:\d{2}-\d{2}\.\d{2}\.\d{2}$'] *)
Definition pattern : list PyRe.item :=
  [PyRe.Digit; PyRe.Digit; PyRe.Lit (ch ":"); PyRe.Digit; PyRe.Digit;
   PyRe.Lit (ch "-"); PyRe.Digit; PyRe.Digit; PyRe.Lit (ch "."); PyRe.Digit;
   PyRe.Digit; PyRe.Lit (ch "."); PyRe.Digit; PyRe.Digit].

(** The conversion the source writes three times (in
    [validate_datetime_format], in [check_rental_end_times] and as the
    local [parse_dt] of [handle_text]); [None] is [ValueError]. *)
Definition parse_dt (dt_str : text) : option PyDatetime.instant :=
  match PyStr.split (ch "-") dt_str with
  | [time_part; date_part] =>
      match PyStr.split (ch ".") date_part with
      | [d; m; y] =>
          day ← PyStr.int d;
          month ← PyStr.int m;
          year ← PyStr.int y;
          match PyStr.split (ch ":") time_part with
          | [h; mi] =>
              hour ← PyStr.int h;
              minute ← PyStr.int mi;
              PyDatetime.datetime (2000 + year) month day hour minute
          | _ => None
          end
      | _ => None
      end
  | _ => None
  end.

Definition validate_datetime_format (dt_str : text) : bool :=
  if negb (PyRe.matches pattern dt_str) then false
  else match parse_dt dt_str with
       | Some _ => true
       | None => false
       end.

(** *** The periodic job *)

(** A message handed to [context.bot.send_message]: the chat it goes to
    and the category its text names. *)
Record notification := Notification {
  chat_id : Z;
  about : text
}.

Record world := World {
  disk : file;
  sent : list notification
}.

(** The body of the [try] for one rental, up to the decision to notify.
    A skipped rental and a logged exception both give [false]. *)
Definition due (now : PyDatetime.instant) (r : rental) : bool :=
  if notified r then false
  else match parse_dt (end_time r) with
       | None => false
       | Some end_dt =>
           if end_dt <=? now then
             match PyDatetime.add_minute end_dt with
             | Some limit => now <? limit
             | None => false
             end
           else false
       end.

Definition set_notified (r : rental) : rental :=
  Rental (category r) (profit r) (expense r) (start_time r) (end_time r)
         (income r) true.

(** The [for] loop: [done] are the rentals already visited (as they now
    are in memory), [todo] the ones still to visit. *)
Fixpoint tick_loop (now : PyDatetime.instant) (chat : Z)
    (cats : gmap text totals) (done todo : list rental) (w : world)
    : list rental * world :=
  match todo with
  | [] => (done, w)
  | r :: rest =>
      if due now r then
        let r' := set_notified r in
        let w1 := World (disk w) (sent w ++ [Notification chat (category r)]) in
        let w2 := World (save_data (Data cats (done ++ r' :: rest)) (disk w1))
                        (sent w1) in
        tick_loop now chat cats (done ++ [r']) rest w2
      else tick_loop now chat cats (done ++ [r]) rest w
  end.

Definition check_rental_end_times (now : PyDatetime.instant) (chat : Z)
    (w : world) : world :=
  let '(d, f) := load_data (disk w) in
  snd (tick_loop now chat (categories d) [] (rentals d) (World f (sent w))).

(** *** Statistics *)

(** [sum(xs)]: a left fold from the [int] zero, as CPython computes it up
    to 3.11; from 3.12 on the sum of floats is compensated, which gives the
    same result wherever no addition rounds. *)
Definition py_sum (xs : list num) : num := foldl nadd nzero xs.

(** [[r for r in rentals if r.get('category') == name]] *)
Definition of_category (name : text) (rs : list rental) : list rental :=
  filter (fun r => category r = name) rs.

(** [xs[-5:]] *)
Definition last5 {X} (xs : list X) : list X := drop (length xs - 5)%nat xs.

(** What the statistics message shows. *)
Record stats := Stats {
  total_profit : num;
  total_expense : num;
  total_income : num;
  rental_count : nat;
  recent : list rental
}.

Definition show_category_stats (name : text) (f : file) : stats * file :=
  let '(d, f) := load_data f in
  let rs := of_category name (rentals d) in
  let total_profit := py_sum (profit <$> rs) in
  let total_expense := py_sum (expense <$> rs) in
  let total_income := nsub total_profit total_expense in
  (Stats total_profit total_expense total_income (length rs) (last5 rs), f).

(** *** Answers *)

(** The kinds of message a handler sends back. *)
Inductive answer :=
| MainMenu
| CategoryAdded (name : text)
| CategoryExists
| CategoryNotSelected
| BadFieldCount                   (* not four fields *)
| BadData                         (* ValueError *)
| BadStartTime
| BadEndTime
| EndNotLater                     (* end_dt <= start_dt *)
| RentalAdded (r : rental)
| RentalUndone (r : rental)
| UndoFailed                      (* IndexError or KeyError *)
| CategoryDeleted (name : text)
| CategoryNotFound.

(** *** Undo *)

(** The position a Python index denotes in [xs]; [None] is [IndexError]. *)
Definition py_index {X} (xs : list X) (i : Z) : option nat :=
  let n := Z.of_nat (length xs) in
  if (0 <=? i) && (i <? n) then Some (Z.to_nat i)
  else if (- n <=? i) && (i <? 0) then Some (Z.to_nat (n + i))
  else None.

Definition subtract (r : rental) (t : totals) : totals :=
  Totals (nsub (cat_profit t) (profit r))
         (nsub (cat_expense t) (expense r))
         (nsub (cat_income t) (income r)).

Definition undo_rental (rental_id : Z) (f : file) : file * answer :=
  let '(d, f) := load_data f in
  match py_index (rentals d) rental_id with
  | None => (f, UndoFailed)
  | Some k =>
      match rentals d !! k with
      | None => (f, UndoFailed)
      | Some r =>
          let cats :=
            match categories d !! category r with
            | Some t => <[category r := subtract r t]> (categories d)
            | None => categories d
            end in
          (save_data (Data cats (delete k (rentals d))) f, RentalUndone r)
      end
  end.

(** *** Deleting a category *)

Definition delete_category (name : text) (f : file) : file * answer :=
  let '(d, f) := load_data f in
  match categories d !! name with
  | Some _ =>
      let cats := delete name (categories d) in
      let rs := filter (fun r => category r <> name) (rentals d) in
      (save_data (Data cats rs) f, CategoryDeleted name)
  | None => (f, CategoryNotFound)
  end.

(** *** Text messages *)

(** [context.user_data['action']] *)
Inductive action_kind := add_category | add_rental.

Record user_data := UserData {
  action : option action_kind;
  selected_category : option text
}.

(** What [start] does to [user_data]: both keys are deleted. *)
Definition start (ud : user_data) : user_data := UserData None None.

Definition accumulate (p e i : num) (t : totals) : totals :=
  Totals (nadd (cat_profit t) p) (nadd (cat_expense t) e)
         (nadd (cat_income t) i).

Definition handle_text (ud : user_data) (message_text : text) (f : file)
    : user_data * file * answer :=
  let text := PyStr.strip message_text in
  match action ud with
  | Some add_category =>
      let '(d, f) := load_data f in
      match categories d !! text with
      | None =>
          let d' := Data (<[text := zero_totals]> (categories d)) (rentals d) in
          (start ud, save_data d' f, CategoryAdded text)
      | Some _ => (ud, f, CategoryExists)
      end
  | Some add_rental =>
      match selected_category ud with
      | None => (start ud, f, CategoryNotSelected)
      | Some cat =>
          match PyStr.split_ws text with
          | [p; e; start_time; end_time] =>
              match to_float p, to_float e with
              | Some profit, Some expense =>
                  if negb (validate_datetime_format start_time)
                  then (ud, f, BadStartTime)
                  else if negb (validate_datetime_format end_time)
                  then (ud, f, BadEndTime)
                  else
                    match parse_dt start_time, parse_dt end_time with
                    | Some start_dt, Some end_dt =>
                        if end_dt <=? start_dt then (ud, f, EndNotLater)
                        else
                          let income := nsub profit expense in
                          let '(d, f) := load_data f in
                          let r := Rental cat profit expense start_time
                                          end_time income false in
                          let rs := rentals d ++ [r] in
                          let cats :=
                            match categories d !! cat with
                            | Some t =>
                                <[cat := accumulate profit expense income t]>
                                  (categories d)
                            | None => categories d
                            end in
                          (start ud, save_data (Data cats rs) f, RentalAdded r)
                    | _, _ => (ud, f, BadData)
                    end
              | _, _ => (ud, f, BadData)
              end
          | _ => (ud, f, BadFieldCount)
          end
      end
  | None => (start ud, f, MainMenu)
  end.

(** *** Runs *)

(** The state a handler sees: what [load_data] returns. *)
Definition store (f : file) : data := (load_data f).1.

(** The requests that change the store. *)
Inductive command :=
| AddCategory (typed : text)
| AddRental (cat : text) (typed : text)
| UndoRental (rental_id : Z)
| DeleteCategory (name : text).

Definition run_command (c : command) (f : file) : file :=
  match c with
  | AddCategory text => (handle_text (UserData (Some add_category) None) text f).1.2
  | AddRental cat text =>
      (handle_text (UserData (Some add_rental) (Some cat)) text f).1.2
  | UndoRental i => (undo_rental i f).1
  | DeleteCategory name => (delete_category name f).1
  end.

Definition run (cs : list command) (f : file) : file :=
  foldl (fun f c => run_command c f) f cs.

(** A run of the job at the given instants. *)
Definition ticks (nows : list PyDatetime.instant) (chat : Z) (w : world)
    : world :=
  foldl (fun w now => check_rental_end_times now chat w) w nows.

(** *** Vocabulary of the statements *)

(** The rental as the job leaves it at instant [now]. *)
Definition mark (now : PyDatetime.instant) (r : rental) : rental :=
  if due now r then set_notified r else r.

(** The messages one pass over [rs] sends, in order. *)
Definition notes (now : PyDatetime.instant) (chat : Z) (rs : list rental)
    : list notification :=
  (fun r => Notification chat (category r))
    <$> filter (fun r => due now r = true) rs.

(** The window as the job reads it: the rental is not yet notified and
    its end time reads as an instant [e] with [e <= now < e + 60 s]. *)
Definition in_window (now : PyDatetime.instant) (r : rental) : Prop :=
  notified r = false
  /\ exists e, parse_dt (end_time r) = Some e
               /\ e <= now < e + PyDatetime.us_per_minute.

#[export] Instance in_window_dec now r : Decision (in_window now r).
Proof.
  unfold in_window. destruct (notified r).
  - right. by intros [? _].
  - destruct (parse_dt (end_time r)) as [e|].
    + destruct (decide (e <= now < e + PyDatetime.us_per_minute)) as [H|H].
      * left. split; [done|]. by exists e.
      * right. intros [_ (e' & [= <-] & ?)]. done.
    + right. by intros [_ (e & ? & _)].
Defined.

(** The rentals after the job has run at each of [nows] in turn. *)
Fixpoint marks (nows : list PyDatetime.instant) (rs : list rental)
    : list rental :=
  match nows with
  | [] => rs
  | now :: nows => marks nows (mark now <$> rs)
  end.

(** The messages those runs send, in order. *)
Fixpoint all_notes (nows : list PyDatetime.instant) (chat : Z)
    (rs : list rental) : list notification :=
  match nows with
  | [] => []
  | now :: nows => notes now chat rs ++ all_notes nows chat (mark now <$> rs)
  end.

(** *** The ledger as the specification words it *)

(** The rentals recorded under a name, in the order of the list. *)
Fixpoint named (name : text) (rs : list rental) : list rental :=
  match rs with
  | [] => []
  | r :: rs =>
      if decide (category r = name) then r :: named name rs
      else named name rs
  end.

(** The amounts added up one after the other, from [acc] on. *)
Fixpoint add_up (acc : num) (xs : list num) : num :=
  match xs with
  | [] => acc
  | x :: xs => add_up (nadd acc x) xs
  end.

(** The sum of a field over the rentals recorded under a name. *)
Definition sum_of (field : rental -> num) (name : text) (rs : list rental)
    : num :=
  add_up nzero (field <$> named name rs).

(** The totals of every category are the sums over its rentals. *)
Definition consistent (d : data) : Prop :=
  forall name t, categories d !! name = Some t ->
    cat_profit t = sum_of profit name (rentals d)
    /\ cat_expense t = sum_of expense name (rentals d)
    /\ cat_income t = sum_of income name (rentals d).

(** Every rental names a category of the dictionary. *)
Definition no_orphans (d : data) : Prop :=
  forall r, r ∈ rentals d -> is_Some (categories d !! category r).

(** A rental is added under a name that is a key at that moment. *)
Definition allowed (c : command) (f : file) : Prop :=
  match c with
  | AddRental cat _ => is_Some (categories (store f) !! cat)
  | _ => True
  end.

Fixpoint guarded (cs : list command) (f : file) : Prop :=
  match cs with
  | [] => True
  | c :: cs => allowed c f /\ guarded cs (run_command c f)
  end.

(** The two amounts of a rental message: it has four fields and the first
    two convert. *)
Definition typed_amounts (typed : text) : option (num * num) :=
  match PyStr.split_ws (PyStr.strip typed) with
  | [p; e; _; _] =>
      match to_float p, to_float e with
      | Some profit, Some expense => Some (profit, expense)
      | _, _ => None
      end
  | _ => None
  end.

(** *** The time format as the specification words it *)

(** One of the ten ASCII digits, read as its value. *)
Definition ascii_digit (c : N) : option Z :=
  let n := PyStr.code c in
  if (48 <=? n) && (n <=? 57) then Some (n - 48) else None.

(** Two digits read as a number; [digit] tells what a digit is. *)
Definition two_digits (digit : N -> option Z) (a b : N) : option Z :=
  x ← digit a; y ← digit b; Some (10 * x + y).

(** The shape HH:MM-DD.MM.YY: fourteen characters, two digits in each
    field, the separators in place.  Gives hour, minute, day, month and the
    two-digit year. *)
Definition shape (digit : N -> option Z) (s : text)
    : option (Z * Z * Z * Z * Z) :=
  match s with
  | [h1; h2; c1; m1; m2; c2; d1; d2; c3; o1; o2; c4; y1; y2] =>
      if PyStr.eqc c1 (ch ":") && PyStr.eqc c2 (ch "-")
         && PyStr.eqc c3 (ch ".") && PyStr.eqc c4 (ch ".")
      then
        hour ← two_digits digit h1 h2;
        minute ← two_digits digit m1 m2;
        day ← two_digits digit d1 d2;
        month ← two_digits digit o1 o2;
        year ← two_digits digit y1 y2;
        Some (hour, minute, day, month, year)
      else None
  | _ => None
  end.

(** The exact shape of the specification: the digits are ['0'..'9']. *)
Definition exact_shape (s : text) : option (Z * Z * Z * Z * Z) :=
  shape ascii_digit s.

(** A date of the calendar and a time of the 24-hour clock, the year read
    as 2000 + YY. *)
Definition calendar_valid (fields : Z * Z * Z * Z * Z) : bool :=
  let '(hour, minute, day, month, year) := fields in
  (hour <=? 23) && (minute <=? 59)
  && (1 <=? month) && (month <=? 12)
  && (1 <=? day) && (day <=? PyDatetime.days_in_month (2000 + year) month).

Definition spec_validate (s : text) : bool :=
  match exact_shape s with
  | Some fields => calendar_valid fields
  | None => false
  end.

(** The same shape written with the decimal digits of any script, and a
    calendar-valid date and time in it: a time text. *)
Definition time_fields (s : text) : option (Z * Z * Z * Z * Z) :=
  match shape PyStr.digit_val s with
  | Some fields => if calendar_valid fields then Some fields else None
  | None => None
  end.

Definition time_text (s : text) : Prop := is_Some (time_fields s).

(** The days from 0001-01-01 to a date of the calendar, counted in years
    that begin in March. *)
Definition days_from_civil (year month day : Z) : Z :=
  let y := if month <=? 2 then year - 1 else year in
  let era := y / 400 in
  let yoe := y - era * 400 in
  let mp := (month + 9) mod 12 in
  let doy := (153 * mp + 2) / 5 + day - 1 in
  let doe := yoe * 365 + yoe / 4 - yoe / 100 + doy in
  era * 146097 + doe - 306.

(** The instant a time text denotes: microseconds since 0001-01-01 00:00,
    the year read as 2000 + YY. *)
Definition instant_of (fields : Z * Z * Z * Z * Z) : PyDatetime.instant :=
  let '(hour, minute, day, month, year) := fields in
  (days_from_civil (2000 + year) month day * 1440 + hour * 60 + minute)
  * 60000000.

Definition time_instant (s : text) : option PyDatetime.instant :=
  instant_of <$> time_fields s.

(** The window of the specification: the rental is not yet notified and
    its end time [e] satisfies [e <= now < e + 60 s]. *)
Definition spec_window (now : PyDatetime.instant) (r : rental) : Prop :=
  notified r = false
  /\ exists e, time_instant (end_time r) = Some e
               /\ e <= now < e + 60000000.

#[export] Instance spec_window_dec now r : Decision (spec_window now r).
Proof.
  unfold spec_window. destruct (notified r).
  - right. by intros [? _].
  - destruct (time_instant (end_time r)) as [e|].
    + destruct (decide (e <= now < e + 60000000)) as [H|H].
      * left. split; [done|]. by exists e.
      * right. intros [_ (e' & [= <-] & ?)]. done.
    + right. by intros [_ (e & ? & _)].
Defined.

Definition line_feed : text := [ch "010"].

(** The text HH:MM-DD.MM.YY made of the given characters, then [tail]. *)
Definition shaped (h1 h2 m1 m2 d1 d2 o1 o2 y1 y2 : N) (tail : text)
    : text :=
  h1 :: h2 :: ch ":" :: m1 :: m2 :: ch "-" :: d1 :: d2 :: ch "." ::
  o1 :: o2 :: ch "." :: y1 :: y2 :: tail.

(** The value of a digit of any script, and the number two digits write. *)
Definition digit (c : N) : Z := default 0 (PyStr.digit_val c).

Definition value (a b : N) : Z := 10 * digit a + digit b.

End Bot.

Arguments totals : clear implicits.
Arguments rental : clear implicits.
Arguments data : clear implicits.
Arguments file : clear implicits.
Arguments world : clear implicits.
Arguments answer : clear implicits.

(** ** More of the Python runtime *)

Module PyText.

(** [a == b] on [str] *)
Fixpoint eqs (a b : text) : bool :=
  match a, b with
  | [], [] => true
  | x :: a, y :: b => PyStr.eqc x y && eqs a b
  | _, _ => false
  end.

(** [sep.join(parts)] *)
Fixpoint join (sep : N) (parts : list text) : text :=
  match parts with
  | [] => []
  | [x] => x
  | x :: rest => x ++ sep :: join sep rest
  end.

(** [s.startswith(prefix)] *)
Fixpoint startswith (s prefix : text) : bool :=
  match prefix, s with
  | [], _ => true
  | p :: prefix', c :: s' => PyStr.eqc c p && startswith s' prefix'
  | _ :: _, [] => false
  end.

(** [xs[1:-1]] *)
Definition inner {X} (xs : list X) : list X :=
  drop 1 (take (length xs - 1)%nat xs).

(** [xs[-1]] for the non-empty list a [split] returns. *)
Definition final (xs : list text) : text := default [] (last xs).

Definition digit_char (d : Z) : N := Z.to_N (48 + d).

(** The decimal digits of [n >= 0] put in front of [acc]; [fuel] bounds the
    number of digits. *)
Fixpoint str_digits (fuel : nat) (n : Z) (acc : text) : text :=
  match fuel with
  | O => acc
  | S fuel =>
      let acc' := digit_char (n mod 10) :: acc in
      if n <? 10 then acc' else str_digits fuel (n / 10) acc'
  end.

(** [str(n)] for an [int]. *)
Definition str (n : Z) : text :=
  if n <? 0
  then ch "-" :: str_digits (S (Z.to_nat (Z.log2 (- n)))) (- n) []
  else str_digits (S (Z.to_nat (Z.log2 n))) n [].

End PyText.

(** ** Menus, callbacks and the notification job *)

Section Menus.

Context {A : Amount} {F : Conversion A}.

(** [f'category_{category}_{mode}'], the data of a category button. *)
Definition callback_data (category mode : text) : text :=
  py "category_" ++ category ++ py "_" ++ mode.

(** The callback data of the keyboard [select_category_menu] builds: one
    button per key, then the back button.  The keys come in the order of the
    finite map, not in the insertion order of the Python dictionary. *)
Definition select_category_menu (mode : text) (f : file A)
    : list text * file A :=
  let '(d, f) := load_data f in
  (((fun kv => callback_data kv.1 mode) <$> map_to_list (categories d))
   ++ [if PyText.eqs mode (py "delete") || PyText.eqs mode (py "undo")
       then py "other_options" else py "back_to_main"],
   f).

(** What [button] does with the callback data. *)
Inductive route :=
| SelectCategoryMenu (mode : text)
| OtherOptionsMenu
| AskCategoryName
| ShowInfo
| StopNotifications
| ShowCategoryStats (category : text)
| AskRental (category : text)
| DeleteCategoryOf (category : text)
| UndoMenu (category : text)
| UndoRentalAt (rental_id : Z)
| BackToMain
| NoRoute                     (* no branch is taken *)
| RouteError.                 (* an exception is caught and reported *)

(** [queue] tells whether [context.job_queue] is there: without it [start]
    fails on a callback query, which has no [update.message], before it
    clears [user_data], and [button] reports the error. *)
Definition button (queue : bool) (data : text) (ud : user_data)
    : user_data * route :=
  if PyText.eqs data (py "select_category")
  then (ud, SelectCategoryMenu (py "view"))
  else if PyText.eqs data (py "select_category_for_rental")
  then (ud, SelectCategoryMenu (py "rental"))
  else if PyText.eqs data (py "other_options") then (ud, OtherOptionsMenu)
  else if PyText.eqs data (py "add_category")
  then (UserData (Some add_category) (selected_category ud), AskCategoryName)
  else if PyText.eqs data (py "delete_category")
  then (ud, SelectCategoryMenu (py "delete"))
  else if PyText.eqs data (py "select_category_to_undo")
  then (ud, SelectCategoryMenu (py "undo"))
  else if PyText.eqs data (py "info") then (ud, ShowInfo)
  else if PyText.eqs data (py "stop_notifications")
  then (ud, StopNotifications)
  else if PyText.startswith data (py "category_") then
    let parts := PyStr.split (ch "_") data in
    let category := PyText.join (ch "_") (PyText.inner parts) in
    let mode := PyText.final parts in
    if PyText.eqs mode (py "view") then (ud, ShowCategoryStats category)
    else if PyText.eqs mode (py "rental")
    then (UserData (Some add_rental) (Some category), AskRental category)
    else if PyText.eqs mode (py "delete") then (ud, DeleteCategoryOf category)
    else if PyText.eqs mode (py "undo") then (ud, UndoMenu category)
    else (ud, NoRoute)
  else if PyText.startswith data (py "undo_") then
    match PyStr.split (ch "_") data !! 1%nat with
    | Some field =>
        match PyStr.int field with
        | Some rental_id => (ud, UndoRentalAt rental_id)
        | None => (ud, RouteError)
        end
    | None => (ud, RouteError)
    end
  else if PyText.eqs data (py "back_to_main")
  then if queue then (start ud, BackToMain) else (ud, RouteError)
  else (ud, NoRoute).

(** The message of [show_rentals_to_undo]: the rentals in the order of its
    lines, and the callback data of its undo buttons in their order. *)
Record undo_menu := UndoMenuOf {
  shown : list (rental A);
  undo_buttons : list text
}.

Definition show_rentals_to_undo (name : text) (f : file A)
    : option undo_menu * file A :=
  let '(d, f) := load_data f in
  let rs := last5 (of_category name (rentals d)) in
  match rs with
  | [] => (None, f)
  | _ =>
      (Some (UndoMenuOf
               (reverse rs)
               ((fun i : nat =>
                   py "undo_" ++ PyText.str (Z.of_nat (length (rentals d))
                                             - Z.of_nat (length rs)
                                             + Z.of_nat i))
                  <$> seq 0 (length rs))),
       f)
  end.

(** *** Subscribing to the job *)

(** A job of the queue: its name and the chat it notifies. *)
Record job := Job {
  job_name : text;
  job_chat : Z
}.

(** The queue ([None] when the JobQueue is not installed) and the chats
    whose [chat_data] has the key ['job']. *)
Record session := Session {
  job_queue : option (list job);
  subscribed : gset Z
}.

(** The part of [start] that registers the job of the chat. *)
Definition start_job (chat : Z) (s : session) : session :=
  match job_queue s with
  | Some q =>
      if decide (chat ∈ subscribed s) then s
      else Session (Some (q ++ [Job (PyText.str chat) chat]))
                   ({[chat]} ∪ subscribed s)
  | None => s
  end.

Definition stop_notifications (chat : Z) (s : session) : session :=
  Session
    (filter (fun j => job_name j <> PyText.str chat) <$> job_queue s)
    (subscribed s ∖ {[chat]}).

(** *** Conversations *)

(** What the handlers registered in [main] receive.  Telegram marks the
    commands of a text; a [TextMessage] is a text message whose first
    entity is no command at the start of the text, the messages that
    [filters.TEXT & ~filters.COMMAND] lets through to [handle_text]. *)
Inductive update :=
| StartCommand                     (* /start *)
| StopCommand                      (* /stop_notifications *)
| OtherCommand                     (* a command without a handler *)
| CallbackQuery (query_data : text)
| TextMessage (typed : text).

(** An update with its sender and its chat. *)
Record event := Event {
  from_user : Z;
  in_chat : Z;
  what : update
}.



(** The handlers of [handle_text] that end with [await start(...)]. *)
Definition calls_start (a : answer A) : bool :=
  match a with
  | MainMenu | CategoryAdded _ | CategoryNotSelected | RentalAdded _ => true
  | _ => false
  end.

(** One update handled for a user with data [ud] in the chat [chat]:
    [button] calls the handler of its route. *)
Definition handle (chat : Z) (u : update) (ud : user_data) (f : file A)
    (s : session) : user_data * file A * session :=
  match u with
  | StartCommand => (start ud, f, start_job chat s)
  | StopCommand => (ud, f, stop_notifications chat s)
  | OtherCommand => (ud, f, s)
  | CallbackQuery query_data =>
      let '(ud', r) :=
        button (bool_decide (is_Some (job_queue s))) query_data ud in
      match r with
      | SelectCategoryMenu mode => (ud', (select_category_menu mode f).2, s)
      | ShowCategoryStats c => (ud', (show_category_stats c f).2, s)
      | DeleteCategoryOf c => (ud', (delete_category c f).1, s)
      | UndoMenu c => (ud', (show_rentals_to_undo c f).2, s)
      | UndoRentalAt i => (ud', (undo_rental i f).1, s)
      | StopNotifications => (ud', f, stop_notifications chat s)
      | BackToMain => (ud', f, start_job chat s)
      | OtherOptionsMenu | AskCategoryName | ShowInfo | AskRental _
      | NoRoute | RouteError => (ud', f, s)
      end
  | TextMessage typed =>
      let '(ud', f', a) := handle_text ud typed f in
      (ud', f', if calls_start a then start_job chat s else s)
  end.

(** The application: the [user_data] of every user (empty when the user is
    new), the file, the queue with the [chat_data]. *)
Record bot := Bot {
  users : gmap Z user_data;
  storage : file A;
  jobs : session
}.

Definition user_data_of (who : Z) (b : bot) : user_data :=
  default (UserData None None) (users b !! who).

Definition dispatch (e : event) (b : bot) : bot :=
  let '(ud, f, s) :=
    handle (in_chat e) (what e) (user_data_of (from_user e) b)
           (storage b) (jobs b) in
  Bot (<[from_user e := ud]> (users b)) f s.

Definition converse (es : list event) (b : bot) : bot :=
  foldl (fun b e => dispatch e b) b es.



(** The jobs of any chats run one after the other, each at its instant. *)
Definition jobs_run (events : list (PyDatetime.instant * Z)) (w : world A)
    : world A :=
  foldl (fun w e => check_rental_end_times e.1 e.2 w) w events.

(** *** More vocabulary *)

(** How many rentals are not yet notified. *)
Definition unnotified (rs : list (rental A)) : nat :=
  length (filter (fun r => notified r = false) rs).

(** A rental as [handle_text] writes it: two time texts, the end after the
    start, the income computed, the flag clear. *)
Definition well_formed (r : rental A) : Prop :=
  (exists sd ed, time_instant (start_time r) = Some sd
                 /\ time_instant (end_time r) = Some ed /\ sd < ed)
  /\ income r = nsub (profit r) (expense r)
  /\ notified r = false.

(** The position a Python index of the range [-n .. n-1] denotes. *)
Definition position (n : nat) (i : Z) : nat := Z.to_nat (i mod Z.of_nat n).

End Menus.

(** ** Concrete inputs *)

(** Inputs on binary64 amounts. *)
Module Scenario.

#[local] Existing Instance Binary64.amount.
#[local] Existing Instance Binary64.conversion.

Definition camera_rental : text :=
  py "50000 10000 14:06-11.07.25 14:07-11.07.25".

Definition selected (cat : text) : user_data :=
  UserData (Some add_rental) (Some cat).

(** The category is selected for a rental, deleted, the rental is typed,
    and the category is created again. *)
Definition orphan_run : list command :=
  [AddCategory (py "Camera"); DeleteCategory (py "Camera");
   AddRental (py "Camera") camera_rental; AddCategory (py "Camera")].

(** A guarded run on which binary64 rounds: 2^53 - 1 plus 2 is not a
    float. *)
Definition rounding_run : list command :=
  [AddCategory (py "Camera");
   AddRental (py "Camera")
     (py "9007199254740991 0 14:06-11.07.25 14:07-11.07.25");
   AddRental (py "Camera") (py "2 0 14:06-11.07.25 14:07-11.07.25");
   UndoRental 0].

(** Two categories, three rentals, an undo and a deletion. *)
Definition ledger_run : list command :=
  [AddCategory (py "Camera");
   AddRental (py "Camera") (py "50000 10000 14:06-11.07.25 18:00-11.07.25");
   AddCategory (py "Tripod");
   AddRental (py "Tripod") (py "700 200 09:00-12.07.25 10:00-12.07.25");
   AddRental (py "Camera") (py "30000 5000 10:00-13.07.25 12:00-13.07.25");
   UndoRental 0;
   DeleteCategory (py "Tripod")].

Definition t_14_07 : PyDatetime.instant :=
  default 0 (PyDatetime.datetime 2025 7 11 14 7).

Definition t_14_08 : PyDatetime.instant :=
  default 0 (PyDatetime.datetime 2025 7 11 14 8).

Definition camera_file : file Binary64.amount :=
  run [AddCategory (py "Camera"); AddRental (py "Camera") camera_rental]
      Missing.

Definition camera : rental Binary64.amount :=
  @Rental Binary64.amount (py "Camera")
          (Binary64.of_Z 50000) (Binary64.of_Z 10000)
          (py "14:06-11.07.25") (py "14:07-11.07.25")
          (Binary64.of_Z 40000) false.

(** The time 14:06-11.07.25 and the time 18:00-11.07.25 in Arabic-Indic
    digits. *)
Definition arabic_14_06 : text :=
  [1633; 1636; 58; 1632; 1638; 45; 1633; 1633; 46; 1632; 1639; 46;
   1634; 1637]%N.

Definition arabic_18_00 : text :=
  [1633; 1640; 58; 1632; 1632; 45; 1633; 1633; 46; 1632; 1639; 46;
   1634; 1637]%N.

(** A rental line with its two times in Arabic-Indic digits. *)
Definition arabic_rental : text :=
  py "50000 10000 " ++ arabic_14_06 ++ py " " ++ arabic_18_00.

End Scenario.

(** Inputs for the menus. *)
Module MenuScenario.

#[local] Existing Instance Binary64.amount.
#[local] Existing Instance Binary64.conversion.

(** Two rentals of one category. *)
Definition two_cameras : file Binary64.amount :=
  run [AddCategory (py "Camera");
       AddRental (py "Camera")
         (py "50000 10000 14:06-11.07.25 18:00-11.07.25");
       AddRental (py "Camera")
         (py "30000 5000 10:00-13.07.25 12:00-13.07.25")]
      Missing.

(** A rental of "Camera", then one of "Tripod". *)
Definition camera_then_tripod : file Binary64.amount :=
  run [AddCategory (py "Camera");
       AddRental (py "Camera")
         (py "50000 10000 14:06-11.07.25 18:00-11.07.25");
       AddCategory (py "Tripod");
       AddRental (py "Tripod") (py "700 200 09:00-12.07.25 10:00-12.07.25")]
      Missing.

Definition first_camera : rental Binary64.amount :=
  @Rental Binary64.amount (py "Camera")
          (Binary64.of_Z 50000) (Binary64.of_Z 10000)
          (py "14:06-11.07.25") (py "18:00-11.07.25")
          (Binary64.of_Z 40000) false.

Definition second_camera : rental Binary64.amount :=
  @Rental Binary64.amount (py "Camera")
          (Binary64.of_Z 30000) (Binary64.of_Z 5000)
          (py "10:00-13.07.25") (py "12:00-13.07.25")
          (Binary64.of_Z 25000) false.

Definition tripod : rental Binary64.amount :=
  @Rental Binary64.amount (py "Tripod")
          (Binary64.of_Z 700) (Binary64.of_Z 200)
          (py "09:00-12.07.25") (py "10:00-12.07.25")
          (Binary64.of_Z 500) false.

Definition idle : user_data := UserData None None.

End MenuScenario.

(** * Properties *)

(** Boolean comparisons of integers, turned into propositions for [lia]. *)
Ltac zbool :=
  repeat match goal with
    | H : _ && _ = true |- _ => apply andb_prop in H; destruct H
    | H : _ && _ = false |- _ => apply andb_false_iff in H; destruct H
    | H : (_ <=? _) = true |- _ => apply Z.leb_le in H
    | H : (_ <=? _) = false |- _ => apply Z.leb_gt in H
    | H : (_ <? _) = true |- _ => apply Z.ltb_lt in H
    | H : (_ <? _) = false |- _ => apply Z.ltb_ge in H
    | H : (_ =? _) = true |- _ => apply Z.eqb_eq in H
    | H : (_ =? _) = false |- _ => apply Z.eqb_neq in H
    end.

Section Storage.

Context {A : Amount}.

Lemma data_eta (d : data A) : Data (categories d) (rentals d) = d.
Proof. by destruct d. Qed.

Lemma store_save (d : data A) f : store (save_data d f) = d.
Proof. apply data_eta. Qed.

(** After [load_data] the file holds the returned state in dictionary
    form. *)
Lemma load_data_disk (f : file A) :
  (load_data f).2 = save_data (store f) f.
Proof.
  unfold store.
  destruct f as [ | | | [[names|m] rs]]; reflexivity.
Qed.

Lemma load_data_eq (f : file A) :
  load_data f = (store f, save_data (store f) f).
Proof. rewrite <- load_data_disk. unfold store. by destruct (load_data f). Qed.

Lemma store_loaded (f : file A) : store (load_data f).2 = store f.
Proof. rewrite load_data_disk. apply store_save. Qed.

Lemma migrate_fold (names : list text) (m : gmap text (totals A)) n :
  foldl (fun m cat => <[cat := zero_totals]> m) m names !! n
  = if decide (n ∈ names) then Some zero_totals else m !! n.
Proof.
  revert m. induction names as [|x names IH]; intros m; cbn [foldl].
  - rewrite decide_False; [done | apply not_elem_of_nil].
  - rewrite IH. destruct (decide (n ∈ names)) as [Hin|Hout].
    + rewrite decide_True; [done | by right].
    + destruct (decide (n = x)) as [->|Hne].
      * rewrite lookup_insert_eq, decide_True; [done | by left].
      * rewrite lookup_insert_ne by done. rewrite decide_False; [done|].
        intros [?|?]%elem_of_cons; done.
Qed.

Lemma migrate_lookup (names : list text) n :
  migrate (A:=A) names !! n
  = if decide (n ∈ names) then Some zero_totals else None.
Proof. unfold migrate. by rewrite migrate_fold, lookup_empty. Qed.

End Storage.

Section Migration.

Context {A : Amount}.

(** C9.  A document whose categories are a legacy list of names is loaded
    as the dictionary with one zero record per listed name, the same
    rentals, and this migrated document is what the file holds when
    [load_data] returns; a document already in dictionary form is returned
    as it is and the file is left alone. *)
Theorem load_data_migrates_legacy_list
    (names : list text) (m : gmap text (totals A)) (rs : list (rental A)) :
  load_data (Json (Document (NameList names) rs))
    = (Data (migrate names) rs, Json (Document (Dict (migrate names)) rs))
  /\ (forall n, migrate (A:=A) names !! n
                = if decide (n ∈ names) then Some zero_totals else None)
  /\ load_data (Json (Document (Dict m) rs))
     = (Data m rs, Json (Document (Dict m) rs)).
Proof.
  split; [reflexivity|]. split; [|reflexivity].
  intros n. apply migrate_lookup.
Qed.

End Migration.

Section Statistics.

Context {A : Amount}.

Lemma show_category_stats_eq name (f : file A) :
  show_category_stats name f
  = (let rs := of_category name (rentals (store f)) in
     Stats (py_sum (profit <$> rs)) (py_sum (expense <$> rs))
           (nsub (py_sum (profit <$> rs)) (py_sum (expense <$> rs)))
           (length rs) (last5 rs),
     save_data (store f) f).
Proof. unfold show_category_stats. by rewrite load_data_eq. Qed.

Lemma named_of_category name (rs : list (rental A)) :
  named name rs = of_category name rs.
Proof.
  unfold of_category. induction rs as [|r rs IH]; [done|].
  cbn [named]. rewrite filter_cons, IH. by destruct (decide _).
Qed.

Lemma add_up_foldl (acc : num) (xs : list num) :
  add_up acc xs = foldl nadd acc xs.
Proof. revert acc. induction xs as [|x xs IH]; intros acc; [done | apply IH]. Qed.

Lemma sum_of_py_sum (field : rental A -> num) name (rs : list (rental A)) :
  sum_of field name rs = py_sum (field <$> of_category name rs).
Proof. unfold sum_of, py_sum. by rewrite add_up_foldl, named_of_category. Qed.

(** C10.  The totals reported for a name are the sums of profit and of
    expense over the rentals recorded under that name, added up in the
    order of the list, the reported income is the first sum minus the
    second, the count is the number of those rentals, and two files with
    the same rentals give the same report whatever their category
    records hold. *)
Theorem stats_computed_from_rentals
    (name : text) (cats cats' : gmap text (totals A)) (rs : list (rental A)) :
  let st := (show_category_stats name (Json (Document (Dict cats) rs))).1 in
  total_profit st = sum_of profit name rs
  /\ total_expense st = sum_of expense name rs
  /\ total_income st = nsub (sum_of profit name rs) (sum_of expense name rs)
  /\ rental_count st = length (named name rs)
  /\ (show_category_stats name (Json (Document (Dict cats') rs))).1 = st
  /\ forall names,
       (show_category_stats name (Json (Document (NameList names) rs))).1 = st.
Proof.
  cbn zeta. rewrite !sum_of_py_sum, named_of_category.
  rewrite !show_category_stats_eq. cbn [fst total_profit total_expense
    total_income rental_count].
  repeat split.
Qed.

Lemma of_category_none name (rs : list (rental A)) :
  (forall r, r ∈ rs -> category r <> name) -> of_category name rs = [].
Proof.
  intros H. unfold of_category. induction rs as [|r rs IH]; [done|].
  rewrite filter_cons. destruct (decide (category r = name)) as [E|_].
  - exfalso. eapply H; [left | done].
  - apply IH. intros r' Hr'. apply H. by right.
Qed.

End Statistics.

Section DeleteCategory.

Context {A : Amount}.

Lemma delete_category_eq name (f : file A) :
  delete_category name f
  = match categories (store f) !! name with
    | Some _ =>
        (save_data
           (Data (delete name (categories (store f)))
                 (filter (fun r => category r <> name) (rentals (store f))))
           f,
         CategoryDeleted name)
    | None => (save_data (store f) f, CategoryNotFound)
    end.
Proof. unfold delete_category. by rewrite load_data_eq. Qed.

(** C8.  When the name is a key, [delete_category] answers that the
    category was deleted, the file then holds the dictionary without that
    key and the rentals whose category differs from the name (all of
    them, in order), and the statistics of the name on that file are the
    zero totals with no rental.  When the name is not a key, the answer
    is that the category was not found and the state is the one loaded
    before. *)
Theorem delete_category_cascades name (f : file A) :
  let '(f', ans) := delete_category name f in
  match categories (store f) !! name with
  | Some _ =>
      ans = CategoryDeleted name
      /\ f' = Json (Document
                (Dict (delete name (categories (store f))))
                (filter (fun r => category r <> name) (rentals (store f))))
      /\ categories (store f') !! name = None
      /\ (forall other, other <> name ->
            categories (store f') !! other = categories (store f) !! other)
      /\ (forall r, r ∈ rentals (store f')
                    <-> r ∈ rentals (store f) /\ category r <> name)
      /\ (show_category_stats name f').1 = Stats nzero nzero nzero 0%nat []
  | None =>
      ans = CategoryNotFound /\ store f' = store f
  end.
Proof.
  rewrite delete_category_eq.
  destruct (categories (store f) !! name) as [t|] eqn:Hk.
  - split; [done|]. split; [done|].
    rewrite show_category_stats_eq, !store_save. cbn [categories rentals].
    split; [apply lookup_delete_eq|].
    split; [intros other Hne; by apply lookup_delete_ne|].
    split; [intros r; rewrite list_elem_of_filter; tauto|].
    rewrite of_category_none.
    + cbn. unfold py_sum; cbn. by rewrite nsub_nzero.
    + intros r Hr. by apply list_elem_of_filter in Hr as [? _].
  - split; [done|]. apply store_save.
Qed.

End DeleteCategory.

(** * The time format *)

Section Digits.

Lemma run_value_inv runs n d :
  PyStr.run_value runs n = Some d ->
  exists s, s ∈ runs /\ s <= n <= s + 9 /\ d = n - s.
Proof.
  induction runs as [|s runs IH]; cbn [PyStr.run_value]; [done|].
  destruct (_ && _) eqn:E.
  - intros [= <-]. exists s. split; [left|]. zbool. lia.
  - intros H. destruct (IH H) as (s' & ? & ?). exists s'.
    split; [by right | done].
Qed.

(** The offsets inside a run of digits. *)
Definition offsets : list Z := [0; 1; 2; 3; 4; 5; 6; 7; 8; 9].

(** A property holds of every decimal digit when it holds of the ten code
    points of every run. *)
Lemma digit_class (P : N -> bool) :
  forallb (fun s => forallb (fun k => P (Z.to_N (s + k))) offsets)
          PyStr.decimal_runs = true ->
  forall c d, PyStr.digit_val c = Some d -> P c = true.
Proof.
  intros H c d Hd. unfold PyStr.digit_val in Hd.
  apply run_value_inv in Hd as (s & Hs & Hr & ->).
  rewrite forallb_forall in H.
  specialize (H s (proj1 (list_elem_of_In _ _) Hs)).
  rewrite forallb_forall in H. specialize (H (PyStr.code c - s)).
  replace (Z.to_N (s + (PyStr.code c - s))) with c in H
    by (unfold PyStr.code; lia).
  apply H. unfold offsets. cbn [In].
  assert (PyStr.code c - s = 0 \/ PyStr.code c - s = 1
          \/ PyStr.code c - s = 2 \/ PyStr.code c - s = 3
          \/ PyStr.code c - s = 4 \/ PyStr.code c - s = 5
          \/ PyStr.code c - s = 6 \/ PyStr.code c - s = 7
          \/ PyStr.code c - s = 8 \/ PyStr.code c - s = 9) by lia.
  intuition congruence.
Qed.

Lemma digit_val_range c d : PyStr.digit_val c = Some d -> 0 <= d <= 9.
Proof.
  unfold PyStr.digit_val. intros (s & _ & ? & ->)%run_value_inv. lia.
Qed.

(** A decimal digit is no white space, no sign and none of the
    separators. *)
Lemma digit_plain c d :
  PyStr.digit_val c = Some d ->
  PyStr.is_space c = false /\ PyStr.is_int_space c = false
  /\ PyStr.eqc c (ch ":") = false /\ PyStr.eqc c (ch "-") = false
  /\ PyStr.eqc c (ch ".") = false /\ PyStr.eqc c (ch "_") = false
  /\ PyStr.eqc c (ch "+") = false /\ PyStr.eqc c (ch "010") = false.
Proof.
  intros Hd.
  pose proof (digit_class
    (fun c => negb (PyStr.is_space c) && negb (PyStr.is_int_space c)
              && negb (PyStr.eqc c (ch ":")) && negb (PyStr.eqc c (ch "-"))
              && negb (PyStr.eqc c (ch ".")) && negb (PyStr.eqc c (ch "_"))
              && negb (PyStr.eqc c (ch "+")) && negb (PyStr.eqc c (ch "010")))
    ltac:(vm_compute; reflexivity) c d Hd) as H.
  cbv beta in H.
  repeat (apply andb_prop in H as [H ?]).
  repeat split; by apply negb_true_iff.
Qed.

Lemma is_digit_val c :
  PyStr.is_digit c = true -> PyStr.digit_val c = Some (digit c).
Proof.
  unfold PyStr.is_digit, digit. by destruct (PyStr.digit_val c).
Qed.

Lemma digit_val_is_digit c d :
  PyStr.digit_val c = Some d -> PyStr.is_digit c = true /\ digit c = d.
Proof. unfold PyStr.is_digit, digit. by intros ->. Qed.

Lemma digit_range c : PyStr.is_digit c = true -> 0 <= digit c <= 9.
Proof. intros H. eapply digit_val_range, is_digit_val, H. Qed.

(** The ASCII digits are decimal digits with the same value, and the only
    decimal digits below 128. *)
Lemma ascii_digit_val c d :
  ascii_digit c = Some d -> PyStr.digit_val c = Some d.
Proof.
  unfold ascii_digit, PyStr.digit_val. cbn zeta.
  destruct (_ && _) eqn:E; [|done]. intros [= <-].
  unfold PyStr.decimal_runs. cbn [PyStr.run_value].
  replace (48 + 9) with 57 by lia. by rewrite E.
Qed.

Lemma digit_val_ascii c d :
  PyStr.digit_val c = Some d -> PyStr.code c < 128 -> ascii_digit c = Some d.
Proof.
  intros Hd Hc.
  pose proof (digit_class
    (fun c => (128 <=? PyStr.code c)
              || match ascii_digit c with Some _ => true | None => false end)
    ltac:(vm_compute; reflexivity) c d Hd) as H.
  cbv beta in H. apply orb_prop in H as [H|H]; [zbool; lia|].
  destruct (ascii_digit c) as [d'|] eqn:E; [|done].
  apply ascii_digit_val in E. congruence.
Qed.

End Digits.

Section TimeFormat.

Lemma strip_two sp (a b : N) :
  sp a = false -> sp b = false -> PyStr.strip_by sp [a; b] = [a; b].
Proof.
  intros Ha Hb. unfold PyStr.strip_by. cbn [PyStr.lstrip_by].
  rewrite Ha. change (reverse [a; b]) with [b; a].
  cbn [PyStr.lstrip_by]. by rewrite Hb.
Qed.

Lemma strip_two_lf sp (a b : N) :
  sp a = false -> sp b = false -> sp (ch "010") = true ->
  PyStr.strip_by sp ([a; b] ++ line_feed) = [a; b].
Proof.
  intros Ha Hb Hlf. unfold PyStr.strip_by, line_feed. cbn [app PyStr.lstrip_by].
  rewrite Ha. change (reverse [a; b; ch "010"]) with [ch "010"; b; a].
  cbn [PyStr.lstrip_by]. by rewrite Hlf, Hb.
Qed.

Lemma int_of_two a b :
  PyStr.is_digit a = true -> PyStr.is_digit b = true ->
  (if PyStr.eqc a (ch "+") then PyStr.int_digits 0 false [b]
   else if PyStr.eqc a (ch "-") then Z.opp <$> PyStr.int_digits 0 false [b]
   else PyStr.int_digits 0 false [a; b])
  = Some (value a b).
Proof.
  intros Ha Hb. apply is_digit_val in Ha, Hb.
  destruct (digit_plain a _ Ha) as (_ & _ & _ & Hm & _ & _ & Hp & _).
  rewrite Hp, Hm. cbn [PyStr.int_digits]. rewrite Ha, Hb.
  unfold value. f_equal; lia.
Qed.

Lemma int_two_digits a b :
  PyStr.is_digit a = true -> PyStr.is_digit b = true ->
  PyStr.int [a; b] = Some (value a b).
Proof.
  intros Ha Hb. unfold PyStr.int.
  destruct (digit_plain a _ (is_digit_val a Ha)) as (_ & Hsa & _).
  destruct (digit_plain b _ (is_digit_val b Hb)) as (_ & Hsb & _).
  rewrite strip_two by done. by apply int_of_two.
Qed.

Lemma int_two_digits_lf a b :
  PyStr.is_digit a = true -> PyStr.is_digit b = true ->
  PyStr.int ([a; b] ++ line_feed) = Some (value a b).
Proof.
  intros Ha Hb. unfold PyStr.int.
  destruct (digit_plain a _ (is_digit_val a Ha)) as (_ & Hsa & _).
  destruct (digit_plain b _ (is_digit_val b Hb)) as (_ & Hsb & _).
  rewrite strip_two_lf by done. by apply int_of_two.
Qed.

Lemma split_empty sep : PyStr.split sep [] = [[]].
Proof. reflexivity. Qed.

Lemma split_separator sep s :
  PyStr.split sep (sep :: s) = [] :: PyStr.split sep s.
Proof. cbn. unfold PyStr.eqc. by rewrite N.eqb_refl. Qed.

Lemma split_other c sep s :
  PyStr.eqc c sep = false ->
  PyStr.split sep (c :: s)
  = match PyStr.split sep s with
    | x :: xs => (c :: x) :: xs
    | [] => [[c]]
    end.
Proof. intros H. cbn. by rewrite H. Qed.

Lemma digit_not_colon c :
  PyStr.is_digit c = true -> PyStr.eqc c (ch ":") = false.
Proof. intros H. by destruct (digit_plain c _ (is_digit_val c H)) as (_ & _ & ? & _). Qed.

Lemma digit_not_minus c :
  PyStr.is_digit c = true -> PyStr.eqc c (ch "-") = false.
Proof.
  intros H.
  by destruct (digit_plain c _ (is_digit_val c H)) as (_ & _ & _ & ? & _).
Qed.

Lemma digit_not_dot c :
  PyStr.is_digit c = true -> PyStr.eqc c (ch ".") = false.
Proof.
  intros H.
  by destruct (digit_plain c _ (is_digit_val c H)) as (_ & _ & _ & _ & ? & _).
Qed.

Ltac split_step :=
  first [ rewrite split_separator
        | rewrite split_other
            by first [ by apply digit_not_colon | by apply digit_not_minus
                     | by apply digit_not_dot | reflexivity ]
        | rewrite split_empty ].

Lemma parse_dt_shaped h1 h2 m1 m2 d1 d2 o1 o2 y1 y2 tail :
  PyStr.is_digit h1 = true -> PyStr.is_digit h2 = true ->
  PyStr.is_digit m1 = true -> PyStr.is_digit m2 = true ->
  PyStr.is_digit d1 = true -> PyStr.is_digit d2 = true ->
  PyStr.is_digit o1 = true -> PyStr.is_digit o2 = true ->
  PyStr.is_digit y1 = true -> PyStr.is_digit y2 = true ->
  tail = [] \/ tail = line_feed ->
  parse_dt (shaped h1 h2 m1 m2 d1 d2 o1 o2 y1 y2 tail)
  = PyDatetime.datetime (2000 + value y1 y2) (value o1 o2) (value d1 d2)
                        (value h1 h2) (value m1 m2).
Proof.
  intros Hh1 Hh2 Hm1 Hm2 Hd1 Hd2 Ho1 Ho2 Hy1 Hy2 Htail.
  unfold parse_dt, shaped.
  destruct Htail as [-> | ->]; unfold line_feed;
    repeat (repeat split_step; cbv beta iota);
    change [y1; y2; ch "010"] with ([y1; y2] ++ line_feed);
    rewrite ?int_two_digits, ?int_two_digits_lf by done; reflexivity.
Qed.

(** What the constructor of [datetime] checks, on two-digit fields. *)
Lemma datetime_calendar_valid hour minute day month year :
  0 <= hour -> 0 <= minute -> 0 <= year <= 99 ->
  is_Some (PyDatetime.datetime (2000 + year) month day hour minute)
  <-> calendar_valid (hour, minute, day, month, year) = true.
Proof.
  intros Hh Hm Hy. unfold PyDatetime.datetime, calendar_valid,
    PyDatetime.MINYEAR, PyDatetime.MAXYEAR.
  destruct (Z.leb_spec 1 (2000 + year)); [|lia].
  destruct (Z.leb_spec (2000 + year) 9999); [|lia].
  destruct (Z.leb_spec 0 hour); [|lia].
  destruct (Z.leb_spec 0 minute); [|lia].
  cbn [andb].
  destruct (1 <=? month), (month <=? 12), (1 <=? day),
    (day <=? PyDatetime.days_in_month (2000 + year) month),
    (hour <=? 23), (minute <=? 59); cbn [andb];
    split; first [done | by intros [? ?] | by eexists].
Qed.

Lemma value_range a b :
  PyStr.is_digit a = true -> PyStr.is_digit b = true -> 0 <= value a b <= 99.
Proof.
  intros Ha Hb. pose proof (digit_range a Ha). pose proof (digit_range b Hb).
  unfold value. lia.
Qed.

Ltac eat_digit s c H :=
  destruct s as [|c s]; [discriminate|]; cbn [PyRe.match_items];
  destruct (PyStr.is_digit c) eqn:H; [|discriminate].

Ltac eat_literal s :=
  let c := fresh "c" in
  let E := fresh "E" in
  destruct s as [|c s]; [discriminate|]; cbn [PyRe.match_items];
  destruct (PyStr.eqc c _) eqn:E; [|discriminate];
  apply N.eqb_eq in E; subst c.

(** A text the pattern matches is made of ten digits and the separators,
    and ends there or with one line feed. *)
Lemma matches_pattern_inv s :
  PyRe.matches pattern s = true ->
  exists h1 h2 m1 m2 d1 d2 o1 o2 y1 y2 tail,
    s = shaped h1 h2 m1 m2 d1 d2 o1 o2 y1 y2 tail
    /\ Forall (fun c => PyStr.is_digit c = true)
              [h1; h2; m1; m2; d1; d2; o1; o2; y1; y2]
    /\ (tail = [] \/ tail = line_feed).
Proof.
  unfold PyRe.matches, pattern.
  eat_digit s h1 Hh1. eat_digit s h2 Hh2. eat_literal s.
  eat_digit s m1 Hm1. eat_digit s m2 Hm2. eat_literal s.
  eat_digit s d1 Hd1. eat_digit s d2 Hd2. eat_literal s.
  eat_digit s o1 Ho1. eat_digit s o2 Ho2. eat_literal s.
  eat_digit s y1 Hy1. eat_digit s y2 Hy2.
  intros Hrest. exists h1, h2, m1, m2, d1, d2, o1, o2, y1, y2, s.
  split; [done|]. split; [by repeat constructor|].
  destruct s as [|c [|? ?]]; [by left | | done].
  right. cbn in Hrest. apply N.eqb_eq in Hrest. by subst c.
Qed.

Lemma matches_pattern_shaped h1 h2 m1 m2 d1 d2 o1 o2 y1 y2 tail :
  Forall (fun c => PyStr.is_digit c = true)
         [h1; h2; m1; m2; d1; d2; o1; o2; y1; y2] ->
  tail = [] \/ tail = line_feed ->
  PyRe.matches pattern (shaped h1 h2 m1 m2 d1 d2 o1 o2 y1 y2 tail) = true.
Proof.
  intros Hd Htail. repeat (apply Forall_cons in Hd as [? Hd]).
  unfold PyRe.matches, pattern, shaped. cbn [PyRe.match_items].
  repeat match goal with H : PyStr.is_digit _ = true |- _ => rewrite H; clear H end.
  unfold PyStr.eqc. rewrite !N.eqb_refl.
  by destruct Htail as [-> | ->].
Qed.

Ltac eat_char t c := destruct t as [|c t]; [discriminate|].

Ltac read_digit c :=
  let v := fresh "v" in
  let E := fresh "E" in
  destruct (PyStr.digit_val c) as [v|] eqn:E; [|discriminate];
  apply digit_val_is_digit in E as [? <-].

(** A text of the shape is made of ten digits and the separators. *)
Lemma shape_inv t fields :
  shape PyStr.digit_val t = Some fields ->
  exists h1 h2 m1 m2 d1 d2 o1 o2 y1 y2,
    t = shaped h1 h2 m1 m2 d1 d2 o1 o2 y1 y2 []
    /\ Forall (fun c => PyStr.is_digit c = true)
              [h1; h2; m1; m2; d1; d2; o1; o2; y1; y2]
    /\ fields = (value h1 h2, value m1 m2, value d1 d2, value o1 o2,
                 value y1 y2).
Proof.
  unfold shape.
  eat_char t h1. eat_char t h2. eat_char t c1. eat_char t m1. eat_char t m2.
  eat_char t c2. eat_char t d1. eat_char t d2. eat_char t c3. eat_char t o1.
  eat_char t o2. eat_char t c4. eat_char t y1. eat_char t y2.
  destruct t; [|discriminate].
  unfold PyStr.eqc.
  destruct (N.eqb_spec c1 (ch ":")) as [->|]; [|discriminate].
  destruct (N.eqb_spec c2 (ch "-")) as [->|]; [|discriminate].
  destruct (N.eqb_spec c3 (ch ".")) as [->|]; [|discriminate].
  destruct (N.eqb_spec c4 (ch ".")) as [->|]; [|discriminate].
  cbn [andb]. unfold two_digits. cbn [mbind option_bind].
  read_digit h1. read_digit h2. read_digit m1. read_digit m2.
  read_digit d1. read_digit d2. read_digit o1. read_digit o2.
  read_digit y1. read_digit y2.
  cbn [mbind option_bind]. intros [= <-].
  exists h1, h2, m1, m2, d1, d2, o1, o2, y1, y2.
  split; [done|]. split; [by repeat constructor | done].
Qed.

Lemma shape_shaped h1 h2 m1 m2 d1 d2 o1 o2 y1 y2 :
  Forall (fun c => PyStr.is_digit c = true)
         [h1; h2; m1; m2; d1; d2; o1; o2; y1; y2] ->
  shape PyStr.digit_val (shaped h1 h2 m1 m2 d1 d2 o1 o2 y1 y2 [])
  = Some (value h1 h2, value m1 m2, value d1 d2, value o1 o2, value y1 y2).
Proof.
  intros Hd. repeat (apply Forall_cons in Hd as [? Hd]).
  unfold shape, shaped, two_digits, PyStr.eqc. rewrite !N.eqb_refl.
  cbn [andb mbind option_bind].
  repeat match goal with
    | H : PyStr.is_digit _ = true |- _ =>
        rewrite (is_digit_val _ H); clear H
    end.
  reflexivity.
Qed.

(** The exact shape of the specification is the shape in ASCII digits. *)
Lemma exact_shape_decimal t fields :
  exact_shape t = Some fields -> shape PyStr.digit_val t = Some fields.
Proof.
  unfold exact_shape, shape.
  do 14 (destruct t as [|? t]; [discriminate|]). destruct t; [|discriminate].
  destruct (_ && _); [|done]. unfold two_digits.
  repeat match goal with
    | |- context [ascii_digit ?c] =>
        let E := fresh "E" in
        destruct (ascii_digit c) eqn:E; [|discriminate];
        rewrite (ascii_digit_val _ _ E); cbn [mbind option_bind]
    end.
  done.
Qed.

Lemma spec_validate_time_text t : spec_validate t = true -> time_text t.
Proof.
  unfold spec_validate, time_text, time_fields.
  destruct (exact_shape t) as [fields|] eqn:E; [|done]. intros Hc.
  rewrite (exact_shape_decimal _ _ E), Hc. by eexists.
Qed.

(** On a text of the shape, with or without a final line feed, the source
    decides by the calendar. *)
Lemma validate_shaped h1 h2 m1 m2 d1 d2 o1 o2 y1 y2 tail :
  Forall (fun c => PyStr.is_digit c = true)
         [h1; h2; m1; m2; d1; d2; o1; o2; y1; y2] ->
  tail = [] \/ tail = line_feed ->
  validate_datetime_format (shaped h1 h2 m1 m2 d1 d2 o1 o2 y1 y2 tail)
  = calendar_valid (value h1 h2, value m1 m2, value d1 d2, value o1 o2,
                    value y1 y2).
Proof.
  intros Hd Htail. unfold validate_datetime_format.
  rewrite matches_pattern_shaped by done. cbn [negb].
  repeat (apply Forall_cons in Hd as [? Hd]).
  rewrite parse_dt_shaped by done.
  pose proof (value_range h1 h2 ltac:(done) ltac:(done)).
  pose proof (value_range m1 m2 ltac:(done) ltac:(done)).
  pose proof (value_range y1 y2 ltac:(done) ltac:(done)).
  pose proof (datetime_calendar_valid (value h1 h2) (value m1 m2)
                (value d1 d2) (value o1 o2) (value y1 y2)
                ltac:(lia) ltac:(lia) ltac:(lia)) as [Hto Hfrom].
  destruct (PyDatetime.datetime _ _ _ _ _) as [e|].
  - symmetry. apply Hto. by eexists.
  - destruct (calendar_valid _) eqn:Hc; [|done].
    by destruct Hfrom as [? ?].
Qed.

Lemma time_fields_shaped h1 h2 m1 m2 d1 d2 o1 o2 y1 y2 :
  Forall (fun c => PyStr.is_digit c = true)
         [h1; h2; m1; m2; d1; d2; o1; o2; y1; y2] ->
  time_fields (shaped h1 h2 m1 m2 d1 d2 o1 o2 y1 y2 [])
  = if calendar_valid (value h1 h2, value m1 m2, value d1 d2, value o1 o2,
                       value y1 y2)
    then Some (value h1 h2, value m1 m2, value d1 d2, value o1 o2,
               value y1 y2)
    else None.
Proof. intros Hd. unfold time_fields. by rewrite shape_shaped. Qed.

Lemma time_text_inv t :
  time_text t ->
  exists h1 h2 m1 m2 d1 d2 o1 o2 y1 y2,
    t = shaped h1 h2 m1 m2 d1 d2 o1 o2 y1 y2 []
    /\ Forall (fun c => PyStr.is_digit c = true)
              [h1; h2; m1; m2; d1; d2; o1; o2; y1; y2]
    /\ calendar_valid (value h1 h2, value m1 m2, value d1 d2, value o1 o2,
                       value y1 y2) = true.
Proof.
  unfold time_text, time_fields. intros [fields Hf].
  destruct (shape PyStr.digit_val t) as [fs|] eqn:Hs; [|done].
  apply shape_inv in Hs
    as (h1 & h2 & m1 & m2 & d1 & d2 & o1 & o2 & y1 & y2 & -> & Hd & ->).
  exists h1, h2, m1, m2, d1, d2, o1, o2, y1, y2.
  split; [done|]. split; [done|]. by destruct (calendar_valid _).
Qed.

(** The source accepts exactly the time texts, and the time texts followed
    by one line feed. *)
Lemma validate_datetime_format_spec s :
  validate_datetime_format s = true
  <-> exists t, (s = t \/ s = t ++ line_feed) /\ time_text t.
Proof.
  split.
  - intros Hv.
    destruct (PyRe.matches pattern s) eqn:Hm;
      [|unfold validate_datetime_format in Hv; by rewrite Hm in Hv].
    apply matches_pattern_inv in Hm
      as (h1 & h2 & m1 & m2 & d1 & d2 & o1 & o2 & y1 & y2 & tail
          & -> & Hd & Htail).
    rewrite validate_shaped in Hv by done.
    exists (shaped h1 h2 m1 m2 d1 d2 o1 o2 y1 y2 []).
    split; [destruct Htail as [-> | ->]; [by left | by right]|].
    unfold time_text. rewrite time_fields_shaped, Hv by done. by eexists.
  - intros (t & Hs & Ht).
    apply time_text_inv in Ht
      as (h1 & h2 & m1 & m2 & d1 & d2 & o1 & o2 & y1 & y2 & -> & Hd & Hc).
    assert (exists tail, s = shaped h1 h2 m1 m2 d1 d2 o1 o2 y1 y2 tail
                         /\ (tail = [] \/ tail = line_feed))
      as (tail & -> & Htail).
    { destruct Hs as [-> | ->]; [exists [] | exists line_feed];
        (split; [reflexivity | tauto]). }
    by rewrite validate_shaped.
Qed.

Lemma days_before_month_bound year month :
  0 <= PyDatetime.days_before_month year month <= 366.
Proof.
  unfold PyDatetime.days_before_month, PyDatetime.DAYS_IN_MONTH.
  assert (forall n, 0 <= foldr Z.add 0
                          (take n [31; 28; 31; 30; 31; 30; 31; 31; 30; 31; 30; 31])
                    <= 365) as H.
  { intros n. do 12 (destruct n as [|n]; [cbn; lia|]).
    cbn [take firstn]. rewrite take_nil. cbn. lia. }
  specialize (H (Z.to_nat (month - 1))).
  destruct (_ && _); lia.
Qed.

(** An instant of the years up to 2099 is far from [datetime.max]. *)
Lemma datetime_bound year month day hour minute e :
  PyDatetime.datetime year month day hour minute = Some e ->
  year <= 2099 ->
  e + PyDatetime.us_per_minute <= PyDatetime.max_instant.
Proof.
  unfold PyDatetime.datetime. destruct (_ && _) eqn:Hc; [|done].
  intros [= <-] Hy. zbool.
  pose proof (days_before_month_bound year month) as Hm.
  assert (PyDatetime.days_in_month year month <= 31) as Hdim.
  { unfold PyDatetime.days_in_month, PyDatetime.DAYS_IN_MONTH.
    destruct (_ && _); [lia|].
    generalize (Z.to_nat (month - 1)). intros n.
    do 12 (destruct n as [|n]; [cbn; lia|]). cbn. destruct n; lia. }
  assert (PyDatetime.days_before_year year <= 367 * 2099) as Hby.
  { unfold PyDatetime.days_before_year, PyDatetime.MINYEAR in *. cbn zeta.
    pose proof (Z.div_pos (year - 1) 100 ltac:(lia) ltac:(lia)).
    pose proof (Z.div_le_upper_bound (year - 1) 4 (year - 1) ltac:(lia) ltac:(lia)).
    pose proof (Z.div_le_upper_bound (year - 1) 400 (year - 1) ltac:(lia) ltac:(lia)).
    lia. }
  unfold PyDatetime.ymd2ord, PyDatetime.max_instant, PyDatetime.us_per_day,
    PyDatetime.us_per_minute, PyDatetime.MAXYEAR.
  change (PyDatetime.days_before_year (9999 + 1)) with 3652059.
  nia.
Qed.

(** A text that [validate_datetime_format] accepts reads as an instant
    whose following minute exists. *)
Lemma validated_end_in_range s :
  validate_datetime_format s = true ->
  exists e, parse_dt s = Some e
            /\ e + PyDatetime.us_per_minute <= PyDatetime.max_instant.
Proof.
  intros Hv. pose proof Hv as Hv'. unfold validate_datetime_format in Hv'.
  destruct (PyRe.matches pattern s) eqn:Hm; [|done]. cbn [negb] in Hv'.
  destruct (parse_dt s) as [e|] eqn:Hp; [|done]. exists e. split; [done|].
  apply matches_pattern_inv in Hm
    as (h1 & h2 & m1 & m2 & d1 & d2 & o1 & o2 & y1 & y2 & tail
        & -> & Hd & Htail).
  repeat (apply Forall_cons in Hd as [? Hd]).
  rewrite parse_dt_shaped in Hp by done.
  eapply datetime_bound; [exact Hp|].
  pose proof (value_range y1 y2 ltac:(done) ltac:(done)). lia.
Qed.

(** The day count of the civil calendar and the ordinal of [datetime]
    agree on the first day of every month of the years 2000 to 2099. *)
Lemma civil_first_days :
  forallb (fun year =>
    forallb (fun month =>
      days_from_civil (2000 + year) month 1
      =? PyDatetime.ymd2ord (2000 + year) month 1 - 1)
      (seqZ 1 12))
    (seqZ 0 100) = true.
Proof. by vm_compute. Qed.

Lemma civil_ymd2ord year month day :
  0 <= year <= 99 -> 1 <= month <= 12 ->
  days_from_civil (2000 + year) month day
  = PyDatetime.ymd2ord (2000 + year) month day - 1.
Proof.
  intros Hy Hm. pose proof civil_first_days as H.
  rewrite forallb_forall in H.
  specialize (H year). rewrite <- list_elem_of_In, elem_of_seqZ in H.
  specialize (H ltac:(lia)). rewrite forallb_forall in H.
  specialize (H month). rewrite <- list_elem_of_In, elem_of_seqZ in H.
  specialize (H ltac:(lia)). apply Z.eqb_eq in H.
  unfold days_from_civil, PyDatetime.ymd2ord in *. cbn zeta in *. lia.
Qed.

(** On calendar-valid fields the constructor of [datetime] gives the
    instant of the civil calendar. *)
Lemma datetime_instant_of hour minute day month year :
  0 <= hour -> 0 <= minute -> 0 <= year <= 99 ->
  calendar_valid (hour, minute, day, month, year) = true ->
  PyDatetime.datetime (2000 + year) month day hour minute
  = Some (instant_of (hour, minute, day, month, year)).
Proof.
  intros Hh Hm Hy Hc.
  pose proof (proj2 (datetime_calendar_valid hour minute day month year
                       Hh Hm Hy) Hc) as [e He].
  rewrite He. f_equal. unfold PyDatetime.datetime in He.
  destruct (_ && _); [|done]. injection He as <-.
  unfold calendar_valid in Hc. zbool.
  unfold instant_of. rewrite civil_ymd2ord by lia.
  unfold PyDatetime.us_per_day, PyDatetime.us_per_minute. lia.
Qed.

(** The source reads a time text as the instant it denotes. *)
Lemma time_fields_parse_dt s fields :
  time_fields s = Some fields -> parse_dt s = Some (instant_of fields).
Proof.
  intros Hf. unfold time_fields in Hf.
  destruct (shape PyStr.digit_val s) as [fs|] eqn:Hs; [|done].
  destruct (calendar_valid fs) eqn:Hc; [|done]. injection Hf as ->.
  apply shape_inv in Hs
    as (h1 & h2 & m1 & m2 & d1 & d2 & o1 & o2 & y1 & y2 & -> & Hd & ->).
  repeat (apply Forall_cons in Hd as [? Hd]).
  rewrite parse_dt_shaped by (done || by left).
  pose proof (value_range h1 h2 ltac:(done) ltac:(done)).
  pose proof (value_range m1 m2 ltac:(done) ltac:(done)).
  pose proof (value_range y1 y2 ltac:(done) ltac:(done)).
  apply datetime_instant_of; (lia || done).
Qed.

Lemma time_text_parse_dt s :
  time_text s -> parse_dt s = time_instant s.
Proof.
  intros [fields Hf]. unfold time_instant. rewrite Hf.
  by apply time_fields_parse_dt.
Qed.

(** A time text is accepted by the source, and its following minute
    exists. *)
Lemma time_text_valid s : time_text s -> validate_datetime_format s = true.
Proof.
  intros Ht. apply validate_datetime_format_spec. exists s. by split; [left|].
Qed.

Lemma time_text_add_minute s :
  time_text s ->
  exists e, time_instant s = Some e
            /\ PyDatetime.add_minute e = Some (e + 60000000).
Proof.
  intros Ht.
  destruct (validated_end_in_range s (time_text_valid s Ht)) as (e & He & Hb).
  rewrite (time_text_parse_dt s Ht) in He. exists e. split; [done|].
  unfold PyDatetime.add_minute.
  destruct (Z.leb_spec (e + PyDatetime.us_per_minute) PyDatetime.max_instant);
    [done | lia].
Qed.

End TimeFormat.

(** C4.  [validate_datetime_format] returns true exactly on the time texts
    (the shape HH:MM-DD.MM.YY written with decimal digits of any script,
    with calendar-valid fields for the year 2000 + YY) and on a time text
    followed by one line feed.  Every text of the exact shape in ASCII
    digits with calendar-valid fields is accepted, and the three texts of
    the specification are rejected; but the time 14:06-11.07.25 written in
    Arabic-Indic digits is accepted too, and a rental typed with it is
    stored, although the text does not have the exact shape. *)
Theorem validate_accepts_other_digits :
  (forall s, validate_datetime_format s = true
             <-> exists t, (s = t \/ s = t ++ line_feed) /\ time_text t)
  /\ (forall s, spec_validate s = true -> validate_datetime_format s = true)
  /\ validate_datetime_format Scenario.arabic_14_06 = true
  /\ spec_validate Scenario.arabic_14_06 = false
  /\ (exists r,
        (@handle_text Binary64.amount Binary64.conversion
                     (Scenario.selected (py "Camera"))
                     Scenario.arabic_rental Scenario.camera_file).2
        = RentalAdded r
        /\ start_time r = Scenario.arabic_14_06
        /\ end_time r = Scenario.arabic_18_00)
  /\ validate_datetime_format (py "25:00-01.01.25") = false
  /\ validate_datetime_format (py "14:06-32.01.25") = false
  /\ validate_datetime_format (py "1406-11.07.25") = false.
Proof.
  split; [apply validate_datetime_format_spec|].
  split; [intros s Hs; by apply time_text_valid, spec_validate_time_text|].
  split; [by vm_compute|]. split; [by vm_compute|].
  split; [|by vm_compute].
  eexists. split; [vm_compute; reflexivity|]. by vm_compute.
Qed.

Section Scheduler.

Context {A : Amount}.

Lemma due_notified now (r : rental A) : notified r = true -> due now r = false.
Proof. intros H. unfold due. by rewrite H. Qed.

Lemma due_set_notified now (r : rental A) : due now (set_notified r) = false.
Proof. reflexivity. Qed.

Lemma mark_not_due now (rs : list (rental A)) :
  Forall (fun r => due now r = false) rs -> mark now <$> rs = rs.
Proof.
  induction 1 as [|r rs Hr _ IH]; [done|].
  rewrite fmap_cons, IH. unfold mark. by rewrite Hr.
Qed.

Lemma notes_not_due now chat (rs : list (rental A)) :
  Forall (fun r => due now r = false) rs -> notes now chat rs = [].
Proof.
  induction 1 as [|r rs Hr _ IH]; [done|].
  unfold notes in *. rewrite filter_cons.
  destruct (decide (due now r = true)) as [E|_]; [congruence | done].
Qed.

Lemma notes_cons now chat (r : rental A) rs :
  notes now chat (r :: rs)
  = if due now r then Notification chat (category r) :: notes now chat rs
    else notes now chat rs.
Proof.
  unfold notes. rewrite filter_cons.
  destruct (due now r); [by rewrite decide_True | by rewrite decide_False].
Qed.

Lemma notes_app now chat (rs1 rs2 : list (rental A)) :
  notes now chat (rs1 ++ rs2) = notes now chat rs1 ++ notes now chat rs2.
Proof. unfold notes. by rewrite filter_app, fmap_app. Qed.

(** The loop, in closed form.  The file is written exactly when some
    rental of [todo] is due, and what the last write leaves is the whole
    list as the loop leaves it. *)
Lemma tick_loop_spec now chat cats (done todo : list (rental A)) w :
  tick_loop now chat cats done todo w
  = (done ++ (mark now <$> todo),
     World (if decide (Forall (fun r => due now r = false) todo)
            then disk w
            else save_data (Data cats (done ++ (mark now <$> todo))) (disk w))
           (sent w ++ notes now chat todo)).
Proof.
  revert done w. induction todo as [|r rest IH]; intros done w.
  - cbn. rewrite !app_nil_r. rewrite decide_True by constructor.
    by destruct w.
  - cbn [tick_loop]. rewrite notes_cons, fmap_cons. unfold mark at 1 3.
    destruct (due now r) eqn:Hr.
    + rewrite IH. cbn [disk sent]. rewrite <- !app_assoc. cbn [app].
      rewrite (decide_False (P := Forall _ (r :: rest))).
      2:{ intros H. apply Forall_cons in H as [H _]. congruence. }
      f_equal. f_equal.
      destruct (decide (Forall (fun r0 => due now r0 = false) rest)) as [Hn|_];
        [|done].
      by rewrite (mark_not_due _ _ Hn).
    + rewrite IH. rewrite <- !app_assoc. cbn [app].
      f_equal. f_equal.
      destruct (decide (Forall (fun r0 => due now r0 = false) rest)) as [Hn|Hn].
      * rewrite decide_True; [done | by constructor].
      * rewrite decide_False; [done|].
        intros H. by apply Forall_cons in H as [_ H].
Qed.

(** One run of the job, in closed form. *)
Lemma check_rental_end_times_spec now chat (w : world A) :
  check_rental_end_times now chat w
  = World (save_data (Data (categories (store (disk w)))
                           (mark now <$> rentals (store (disk w)))) (disk w))
          (sent w ++ notes now chat (rentals (store (disk w)))).
Proof.
  unfold check_rental_end_times. rewrite load_data_eq, tick_loop_spec.
  cbn [snd disk sent app]. f_equal.
  destruct (decide _) as [Hn|_]; [|done].
  rewrite (mark_not_due _ _ Hn). reflexivity.
Qed.

(** The decision of the loop is the window of the specification, unless
    the minute after the end time is past [datetime.max]. *)
Lemma due_in_window now (r : rental A) :
  now + PyDatetime.us_per_minute <= PyDatetime.max_instant
  \/ validate_datetime_format (end_time r) = true ->
  due now r = true <-> in_window now r.
Proof.
  intros Hok. unfold due, in_window, PyDatetime.add_minute.
  destruct (notified r); [split; [done | by intros [? _]]|].
  destruct (parse_dt (end_time r)) as [e|] eqn:Hp;
    [|split; [done | by intros [_ (e & ? & _)]]].
  destruct (Z.leb_spec e now) as [Hle|Hlt].
  - assert (e + PyDatetime.us_per_minute <= PyDatetime.max_instant) as Hmax.
    { destruct Hok as [?|Hv]; [lia|].
      apply validated_end_in_range in Hv as (e' & He' & ?). congruence. }
    rewrite (proj2 (Z.leb_le _ _) Hmax), Z.ltb_lt. split.
    + intros H. split; [done|]. exists e. split; [done | lia].
    + intros [_ (e' & [= <-] & H)]. lia.
  - split; [done|]. intros [_ (e' & [= <-] & H)]. lia.
Qed.

Lemma filter_iff_in {X} (P Q : X -> Prop) `{!forall x, Decision (P x)}
    `{!forall x, Decision (Q x)} (l : list X) :
  Forall (fun x => P x <-> Q x) l -> filter P l = filter Q l.
Proof.
  induction 1 as [|x l Hx _ IH]; [done|].
  rewrite !filter_cons, IH.
  destruct (decide (P x)), (decide (Q x)); tauto.
Qed.

(** On a time text the decision of the loop is the window of the
    specification. *)
Lemma due_spec_window now (r : rental A) :
  time_text (end_time r) -> due now r = true <-> spec_window now r.
Proof.
  intros Ht. unfold due, spec_window.
  destruct (time_text_add_minute _ Ht) as (e & He & Hadd).
  rewrite (time_text_parse_dt _ Ht), He, Hadd.
  destruct (notified r); [split; [done | by intros [? _]]|].
  destruct (Z.leb_spec e now) as [Hle|Hlt].
  - rewrite Z.ltb_lt. split.
    + intros H. split; [done|]. exists e. split; [done | lia].
    + intros [_ (e' & [= <-] & H)]. lia.
  - split; [done|]. intros [_ (e' & [= <-] & H)]. lia.
Qed.

(** C5.  On a store whose end times are time texts, at every instant: one
    run of the job sends one message, naming the category, for each rental
    whose flag is false and whose end time [e] satisfies
    [e <= now < e + 60 s], in list order, and no other message; the state
    afterwards has the same categories and the same rentals, those of the
    window with the flag true and every other field as before, the others
    unchanged; and the file holds that state. *)
Theorem tick_notifies_exactly_the_window now chat (w : world A) :
  Forall (fun r => time_text (end_time r)) (rentals (store (disk w))) ->
  let d := store (disk w) in
  let w' := check_rental_end_times now chat w in
  sent w' = sent w ++ ((fun r => Notification chat (category r))
                         <$> filter (spec_window now) (rentals d))
  /\ store (disk w')
     = Data (categories d)
            ((fun r => if decide (spec_window now r)
                       then Rental (category r) (profit r) (expense r)
                                   (start_time r) (end_time r) (income r) true
                       else r)
               <$> rentals d)
  /\ disk w' = Json (Document (Dict (categories (store (disk w'))))
                              (rentals (store (disk w')))).
Proof.
  intros Hok d w'. subst d w'. rewrite check_rental_end_times_spec.
  cbn [disk sent]. rewrite store_save. cbn [categories rentals].
  assert (Forall (fun r => due now r = true <-> spec_window now r)
                 (rentals (store (disk w)))) as Hall.
  { eapply Forall_impl; [exact Hok|]. intros r Hr.
    by apply due_spec_window. }
  split; [|split; [|done]].
  - f_equal. unfold notes. f_equal. by apply filter_iff_in.
  - f_equal. apply list_fmap_ext. intros i r Hi. unfold mark.
    rewrite Forall_lookup in Hall. specialize (Hall i r Hi).
    destruct (decide (spec_window now r)) as [H|H].
    + apply Hall in H. by rewrite H.
    + destruct (due now r) eqn:E; [|done]. exfalso. apply H. by apply Hall.
Qed.

Lemma ticks_cons now nows chat (w : world A) :
  ticks (now :: nows) chat w
  = ticks nows chat (check_rental_end_times now chat w).
Proof. reflexivity. Qed.

Lemma ticks_spec nows chat cats (rs : list (rental A)) out :
  ticks nows chat (World (Json (Document (Dict cats) rs)) out)
  = World (Json (Document (Dict cats) (marks nows rs)))
          (out ++ all_notes nows chat rs).
Proof.
  revert rs out. induction nows as [|now nows IH]; intros rs out.
  - cbn. by rewrite app_nil_r.
  - rewrite ticks_cons, check_rental_end_times_spec.
    unfold store, save_data; cbn [load_data disk sent doc_categories
      doc_rentals fst categories rentals].
    rewrite IH. cbn [marks all_notes]. by rewrite app_assoc.
Qed.

Lemma marks_app nows (rs1 rs2 : list (rental A)) :
  marks nows (rs1 ++ rs2) = marks nows rs1 ++ marks nows rs2.
Proof.
  revert rs1 rs2. induction nows as [|now nows IH]; intros rs1 rs2; [done|].
  cbn. by rewrite fmap_app, IH.
Qed.

Lemma marks_length nows (rs : list (rental A)) :
  length (marks nows rs) = length rs.
Proof.
  revert rs. induction nows as [|now nows IH]; intros rs; [done|].
  cbn. by rewrite IH, length_fmap.
Qed.

Lemma marks_notified nows (r : rental A) :
  marks nows [set_notified r] = [set_notified r].
Proof. induction nows as [|now nows IH]; [done|]. cbn. apply IH. Qed.

Lemma all_notes_skip nows chat (rs1 rs2 : list (rental A)) r :
  all_notes nows chat (rs1 ++ set_notified r :: rs2)
  = all_notes nows chat (rs1 ++ rs2).
Proof.
  revert rs1 rs2. induction nows as [|now nows IH]; intros rs1 rs2; [done|].
  cbn [all_notes]. rewrite !fmap_app, fmap_cons. unfold mark at 2.
  rewrite due_set_notified, IH. f_equal.
  rewrite !notes_app, notes_cons. by rewrite due_set_notified.
Qed.

Lemma existsb_due_set_notified nows (r : rental A) :
  existsb (fun now => due now (set_notified r)) nows = false.
Proof. by induction nows. Qed.

Lemma marks_closed_form nows (rs : list (rental A)) :
  marks nows rs
  = (fun r => if existsb (fun now => due now r) nows
              then set_notified r else r) <$> rs.
Proof.
  revert rs. induction nows as [|now nows IH]; intros rs.
  - cbn. by rewrite list_fmap_id.
  - cbn [marks existsb]. rewrite IH, <- list_fmap_compose.
    apply list_fmap_ext. intros _ r _. unfold compose, mark.
    destruct (due now r) eqn:Hd; cbn [orb]; [|done].
    by rewrite existsb_due_set_notified.
Qed.

(** C6.  A rental whose flag is set is skipped at every instant; over any
    run of the job it stays where it is, unchanged, and the messages sent
    and the other rentals are what they would be without it.  Over any
    run every rental ends either as it was or, when some run found it due,
    with its flag set and nothing else changed; a set flag is never
    cleared. *)
Theorem notified_rental_is_never_renotified
    nows chat cats (rs1 rs2 rs : list (rental A)) (r : rental A) out :
  let w1 := ticks nows chat
              (World (Json (Document (Dict cats) (rs1 ++ set_notified r :: rs2)))
                     out) in
  let w2 := ticks nows chat
              (World (Json (Document (Dict cats) (rs1 ++ rs2))) out) in
  (forall now, due now (set_notified r) = false)
  /\ sent w1 = sent w2
  /\ (exists rs1' rs2',
        length rs1' = length rs1
        /\ rentals (store (disk w1)) = rs1' ++ set_notified r :: rs2'
        /\ rentals (store (disk w2)) = rs1' ++ rs2')
  /\ rentals (store (disk (ticks nows chat
                             (World (Json (Document (Dict cats) rs)) out))))
     = (fun x => if existsb (fun now => due now x) nows
                 then set_notified x else x) <$> rs
  /\ (forall x, notified x = true ->
        existsb (fun now => due now x) nows = false).
Proof.
  intros w1 w2. subst w1 w2. rewrite !ticks_spec. cbn [disk sent].
  unfold store; cbn [load_data doc_categories doc_rentals fst rentals].
  split; [done|]. split; [by rewrite all_notes_skip|].
  split.
  - exists (marks nows rs1), (marks nows rs2).
    split; [apply marks_length|].
    rewrite (marks_app _ rs1 (_ :: _)), (marks_app _ [_] rs2 : marks _ (_ :: _) = _).
    rewrite marks_notified, marks_app. done.
  - split; [apply marks_closed_form|].
    intros x Hx. induction nows as [|now nows IH]; [done|].
    cbn. by rewrite due_notified, IH.
Qed.

End Scheduler.

Section Ledger.

Context {A : Amount} {F : Conversion A}.

Lemma py_index_cases {X} (xs : list X) i :
  let n := Z.of_nat (length xs) in
  (0 <= i < n /\ py_index xs i = Some (Z.to_nat i))
  \/ (- n <= i < 0 /\ py_index xs i = Some (Z.to_nat (n + i)))
  \/ ((i < - n \/ n <= i) /\ py_index xs i = None).
Proof.
  unfold py_index. cbn zeta.
  destruct (Z.leb_spec 0 i), (Z.ltb_spec i (Z.of_nat (length xs))),
    (Z.leb_spec (- Z.of_nat (length xs)) i), (Z.ltb_spec i 0);
    cbn [andb]; first [left; split; [lia | done]
                      | right; left; split; [lia | done]
                      | right; right; split; [lia | done]].
Qed.

Lemma py_index_bound {X} (xs : list X) i k :
  py_index xs i = Some k -> (k < length xs)%nat.
Proof.
  destruct (py_index_cases xs i) as [[? ->]|[[? ->]|[? ->]]];
    intros ?; simplify_eq; lia.
Qed.

Lemma py_index_nonneg {X} (xs : list X) i :
  0 <= i < Z.of_nat (length xs) -> py_index xs i = Some (Z.to_nat i).
Proof.
  intros H. destruct (py_index_cases xs i) as [[? ->]|[[? ->]|[? ->]]];
    [done | lia | lia].
Qed.

Lemma py_index_negative {X} (xs : list X) i :
  - Z.of_nat (length xs) <= i < 0 ->
  py_index xs i = Some (Z.to_nat (Z.of_nat (length xs) + i)).
Proof.
  intros H. destruct (py_index_cases xs i) as [[? ->]|[[? ->]|[? ->]]];
    [lia | done | lia].
Qed.

Lemma py_index_outside {X} (xs : list X) i :
  i < - Z.of_nat (length xs) \/ Z.of_nat (length xs) <= i ->
  py_index xs i = None.
Proof.
  intros H. destruct (py_index_cases xs i) as [[? ->]|[[? ->]|[? ->]]];
    [lia | lia | done].
Qed.

Lemma undo_rental_eq i (f : file A) :
  undo_rental i f
  = let d := store f in
    match py_index (rentals d) i with
    | None => (save_data d f, UndoFailed)
    | Some k =>
        match rentals d !! k with
        | None => (save_data d f, UndoFailed)
        | Some r =>
            (save_data
               (Data match categories d !! category r with
                     | Some t => <[category r := subtract r t]> (categories d)
                     | None => categories d
                     end
                     (delete k (rentals d))) f,
             RentalUndone r)
        end
    end.
Proof. unfold undo_rental. by rewrite load_data_eq. Qed.

(** An index outside [-n .. n-1] is refused and the state stays. *)
Lemma undo_rental_outside i (f : file A) :
  i < - Z.of_nat (length (rentals (store f)))
  \/ Z.of_nat (length (rentals (store f))) <= i ->
  (undo_rental i f).2 = UndoFailed /\ store (undo_rental i f).1 = store f.
Proof.
  intros H. rewrite undo_rental_eq. cbn zeta.
  rewrite py_index_outside by done. split; [done | apply store_save].
Qed.

(** At a position [k] the index denotes, the rental is taken out of its
    category's totals, when the category is a key, and out of the list. *)
Lemma undo_rental_at i k r (f : file A) :
  py_index (rentals (store f)) i = Some k ->
  rentals (store f) !! k = Some r ->
  undo_rental i f
  = (Json (Document
             (Dict match categories (store f) !! category r with
                   | Some t => <[category r := subtract r t]>
                                 (categories (store f))
                   | None => categories (store f)
                   end)
             (delete k (rentals (store f)))),
     RentalUndone r).
Proof. intros Hi Hk. rewrite undo_rental_eq. cbn zeta. by rewrite Hi, Hk. Qed.

(** The undo is refused exactly on the indices outside [-n .. n-1]. *)
Lemma undo_rental_fails_iff i (f : file A) :
  (undo_rental i f).2 = UndoFailed
  <-> i < - Z.of_nat (length (rentals (store f)))
      \/ Z.of_nat (length (rentals (store f))) <= i.
Proof.
  rewrite undo_rental_eq. cbn zeta.
  destruct (py_index_cases (rentals (store f)) i)
    as [[Hr Hi]|[[Hr Hi]|[Hr Hi]]]; rewrite Hi.
  - destruct (lookup_lt_is_Some_2 (rentals (store f)) (Z.to_nat i))
      as [r ->]; [lia|]. cbn. split; [done | lia].
  - destruct (lookup_lt_is_Some_2 (rentals (store f))
                (Z.to_nat (Z.of_nat (length (rentals (store f))) + i)))
      as [r ->]; [lia|]. cbn. split; [done | lia].
  - cbn. split; [done | done].
Qed.

Lemma handle_text_add_category text (f : file A) :
  handle_text (UserData (Some add_category) None) text f
  = let name := PyStr.strip text in
    match categories (store f) !! name with
    | None =>
        (UserData None None,
         save_data (Data (<[name := zero_totals]> (categories (store f)))
                         (rentals (store f))) f,
         CategoryAdded name)
    | Some _ => (UserData (Some add_category) None, save_data (store f) f,
                 CategoryExists)
    end.
Proof. unfold handle_text. cbn [action]. by rewrite load_data_eq. Qed.

(** A rental message whose four fields pass every check. *)
Lemma handle_text_add_rental ud text (f : file A) cat p e s t profit expense
    sd ed :
  action ud = Some add_rental ->
  selected_category ud = Some cat ->
  PyStr.split_ws (PyStr.strip text) = [p; e; s; t] ->
  to_float p = Some profit ->
  to_float e = Some expense ->
  validate_datetime_format s = true ->
  validate_datetime_format t = true ->
  parse_dt s = Some sd ->
  parse_dt t = Some ed ->
  handle_text ud text f
  = if ed <=? sd then (ud, f, EndNotLater)
    else
      let r := Rental cat profit expense s t (nsub profit expense) false in
      (start ud,
       save_data
         (Data match categories (store f) !! cat with
               | Some c => <[cat := accumulate profit expense
                                      (nsub profit expense) c]>
                             (categories (store f))
               | None => categories (store f)
               end
               (rentals (store f) ++ [r])) f,
       RentalAdded r).
Proof.
  intros Ha Hc Hsp Hp He Hs Ht Hsd Hed. unfold handle_text.
  rewrite Ha, Hc, Hsp, Hp, He, Hs, Ht, Hsd, Hed. cbn [negb].
  destruct (ed <=? sd); [done|]. by rewrite load_data_eq.
Qed.

(** Whatever the text, a rental message leaves the file as it is or
    appends one rental of the selected category, whose two time texts
    passed [validate_datetime_format]. *)
Lemma handle_text_add_rental_cases cat text (f : file A) :
  let f' := (handle_text (UserData (Some add_rental) (Some cat)) text f).1.2 in
  f' = f
  \/ exists p e s t,
       let r := Rental cat p e s t (nsub p e) false in
       validate_datetime_format s = true
       /\ validate_datetime_format t = true
       /\ store f'
          = Data match categories (store f) !! cat with
                 | Some c => <[cat := accumulate p e (nsub p e) c]>
                               (categories (store f))
                 | None => categories (store f)
                 end
                 (rentals (store f) ++ [r]).
Proof.
  unfold handle_text. cbn [action selected_category].
  destruct (PyStr.split_ws _) as [|p [|e [|s [|t [|]]]]]; try by left.
  destruct (to_float p) as [profit|]; [|by left].
  destruct (to_float e) as [expense|]; [|by left].
  destruct (validate_datetime_format s) eqn:Hs; [|by left].
  destruct (validate_datetime_format t) eqn:Ht; [|by left].
  cbn [negb].
  destruct (parse_dt s) as [sd|]; [|by left].
  destruct (parse_dt t) as [ed|]; [|by left].
  destruct (ed <=? sd); [by left|].
  right. exists profit, expense, s, t. rewrite load_data_eq.
  cbn [fst snd]. split; [done|]. split; [done|]. apply store_save.
Qed.

(** The same, with the amounts of the appended rental. *)
Lemma handle_text_add_rental_amounts cat text (f : file A) :
  let f' := (handle_text (UserData (Some add_rental) (Some cat)) text f).1.2 in
  f' = f
  \/ exists p e s t,
       let r := Rental cat p e s t (nsub p e) false in
       typed_amounts text = Some (p, e)
       /\ store f'
          = Data match categories (store f) !! cat with
                 | Some c => <[cat := accumulate p e (nsub p e) c]>
                               (categories (store f))
                 | None => categories (store f)
                 end
                 (rentals (store f) ++ [r]).
Proof.
  unfold handle_text, typed_amounts. cbn [action selected_category].
  destruct (PyStr.split_ws _) as [|p [|e [|s [|t [|]]]]]; try by left.
  destruct (to_float p) as [profit|]; [|by left].
  destruct (to_float e) as [expense|]; [|by left].
  destruct (validate_datetime_format s) eqn:Hs; [|by left].
  destruct (validate_datetime_format t) eqn:Ht; [|by left].
  cbn [negb].
  destruct (parse_dt s) as [sd|]; [|by left].
  destruct (parse_dt t) as [ed|]; [|by left].
  destruct (ed <=? sd); [by left|].
  right. exists profit, expense, s, t. rewrite load_data_eq.
  cbn [fst snd]. split; [done|]. apply store_save.
Qed.

(** C7.  A rental message with four fields, numeric amounts and two
    valid time texts whose end instant is not after the start instant is
    answered with the end-not-later message; the file is not touched and
    [user_data] stays as it was. *)
Theorem end_not_after_start_is_rejected
    ud text (f : file A) cat p e s t profit expense sd ed :
  action ud = Some add_rental ->
  selected_category ud = Some cat ->
  PyStr.split_ws (PyStr.strip text) = [p; e; s; t] ->
  to_float p = Some profit ->
  to_float e = Some expense ->
  validate_datetime_format s = true ->
  validate_datetime_format t = true ->
  parse_dt s = Some sd ->
  parse_dt t = Some ed ->
  ed <= sd ->
  handle_text ud text f = (ud, f, EndNotLater).
Proof.
  intros Ha Hc Hsp Hp He Hs Ht Hsd Hed Hle.
  rewrite (handle_text_add_rental _ _ _ _ _ _ _ _ _ _ _ _
             Ha Hc Hsp Hp He Hs Ht Hsd Hed).
  by rewrite (proj2 (Z.leb_le _ _) Hle).
Qed.

(** C2, as the code has it.  A rental message that passes every check and
    whose selected category is not a key is accepted: the rental is
    appended with [notified = false] and [income = profit - expense], the
    dictionary of categories is the one loaded, and the file holds the
    result. *)
Theorem rental_for_missing_category_is_appended
    ud text (f : file A) cat p e s t profit expense sd ed :
  action ud = Some add_rental ->
  selected_category ud = Some cat ->
  PyStr.split_ws (PyStr.strip text) = [p; e; s; t] ->
  to_float p = Some profit ->
  to_float e = Some expense ->
  validate_datetime_format s = true ->
  validate_datetime_format t = true ->
  parse_dt s = Some sd ->
  parse_dt t = Some ed ->
  sd < ed ->
  categories (store f) !! cat = None ->
  let r := Rental cat profit expense s t (nsub profit expense) false in
  handle_text ud text f
  = (start ud,
     Json (Document (Dict (categories (store f))) (rentals (store f) ++ [r])),
     RentalAdded r).
Proof.
  intros Ha Hc Hsp Hp He Hs Ht Hsd Hed Hlt Hcat r.
  rewrite (handle_text_add_rental _ _ _ _ _ _ _ _ _ _ _ _
             Ha Hc Hsp Hp He Hs Ht Hsd Hed).
  rewrite (proj2 (Z.leb_gt _ _) Hlt). cbn zeta. by rewrite Hcat.
Qed.

End Ledger.

(** * Binary64 on integers

    Below 2^53 the integers are floats, and a sum or a difference of two of
    them that is again below 2^53 is computed without rounding.  The proofs
    go through the specification of the operations on [spec_float]. *)

Module Exactness.

Import Floats.SpecFloat Floats.FloatOps Floats.FloatAxioms.

Lemma iter_pos_nat {X} (f : X -> X) p x :
  iter_pos f p x = Nat.iter (Pos.to_nat p) f x.
Proof.
  revert x. induction p as [p IH|p IH|]; intros x; cbn [iter_pos].
  - rewrite !IH. rewrite Pos2Nat.inj_xI.
    replace (S (2 * Pos.to_nat p))%nat with (Pos.to_nat p + (Pos.to_nat p + 1))%nat by lia.
    rewrite !Nat.iter_add. reflexivity.
  - rewrite !IH. rewrite Pos2Nat.inj_xO.
    replace (2 * Pos.to_nat p)%nat with (Pos.to_nat p + Pos.to_nat p)%nat by lia.
    rewrite Nat.iter_add. reflexivity.
  - reflexivity.
Qed.

Lemma digits2_log2 p : Zpos (digits2_pos p) = Z.log2 (Zpos p) + 1.
Proof.
  assert (forall q, digits2_pos q = Pos.size q) as H.
  { induction q; cbn; congruence. }
  rewrite H. destruct p; cbn; lia.
Qed.

Lemma shr_1_even m :
  0 < m ->
  shr_1 {| shr_m := 2 * m; shr_r := false; shr_s := false |}
  = {| shr_m := m; shr_r := false; shr_s := false |}.
Proof. destruct m; try lia. reflexivity. Qed.

Lemma shr_iter n m :
  0 < m ->
  Nat.iter n shr_1 {| shr_m := m * 2 ^ Z.of_nat n; shr_r := false; shr_s := false |}
  = {| shr_m := m; shr_r := false; shr_s := false |}.
Proof.
  intros Hm. revert m Hm. induction n as [|n IH]; intros m Hm.
  - cbn [Nat.iter Z.of_nat]. rewrite Z.pow_0_r, Z.mul_1_r. reflexivity.
  - rewrite Nat.iter_succ_r.
    replace (m * 2 ^ Z.of_nat (S n)) with (2 * (m * 2 ^ Z.of_nat n)).
    + rewrite shr_1_even by (apply Z.mul_pos_pos; [lia | apply Z.pow_pos_nonneg; lia]).
      apply IH. exact Hm.
    + rewrite Nat2Z.inj_succ, Z.pow_succ_r by lia. lia.
Qed.

Lemma Zdigits2_log2 m : 0 < m -> Zdigits2 m = Z.log2 m + 1.
Proof. destruct m as [|p|p]; try lia. intros _. apply digits2_log2. Qed.

Definition canon (s : bool) (n : positive) : spec_float :=
  S754_finite s (Z.to_pos (Zpos n * 2 ^ (53 - Zpos (digits2_pos n))))
              (Zpos (digits2_pos n) - 53).

Lemma fexp_small d : 1 <= d -> fexp prec emax d = d - 53.
Proof. intros H. unfold fexp, emin, prec, emax. lia. Qed.

Lemma aux_exact s n sigma :
  Zpos (digits2_pos n) <= 53 -> 0 <= sigma ->
  binary_round_aux prec emax s
    (Zpos n * 2 ^ (53 - Zpos (digits2_pos n) + sigma))
    (Zpos (digits2_pos n) - 53 - sigma) loc_Exact
  = canon s n.
Proof.
  intros Hd Hs. set (d := Zpos (digits2_pos n)) in *.
  assert (1 <= d) as Hd1 by (unfold d; lia).
  assert (Z.log2 (Zpos n) = d - 1) as Hlog by (unfold d; rewrite digits2_log2; lia).
  set (m := Zpos n * 2 ^ (53 - d)).
  assert (0 < m) as Hm by (apply Z.mul_pos_pos; [lia | apply Z.pow_pos_nonneg; lia]).
  assert (Z.log2 m = 52) as Hlm.
  { unfold m. rewrite Z.log2_mul_pow2 by lia. lia. }
  assert (Zpos n * 2 ^ (53 - d + sigma) = m * 2 ^ sigma) as HM.
  { unfold m. rewrite Z.pow_add_r by lia. lia. }
  rewrite HM.
  assert (0 < m * 2 ^ sigma) as HMpos
    by (apply Z.mul_pos_pos; [lia | apply Z.pow_pos_nonneg; lia]).
  unfold binary_round_aux, shr_fexp.
  rewrite (Zdigits2_log2 _ HMpos), Z.log2_mul_pow2, Hlm by lia.
  replace (sigma + 52 + 1 + (d - 53 - sigma)) with d by lia.
  rewrite fexp_small by lia.
  replace (d - 53 - (d - 53 - sigma)) with sigma by lia.
  cbn [shr_record_of_loc].
  assert (shr {| shr_m := m * 2 ^ sigma; shr_r := false; shr_s := false |}
              (d - 53 - sigma) sigma
          = ({| shr_m := m; shr_r := false; shr_s := false |}, d - 53)) as ->.
  { unfold shr. destruct sigma as [|p|p]; [| |lia].
    - rewrite Z.pow_0_r, Z.mul_1_r. f_equal. lia.
    - rewrite iter_pos_nat.
      replace (Z.pos p) with (Z.of_nat (Pos.to_nat p)) at 1 by lia.
      rewrite shr_iter by lia. f_equal. lia. }
  cbn [shr_m loc_of_shr_record round_nearest_even shr_record_of_loc].
  rewrite (Zdigits2_log2 _ Hm), Hlm.
  replace (52 + 1 + (d - 53)) with d by lia.
  rewrite fexp_small by lia. rewrite Z.sub_diag. cbn [shr shr_m].
  unfold canon. fold d. fold m.
  destruct m as [|mp|mp] eqn:Em; try lia.
  replace (d - 53 <=? emax - prec) with true
    by (symmetry; apply Z.leb_le; unfold emax, prec; lia).
  reflexivity.
Qed.

Lemma shl_iter q delta : Zpos (Pos.iter xO q delta) = Zpos q * 2 ^ Zpos delta.
Proof.
  rewrite Pos2Nat.inj_iter.
  replace (Zpos delta) with (Z.of_nat (Pos.to_nat delta)) by lia.
  induction (Pos.to_nat delta) as [|n IH].
  - cbn. lia.
  - cbn [nat_rect]. rewrite Pos2Z.inj_xO, IH, Nat2Z.inj_succ, Z.pow_succ_r by lia.
    ring.
Qed.

Lemma round_exact s n k :
  Zpos (digits2_pos n) <= 53 -> 0 <= k ->
  binary_round prec emax s (Z.to_pos (Zpos n * 2 ^ k)) (- k) = canon s n.
Proof.
  intros Hd Hk. set (d := Zpos (digits2_pos n)) in *.
  assert (1 <= d) as Hd1 by (unfold d; lia).
  assert (0 < Zpos n * 2 ^ k) as Hq
    by (apply Z.mul_pos_pos; [lia | apply Z.pow_pos_nonneg; lia]).
  set (q := Z.to_pos (Zpos n * 2 ^ k)).
  assert (Zpos q = Zpos n * 2 ^ k) as Eq by (unfold q; rewrite Z2Pos.id; lia).
  assert (Zpos (digits2_pos q) = d + k) as Hdq.
  { rewrite digits2_log2, Eq, Z.log2_mul_pow2 by lia.
    unfold d. rewrite digits2_log2. lia. }
  unfold binary_round. rewrite Hdq.
  replace (d + k + - k) with d by lia. rewrite fexp_small by lia.
  unfold shl_align.
  destruct (d - 53 - - k) as [|p|p] eqn:E.
  - pose proof (aux_exact s n 0 Hd ltac:(lia)) as H. fold d in H.
    rewrite <- H, Eq. f_equal; [f_equal; f_equal; lia | lia].
  - pose proof (aux_exact s n (Zpos p) Hd ltac:(lia)) as H. fold d in H.
    rewrite <- H, Eq. f_equal; [f_equal; f_equal; lia | lia].
  - pose proof (aux_exact s n 0 Hd ltac:(lia)) as H. fold d in H.
    rewrite <- H, shl_iter, Eq, <- Z.mul_assoc, <- Z.pow_add_r by lia.
    f_equal; [f_equal; f_equal; lia | lia].
Qed.

Definition canonZ (z : Z) : spec_float :=
  match z with
  | Z0 => S754_zero false
  | Zpos n => canon false n
  | Zneg n => canon true n
  end.

Definition small (z : Z) : Prop := Z.abs z < 2 ^ 53.

Lemma small_digits n : Zpos n < 2 ^ 53 -> Zpos (digits2_pos n) <= 53.
Proof.
  intros H. rewrite digits2_log2.
  assert (Z.log2 (Zpos n) < 53) by (apply Z.log2_lt_pow2; lia). lia.
Qed.

Lemma digits_small n : Zpos (digits2_pos n) <= 53 -> Zpos n < 2 ^ 53.
Proof.
  intros H. rewrite digits2_log2 in H. apply Z.log2_lt_pow2; lia.
Qed.

Lemma normalize_exact z k sz :
  small z -> 0 <= k -> z <> 0 ->
  binary_normalize prec emax (z * 2 ^ k) (- k) sz = canonZ z.
Proof.
  unfold small. intros Hz Hk Hnz.
  assert (0 < 2 ^ k) as Hp by (apply Z.pow_pos_nonneg; lia).
  destruct z as [|n|n]; [lia| |].
  - assert (0 < Zpos n * 2 ^ k) as Hq by (apply Z.mul_pos_pos; lia).
    destruct (Zpos n * 2 ^ k) as [|q|q] eqn:E; try lia.
    cbn [binary_normalize canonZ].
    rewrite <- (round_exact false n k) by (try apply small_digits; lia).
    rewrite E. reflexivity.
  - assert (Zneg n * 2 ^ k = - (Zpos n * 2 ^ k)) as E' by lia.
    assert (0 < Zpos n * 2 ^ k) as Hq by (apply Z.mul_pos_pos; lia).
    rewrite E'. destruct (Zpos n * 2 ^ k) as [|q|q] eqn:E; try lia.
    cbn [Z.opp binary_normalize canonZ].
    rewrite <- (round_exact true n k) by (try apply small_digits; lia).
    rewrite E. reflexivity.
Qed.

Lemma canon_valid s n :
  Zpos (digits2_pos n) <= 53 -> valid_binary (canon s n) = true.
Proof.
  intros Hd. unfold canon. cbn [SpecFloat.valid_binary]. unfold bounded, canonical_mantissa.
  set (d := Zpos (digits2_pos n)) in *.
  assert (1 <= d) by (unfold d; lia).
  assert (0 < Zpos n * 2 ^ (53 - d)) as Hm
    by (apply Z.mul_pos_pos; [lia | apply Z.pow_pos_nonneg; lia]).
  rewrite digits2_log2, Z2Pos.id, Z.log2_mul_pow2 by lia.
  replace (53 - d + Z.log2 (Zpos n) + 1 + (d - 53)) with d
    by (unfold d; rewrite digits2_log2; lia).
  rewrite fexp_small by lia. rewrite Z.eqb_refl. cbn [andb].
  apply Z.leb_le. unfold emax, prec. lia.
Qed.

Lemma canonZ_valid z : small z -> valid_binary (canonZ z) = true.
Proof.
  unfold small. destruct z; cbn [canonZ]; intros H; [reflexivity| |];
    apply canon_valid, small_digits; lia.
Qed.

Lemma align_val m e ez :
  ez <= e -> Zpos (fst (shl_align m e ez)) = Zpos m * 2 ^ (e - ez).
Proof.
  intros H. unfold shl_align. destruct (ez - e) as [|p|p] eqn:E; cbn [fst].
  - replace (e - ez) with 0 by lia. rewrite Z.pow_0_r. lia.
  - lia.
  - rewrite shl_iter. f_equal. f_equal. lia.
Qed.

Lemma canon_mantissa n :
  Zpos (digits2_pos n) <= 53 ->
  Zpos (Z.to_pos (Zpos n * 2 ^ (53 - Zpos (digits2_pos n))))
  = Zpos n * 2 ^ (53 - Zpos (digits2_pos n)).
Proof.
  intros H. apply Z2Pos.id.
  apply Z.mul_pos_pos; [lia | apply Z.pow_pos_nonneg; lia].
Qed.

Lemma aligned_canon n ez :
  Zpos (digits2_pos n) <= 53 -> ez <= Zpos (digits2_pos n) - 53 ->
  Zpos (fst (shl_align (Z.to_pos (Zpos n * 2 ^ (53 - Zpos (digits2_pos n))))
                       (Zpos (digits2_pos n) - 53) ez))
  = Zpos n * 2 ^ (- ez).
Proof.
  intros Hd He. rewrite align_val by lia.
  rewrite (canon_mantissa n) by exact Hd.
  rewrite <- Z.mul_assoc, <- Z.pow_add_r by lia.
  f_equal. f_equal. lia.
Qed.

Lemma cond_Zopp_mul s n x :
  cond_Zopp s (Zpos n * x) = cond_Zopp s (Zpos n) * x.
Proof. destruct s; cbn [cond_Zopp]; lia. Qed.

Lemma canonZ_cond s n : canonZ (cond_Zopp s (Zpos n)) = canon s n.
Proof. destruct s; reflexivity. Qed.

Section AddSub.
Variable op : Z -> Z -> Z.
Hypothesis op_mul : forall a b x, op (a * x) (b * x) = op a b * x.

Lemma normalize_op sa na sb nb :
  Zpos (digits2_pos na) <= 53 -> Zpos (digits2_pos nb) <= 53 ->
  small (op (cond_Zopp sa (Zpos na)) (cond_Zopp sb (Zpos nb))) ->
  let ea := Zpos (digits2_pos na) - 53 in
  let eb := Zpos (digits2_pos nb) - 53 in
  let ez := Z.min ea eb in
  binary_normalize prec emax
    (op (cond_Zopp sa (Zpos (fst (shl_align
             (Z.to_pos (Zpos na * 2 ^ (53 - Zpos (digits2_pos na)))) ea ez))))
        (cond_Zopp sb (Zpos (fst (shl_align
             (Z.to_pos (Zpos nb * 2 ^ (53 - Zpos (digits2_pos nb)))) eb ez)))))
    ez false
  = canonZ (op (cond_Zopp sa (Zpos na)) (cond_Zopp sb (Zpos nb))).
Proof.
  intros Ha Hb Hs ea eb ez.
  rewrite !aligned_canon by (unfold ez, ea, eb; lia).
  rewrite !cond_Zopp_mul, op_mul.
  set (z := op (cond_Zopp sa (Zpos na)) (cond_Zopp sb (Zpos nb))) in *.
  destruct (Z.eq_dec z 0) as [->|Hz]; [reflexivity|].
  replace ez with (- - ez) at 2 by lia.
  apply normalize_exact; [exact Hs | unfold ez, ea, eb; lia | exact Hz].
Qed.

End AddSub.

Lemma SFadd_exact a b :
  small a -> small b -> small (a + b) ->
  SFadd prec emax (canonZ a) (canonZ b) = canonZ (a + b).
Proof.
  intros Ha Hb Hab.
  destruct a as [|na|na], b as [|nb|nb]; try reflexivity.
  - apply (normalize_op Z.add ltac:(intros; ring) false na false nb);
      [apply small_digits; exact Ha | apply small_digits; exact Hb | exact Hab].
  - apply (normalize_op Z.add ltac:(intros; ring) false na true nb);
      [apply small_digits; exact Ha | apply small_digits; exact Hb | exact Hab].
  - apply (normalize_op Z.add ltac:(intros; ring) true na false nb);
      [apply small_digits; exact Ha | apply small_digits; exact Hb | exact Hab].
  - apply (normalize_op Z.add ltac:(intros; ring) true na true nb);
      [apply small_digits; exact Ha | apply small_digits; exact Hb | exact Hab].
Qed.

Lemma SFsub_exact a b :
  small a -> small b -> small (a - b) ->
  SFsub prec emax (canonZ a) (canonZ b) = canonZ (a - b).
Proof.
  intros Ha Hb Hab.
  destruct a as [|na|na], b as [|nb|nb]; try reflexivity.
  - apply (normalize_op Z.sub ltac:(intros; ring) false na false nb);
      [apply small_digits; exact Ha | apply small_digits; exact Hb | exact Hab].
  - apply (normalize_op Z.sub ltac:(intros; ring) false na true nb);
      [apply small_digits; exact Ha | apply small_digits; exact Hb | exact Hab].
  - apply (normalize_op Z.sub ltac:(intros; ring) true na false nb);
      [apply small_digits; exact Ha | apply small_digits; exact Hb | exact Hab].
  - apply (normalize_op Z.sub ltac:(intros; ring) true na true nb);
      [apply small_digits; exact Ha | apply small_digits; exact Hb | exact Hab].
Qed.

Lemma normalize_canonZ z :
  small z -> binary_normalize prec emax z 0 false = canonZ z.
Proof.
  intros Hz. destruct (Z.eq_dec z 0) as [->|Hnz]; [reflexivity|].
  pose proof (normalize_exact z 0 false Hz ltac:(lia) Hnz) as H.
  rewrite Z.pow_0_r, Z.mul_1_r in H. exact H.
Qed.

Lemma Prim2SF_of_Z z : small z -> Prim2SF (Binary64.of_Z z) = canonZ z.
Proof.
  intros Hz. unfold Binary64.of_Z. rewrite normalize_canonZ by exact Hz.
  apply Prim2SF_SF2Prim, canonZ_valid, Hz.
Qed.

Lemma of_Z_add a b :
  small a -> small b -> small (a + b) ->
  PrimFloat.add (Binary64.of_Z a) (Binary64.of_Z b) = Binary64.of_Z (a + b).
Proof.
  intros Ha Hb Hab. apply Prim2SF_inj.
  rewrite add_spec, !Prim2SF_of_Z by assumption.
  apply SFadd_exact; assumption.
Qed.

Lemma of_Z_sub a b :
  small a -> small b -> small (a - b) ->
  PrimFloat.sub (Binary64.of_Z a) (Binary64.of_Z b) = Binary64.of_Z (a - b).
Proof.
  intros Ha Hb Hab. apply Prim2SF_inj.
  rewrite sub_spec, !Prim2SF_of_Z by assumption.
  apply SFsub_exact; assumption.
Qed.

Lemma canon_inj s n s' n' :
  Zpos (digits2_pos n) <= 53 -> Zpos (digits2_pos n') <= 53 ->
  canon s n = canon s' n' -> s = s' /\ n = n'.
Proof.
  intros Hd Hd' H. unfold canon in H.
  remember (Z.to_pos (Zpos n * 2 ^ (53 - Zpos (digits2_pos n)))) as m eqn:Em.
  remember (Z.to_pos (Zpos n' * 2 ^ (53 - Zpos (digits2_pos n')))) as m' eqn:Em'.
  remember (Zpos (digits2_pos n) - 53) as e eqn:Ee.
  remember (Zpos (digits2_pos n') - 53) as e' eqn:Ee'.
  injection H as Hs Hm He.
  split; [exact Hs|].
  assert (Zpos (digits2_pos n) = Zpos (digits2_pos n')) as Ed by lia.
  apply (f_equal Zpos) in Hm. rewrite Em, Em' in Hm.
  rewrite !canon_mantissa in Hm by assumption. rewrite Ed in Hm.
  apply Z.mul_reg_r in Hm; [congruence|].
  apply Z.pow_nonzero; lia.
Qed.

Lemma of_Z_inj a b : small a -> small b -> Binary64.of_Z a = Binary64.of_Z b -> a = b.
Proof.
  intros Ha Hb H. apply (f_equal Prim2SF) in H.
  rewrite !Prim2SF_of_Z in H by assumption.
  unfold small in *.
  destruct a as [|na|na], b as [|nb|nb]; cbn [canonZ] in H;
    try reflexivity; try discriminate H;
    (apply canon_inj in H;
     [destruct H as [Hs Hn]; first [discriminate Hs | congruence]
     | apply small_digits; lia | apply small_digits; lia]).
Qed.

Lemma of_Z_zero : Binary64.of_Z 0 = PrimFloat.zero.
Proof. reflexivity. Qed.

(** The integer a float stands for, when it is one. *)
Definition intval (x : PrimFloat.float) : Z :=
  match Prim2SF x with
  | S754_finite s m e => cond_Zopp s (Z.shiftl (Zpos m) e)
  | _ => 0
  end.

Lemma intval_canon s n :
  Zpos (digits2_pos n) <= 53 ->
  match canon s n with
  | S754_finite s m e => cond_Zopp s (Z.shiftl (Zpos m) e)
  | _ => 0
  end = cond_Zopp s (Zpos n).
Proof.
  intros Hd. unfold canon. rewrite canon_mantissa by exact Hd. f_equal.
  set (d := Zpos (digits2_pos n)) in *.
  assert (1 <= d) by (unfold d; lia).
  replace (d - 53) with (- (53 - d)) by lia.
  rewrite Z.shiftl_opp_r, Z.shiftr_div_pow2 by lia.
  apply Z.div_mul. apply Z.pow_nonzero; lia.
Qed.

Lemma intval_of_Z z : small z -> intval (Binary64.of_Z z) = z.
Proof.
  intros Hz. unfold intval. rewrite Prim2SF_of_Z by exact Hz.
  unfold small in Hz.
  destruct z as [|n|n]; cbn [canonZ]; [reflexivity| |];
    rewrite intval_canon by (apply small_digits; lia); reflexivity.
Qed.

End Exactness.

Section Consistency.

Context {A : Amount} {F : Conversion A}.

Lemma py_sum_snoc {X} (g : X -> num) (xs : list X) x :
  py_sum (g <$> xs ++ [x]) = nadd (py_sum (g <$> xs)) (g x).
Proof. rewrite fmap_app. apply foldl_snoc. Qed.

Lemma of_category_app name (rs1 rs2 : list (rental A)) :
  of_category name (rs1 ++ rs2) = of_category name rs1 ++ of_category name rs2.
Proof. apply filter_app. Qed.

Lemma of_category_cons name (r : rental A) rs :
  of_category name (r :: rs)
  = if decide (category r = name) then r :: of_category name rs
    else of_category name rs.
Proof. unfold of_category. by rewrite filter_cons. Qed.

Lemma of_category_one name (r : rental A) :
  of_category name [r] = if decide (category r = name) then [r] else [].
Proof. unfold of_category. rewrite filter_cons. by case_decide. Qed.

(** Every run stores end times that [validate_datetime_format] accepted. *)
Lemma run_command_end_times c (f : file A) :
  Forall (fun r => validate_datetime_format (end_time r) = true)
         (rentals (store f)) ->
  Forall (fun r => validate_datetime_format (end_time r) = true)
         (rentals (store (run_command c f))).
Proof.
  intros Hall. destruct c as [text|cat text|i|name]; cbn [run_command].
  - rewrite handle_text_add_category. cbn zeta.
    by destruct (categories (store f) !! PyStr.strip text);
      cbn [fst snd]; rewrite store_save.
  - destruct (handle_text_add_rental_cases cat text f)
      as [-> | (p & e & s & t & _ & Ht & ->)]; [done|].
    cbn [rentals]. apply Forall_app. split; [done|]. by constructor.
  - rewrite undo_rental_eq. cbn zeta.
    destruct (py_index _ i) as [k|]; [|cbn [fst]; by rewrite store_save].
    destruct (rentals (store f) !! k) as [r|];
      cbn [fst]; rewrite store_save; [|done].
    cbn [rentals]. rewrite Forall_forall in Hall. apply Forall_forall.
    intros x Hx. apply Hall. by eapply list_elem_of_delete_inv.
  - rewrite delete_category_eq.
    destruct (categories (store f) !! name);
      cbn [fst]; rewrite store_save; [|done].
    cbn [rentals]. rewrite Forall_forall in Hall. apply Forall_forall.
    intros x Hx. apply Hall. by apply list_elem_of_filter in Hx as [_ ?].
Qed.

Lemma run_end_times cs (f : file A) :
  store f = default_data ->
  Forall (fun r => validate_datetime_format (end_time r) = true)
         (rentals (store (run cs f))).
Proof.
  intros H0.
  assert (Forall (fun r => validate_datetime_format (end_time r) = true)
                 (rentals (store f))) as Hall by (rewrite H0; constructor).
  clear H0. revert f Hall. induction cs as [|c cs IH]; intros f Hall; [done|].
  cbn [run foldl]. apply IH. by apply run_command_end_times.
Qed.

End Consistency.

(** * The totals on binary64 *)

Section FloatLedger.

#[local] Existing Instance Binary64.amount.
Context {F : Conversion Binary64.amount}.

Local Abbreviation of_Z := Binary64.of_Z.
Local Abbreviation intval := Exactness.intval.
Local Abbreviation ledger_rental := (rental Binary64.amount).

(** The integers of a rental whose amounts are floats of integers. *)
Definition int_profit (r : ledger_rental) : Z := intval (profit r).
Definition int_expense (r : ledger_rental) : Z := intval (expense r).
Definition int_income (r : ledger_rental) : Z := int_profit r - int_expense r.

Definition weight (r : ledger_rental) : Z :=
  Z.abs (int_profit r) + Z.abs (int_expense r).

Fixpoint mass (rs : list ledger_rental) : Z :=
  match rs with
  | [] => 0
  | r :: rs => weight r + mass rs
  end.

Fixpoint int_sum (field : ledger_rental -> Z) (rs : list ledger_rental) : Z :=
  match rs with
  | [] => 0
  | r :: rs => field r + int_sum field rs
  end.

(** The amounts of the rental are floats of integers, and its income is
    their difference. *)
Definition integral_rental (r : ledger_rental) : Prop :=
  profit r = of_Z (int_profit r)
  /\ expense r = of_Z (int_expense r)
  /\ income r = of_Z (int_income r).

(** What the handlers keep on integer amounts: every total is the float of
    the integer sum over the rentals of its category. *)
Definition exact (d : data Binary64.amount) : Prop :=
  Forall integral_rental (rentals d)
  /\ no_orphans d
  /\ forall name t, categories d !! name = Some t ->
       cat_profit t = of_Z (int_sum int_profit (of_category name (rentals d)))
       /\ cat_expense t
          = of_Z (int_sum int_expense (of_category name (rentals d)))
       /\ cat_income t
          = of_Z (int_sum int_income (of_category name (rentals d))).

(** The amounts typed in a run are floats of integers whose absolute
    values add up to [budget] at most. *)
Fixpoint integral (budget : Z) (cs : list command) : Prop :=
  match cs with
  | [] => True
  | AddRental _ typed :: cs =>
      match typed_amounts typed with
      | Some (x, y) =>
          exists a b, x = of_Z a /\ y = of_Z b
                      /\ Z.abs a + Z.abs b <= budget
                      /\ integral (budget - (Z.abs a + Z.abs b)) cs
      | None => integral budget cs
      end
  | _ :: cs => integral budget cs
  end.

Lemma nadd_of_Z a b :
  Z.abs a < 2 ^ 53 -> Z.abs b < 2 ^ 53 -> Z.abs (a + b) < 2 ^ 53 ->
  nadd (of_Z a) (of_Z b) = of_Z (a + b).
Proof. apply Exactness.of_Z_add. Qed.

Lemma nsub_of_Z a b :
  Z.abs a < 2 ^ 53 -> Z.abs b < 2 ^ 53 -> Z.abs (a - b) < 2 ^ 53 ->
  nsub (of_Z a) (of_Z b) = of_Z (a - b).
Proof. apply Exactness.of_Z_sub. Qed.

Lemma mass_nonneg rs : 0 <= mass rs.
Proof. induction rs as [|r rs IH]; cbn [mass]; unfold weight; lia. Qed.

Lemma mass_app rs1 rs2 : mass (rs1 ++ rs2) = mass rs1 + mass rs2.
Proof. induction rs1 as [|r rs1 IH]; cbn [mass app]; lia. Qed.

Lemma int_sum_app field rs1 rs2 :
  int_sum field (rs1 ++ rs2) = int_sum field rs1 + int_sum field rs2.
Proof. induction rs1 as [|r rs1 IH]; cbn [int_sum app]; lia. Qed.

Lemma mass_filter (P : ledger_rental -> Prop) `{!forall r, Decision (P r)} rs :
  mass (filter P rs) <= mass rs.
Proof.
  induction rs as [|r rs IH]; [done|]. rewrite filter_cons.
  destruct (decide (P r)); cbn [mass]; unfold weight in *; lia.
Qed.

(** A field bounded by the weight has its sums bounded by the mass. *)
Definition light (field : ledger_rental -> Z) : Prop :=
  forall r, Z.abs (field r) <= weight r.

Lemma int_profit_light : light int_profit.
Proof. intros r. unfold weight. lia. Qed.

Lemma int_expense_light : light int_expense.
Proof. intros r. unfold weight. lia. Qed.

Lemma int_income_light : light int_income.
Proof. intros r. unfold weight, int_income. lia. Qed.

Lemma int_sum_bound field rs :
  light field -> Z.abs (int_sum field rs) <= mass rs.
Proof.
  intros Hl. induction rs as [|r rs IH]; cbn [int_sum mass]; [lia|].
  specialize (Hl r). lia.
Qed.

Lemma int_sum_category_bound field name rs :
  light field -> Z.abs (int_sum field (of_category name rs)) <= mass rs.
Proof.
  intros Hl. pose proof (int_sum_bound field (of_category name rs) Hl).
  pose proof (mass_filter (fun r => category r = name) rs).
  unfold of_category in *. lia.
Qed.

(** Adding up floats of integers from the left does not round while the
    mass stays below 2^53. *)
Lemma foldl_nadd_exact (g : ledger_rental -> PrimFloat.float) field rs acc :
  light field ->
  Forall (fun r => g r = of_Z (field r)) rs ->
  Z.abs acc + mass rs < 2 ^ 53 ->
  foldl nadd (of_Z acc) (g <$> rs) = of_Z (acc + int_sum field rs).
Proof.
  intros Hl Hg. revert acc.
  induction Hg as [|r rs Hr _ IH]; intros acc Hb.
  - cbn. f_equal. lia.
  - cbn [fmap list_fmap foldl int_sum mass] in *. rewrite Hr.
    pose proof (Hl r). pose proof (mass_nonneg rs).
    pose proof (int_sum_bound field rs Hl).
    rewrite nadd_of_Z by lia. rewrite IH by lia. f_equal. lia.
Qed.

Lemma py_sum_exact (g : ledger_rental -> PrimFloat.float) field rs :
  light field ->
  Forall (fun r => g r = of_Z (field r)) rs ->
  mass rs < 2 ^ 53 ->
  py_sum (g <$> rs) = of_Z (int_sum field rs).
Proof.
  intros Hl Hg Hb. unfold py_sum.
  change nzero with (of_Z 0). by rewrite (foldl_nadd_exact g field) by done.
Qed.

Lemma sum_of_exact (g : ledger_rental -> PrimFloat.float) field name rs :
  light field ->
  Forall (fun r => g r = of_Z (field r)) rs ->
  mass rs < 2 ^ 53 ->
  sum_of g name rs = of_Z (int_sum field (of_category name rs)).
Proof.
  intros Hl Hg Hb. rewrite sum_of_py_sum. apply py_sum_exact; [done| |].
  - rewrite Forall_forall in Hg. apply Forall_forall. intros r Hr.
    apply Hg. unfold of_category in Hr.
    by apply list_elem_of_filter in Hr as [_ ?].
  - pose proof (mass_filter (fun r => category r = name) rs).
    unfold of_category. lia.
Qed.

(** On a store below 2^53 the totals are the sums over the rentals. *)
Lemma exact_consistent d : exact d -> mass (rentals d) < 2 ^ 53 -> consistent d.
Proof.
  intros (Hr & _ & Hc) Hb name t Ht. destruct (Hc name t Ht) as (H1 & H2 & H3).
  rewrite H1, H2, H3.
  rewrite (sum_of_exact profit int_profit), (sum_of_exact expense int_expense),
    (sum_of_exact income int_income);
    first [done | apply int_profit_light | apply int_expense_light
          | apply int_income_light
          | eapply Forall_impl; [exact Hr|]; by intros r (? & ? & ?)].
Qed.

Lemma exact_default : exact default_data.
Proof.
  split; [constructor|]. split.
  - intros r H. cbn in H. by apply elem_of_nil in H.
  - intros name t H. cbn in H. by rewrite lookup_empty in H.
Qed.

Lemma exact_add_category name d :
  exact d -> categories d !! name = None ->
  exact (Data (<[name := zero_totals]> (categories d)) (rentals d)).
Proof.
  intros (Hr & Ho & Hc) Hn. split; [done|]. split.
  - intros r Hin. cbn [categories rentals] in *.
    destruct (decide (name = category r)) as [->|Hne].
    + rewrite lookup_insert_eq. by eexists.
    + rewrite lookup_insert_ne by done. by apply Ho.
  - intros name' t. cbn [categories rentals].
    destruct (decide (name = name')) as [<-|Hne].
    + rewrite lookup_insert_eq. intros [= <-].
      rewrite of_category_none; [done|].
      intros r Hin Hcat. destruct (Ho r Hin) as [t Ht]. congruence.
    + rewrite lookup_insert_ne by done. apply Hc.
Qed.

Lemma exact_add_rental cat a b s t c d :
  exact d -> categories d !! cat = Some c ->
  mass (rentals d) + (Z.abs a + Z.abs b) < 2 ^ 53 ->
  let r := Rental cat (of_Z a) (of_Z b) s t (nsub (of_Z a) (of_Z b)) false in
  int_profit r = a /\ int_expense r = b
  /\ exact (Data (<[cat := accumulate (of_Z a) (of_Z b)
                             (nsub (of_Z a) (of_Z b)) c]> (categories d))
                 (rentals d ++ [r])).
Proof.
  intros (Hr & Ho & Hc) Hcat Hb r.
  pose proof (mass_nonneg (rentals d)) as Hm.
  assert (int_profit r = a) as Hp
    by (apply Exactness.intval_of_Z; unfold Exactness.small; lia).
  assert (int_expense r = b) as He
    by (apply Exactness.intval_of_Z; unfold Exactness.small; lia).
  assert (nsub (of_Z a) (of_Z b) = of_Z (a - b)) as Hi
    by (apply nsub_of_Z; lia).
  assert (category r = cat /\ profit r = of_Z a /\ expense r = of_Z b
          /\ income r = of_Z (a - b)) as (Hrc & Hrp & Hre & Hri) by done.
  clearbody r.
  split; [done|]. split; [done|]. split; [|split].
  - apply Forall_app. split; [done|]. constructor; [|constructor].
    unfold integral_rental, int_income. by rewrite Hp, He.
  - intros r'. cbn [categories rentals].
    rewrite elem_of_app, list_elem_of_singleton. intros [Hin | ->].
    + destruct (decide (cat = category r')) as [->|Hne].
      * rewrite lookup_insert_eq. by eexists.
      * rewrite lookup_insert_ne by done. by apply Ho.
    + rewrite Hrc, lookup_insert_eq. by eexists.
  - intros name t'. cbn [categories rentals].
    rewrite of_category_app, of_category_one, !int_sum_app, Hrc.
    destruct (decide (cat = name)) as [<-|Hne].
    + rewrite lookup_insert_eq. intros [= <-].
      destruct (Hc _ _ Hcat) as (H1 & H2 & H3).
      pose proof (int_sum_category_bound int_profit cat (rentals d)
                    int_profit_light).
      pose proof (int_sum_category_bound int_expense cat (rentals d)
                    int_expense_light).
      pose proof (int_sum_category_bound int_income cat (rentals d)
                    int_income_light).
      unfold accumulate. cbn [cat_profit cat_expense cat_income int_sum].
      unfold int_income at 2. rewrite Hp, He, H1, H2, H3.
      change (PrimFloat.sub (of_Z a) (of_Z b)) with (nsub (of_Z a) (of_Z b)).
      rewrite Hi.
      rewrite !nadd_of_Z by lia.
      split; [f_equal; lia|]. split; f_equal; lia.
    + rewrite lookup_insert_ne by done. cbn [int_sum].
      rewrite !Z.add_0_r. apply Hc.
Qed.

Lemma exact_delete_category name d :
  exact d ->
  exact (Data (delete name (categories d))
              (filter (fun r => category r <> name) (rentals d))).
Proof.
  intros (Hr & Ho & Hc). split; [|split].
  - cbn [rentals]. rewrite Forall_forall in Hr. apply Forall_forall.
    intros r Hin. apply Hr. by apply list_elem_of_filter in Hin as [_ ?].
  - intros r. cbn [categories rentals]. rewrite list_elem_of_filter.
    intros [Hne Hin]. rewrite lookup_delete_ne by done. by apply Ho.
  - intros name' t. cbn [categories rentals].
    destruct (decide (name = name')) as [<-|Hne].
    + by rewrite lookup_delete_eq.
    + rewrite lookup_delete_ne by done. intros Ht.
      unfold of_category. rewrite list_filter_filter_l; [by apply Hc|].
      intros r ->. done.
Qed.

Lemma mass_delete k r rs :
  rs !! k = Some r -> mass (delete k rs) = mass rs - weight r.
Proof.
  intros Hk. rewrite <- (take_drop_middle _ _ _ Hk) at 2.
  rewrite delete_take_drop, !mass_app. cbn [mass]. lia.
Qed.

Lemma exact_undo k r d :
  exact d -> rentals d !! k = Some r -> mass (rentals d) < 2 ^ 53 ->
  exact (Data match categories d !! category r with
              | Some t => <[category r := subtract r t]> (categories d)
              | None => categories d
              end
              (delete k (rentals d))).
Proof.
  intros (Hr & Ho & Hc) Hk Hb.
  assert (r ∈ rentals d) as Hin by (by eapply list_elem_of_lookup_2).
  destruct (Ho r Hin) as [t Ht]. rewrite Ht.
  pose proof (proj1 (Forall_forall _ _) Hr r Hin) as (Hp & He & Hi).
  pose proof (take_drop_middle _ _ _ Hk) as Hmid.
  assert (mass (rentals d)
          = mass (take k (rentals d)) + weight r
            + mass (drop (S k) (rentals d))) as Hmass.
  { rewrite <- Hmid at 1. rewrite mass_app. cbn [mass]. lia. }
  split; [|split].
  - cbn [rentals]. rewrite Forall_forall in Hr. apply Forall_forall.
    intros x Hx. apply Hr. by eapply list_elem_of_delete_inv.
  - intros r' Hr'. cbn [categories rentals] in *.
    apply list_elem_of_delete_inv in Hr'.
    destruct (decide (category r = category r')) as [Heq|Hne].
    + rewrite <- Heq, lookup_insert_eq. by eexists.
    + rewrite lookup_insert_ne by done. by apply Ho.
  - intros name t'. cbn [categories rentals].
    rewrite delete_take_drop, of_category_app, !int_sum_app.
    destruct (decide (category r = name)) as [<-|Hne].
    + rewrite lookup_insert_eq. intros [= <-].
      destruct (Hc _ _ Ht) as (H1 & H2 & H3).
      rewrite <- Hmid in H1, H2, H3.
      rewrite of_category_app in H1, H2, H3.
      rewrite of_category_cons, decide_True in H1, H2, H3 by done.
      rewrite int_sum_app in H1, H2, H3. cbn [int_sum] in H1, H2, H3.
      pose proof (int_profit_light r). pose proof (int_expense_light r).
      pose proof (int_income_light r).
      pose proof (int_sum_category_bound int_profit (category r)
                    (take k (rentals d)) int_profit_light).
      pose proof (int_sum_category_bound int_expense (category r)
                    (take k (rentals d)) int_expense_light).
      pose proof (int_sum_category_bound int_income (category r)
                    (take k (rentals d)) int_income_light).
      pose proof (int_sum_category_bound int_profit (category r)
                    (drop (S k) (rentals d)) int_profit_light).
      pose proof (int_sum_category_bound int_expense (category r)
                    (drop (S k) (rentals d)) int_expense_light).
      pose proof (int_sum_category_bound int_income (category r)
                    (drop (S k) (rentals d)) int_income_light).
      unfold subtract. cbn [cat_profit cat_expense cat_income].
      rewrite H1, H2, H3, Hp, He, Hi at 1.
      rewrite !nsub_of_Z by lia.
      split; [f_equal; lia|]. split; f_equal; lia.
    + rewrite lookup_insert_ne by done. intros Ht'.
      destruct (Hc _ _ Ht') as (H1 & H2 & H3).
      rewrite <- Hmid in H1, H2, H3.
      rewrite of_category_app in H1, H2, H3.
      rewrite of_category_cons, decide_False in H1, H2, H3 by done.
      by rewrite int_sum_app in H1, H2, H3.
Qed.

Lemma mass_snoc rs r : mass (rs ++ [r]) = mass rs + weight r.
Proof. rewrite mass_app. cbn [mass]. lia. Qed.

(** A run within its budget keeps the store exact and below 2^53. *)
Lemma exact_run cs : forall (f : file Binary64.amount) budget,
  exact (store f) ->
  mass (rentals (store f)) < 2 ^ 53 ->
  mass (rentals (store f)) + budget < 2 ^ 53 ->
  guarded cs f -> integral budget cs ->
  exact (store (run cs f)) /\ mass (rentals (store (run cs f))) < 2 ^ 53.
Proof.
  induction cs as [|c cs IH]; intros f budget Hex Hm Hb Hg Hi; [done|].
  destruct Hg as [Hal Hg]. change (run (c :: cs) f) with (run cs (run_command c f)).
  destruct c as [text|cat text|i|name]; cbn [run_command integral] in *.
  - apply (IH _ budget); try done;
      rewrite handle_text_add_category; cbn zeta;
      destruct (categories (store f) !! PyStr.strip text) eqn:Hn;
      cbn [fst snd]; rewrite store_save; try done.
    by apply exact_add_category.
  - destruct (handle_text_add_rental_amounts cat text f)
      as [Heq | (p & e & s & t & Hta & Hst)].
    + rewrite Heq in *.
      destruct (typed_amounts text) as [[x y]|]; [|by apply (IH _ budget)].
      destruct Hi as (a & b & _ & _ & Hw & Hi).
      apply (IH _ (budget - (Z.abs a + Z.abs b))); try done. lia.
    + rewrite Hta in Hi. destruct Hi as (a & b & -> & -> & Hw & Hi).
      destruct Hal as [c Hc]. rewrite Hc in Hst.
      destruct (exact_add_rental cat a b s t c (store f) Hex Hc ltac:(lia))
        as (Hp & He & Hex').
      assert (mass (rentals (store f)
                      ++ [Rental cat (of_Z a) (of_Z b) s t
                                 (nsub (of_Z a) (of_Z b)) false])
              = mass (rentals (store f)) + (Z.abs a + Z.abs b)) as Hmass.
      { rewrite mass_snoc. unfold weight. by rewrite Hp, He. }
      apply (IH _ (budget - (Z.abs a + Z.abs b))); try done;
        rewrite Hst; cbn [rentals]; try done; rewrite Hmass; lia.
  - assert (exact (store (undo_rental i f).1)
            /\ mass (rentals (store (undo_rental i f).1))
               <= mass (rentals (store f))) as [Hex' Hm'].
    { rewrite undo_rental_eq. cbn zeta.
      destruct (py_index _ i) as [k|]; [|cbn [fst]; by rewrite store_save].
      destruct (rentals (store f) !! k) as [r|] eqn:Hk;
        cbn [fst]; rewrite store_save; [|done].
      split; [by apply exact_undo|]. cbn [rentals].
      rewrite (mass_delete k r) by done. unfold weight. lia. }
    apply (IH _ budget); try done; lia.
  - assert (exact (store (delete_category name f).1)
            /\ mass (rentals (store (delete_category name f).1))
               <= mass (rentals (store f))) as [Hex' Hm'].
    { rewrite delete_category_eq.
      destruct (categories (store f) !! name);
        cbn [fst]; rewrite store_save; [|done].
      split; [by apply exact_delete_category|]. cbn [rentals].
      apply mass_filter. }
    apply (IH _ budget); try done; lia.
Qed.

(** C1, as the code keeps it.  On binary64, over every run of category
    additions, rental additions, undos and category deletions from an empty
    store in which each rental is added under a name that is a key at that
    moment, and in which the profits and expenses typed are floats of
    integers whose absolute values add up to less than 2^53: in the state
    reached, every category has totals equal to the sums of profit, expense
    and income over the rentals that name it. *)
Theorem totals_match_rentals_on_guarded_runs
    cs (f : file Binary64.amount) budget :
  store f = default_data ->
  guarded cs f ->
  budget < 2 ^ 53 ->
  integral budget cs ->
  consistent (store (run cs f)).
Proof.
  intros H0 Hg Hb Hi.
  destruct (exact_run cs f budget) as [Hex Hm]; try done.
  - rewrite H0. apply exact_default.
  - by rewrite H0.
  - by rewrite H0.
  - by apply exact_consistent.
Qed.

End FloatLedger.

Section NegativeIndex.

Context {A : Amount}.

(** C3, at the index [-1].  With at least one rental in the list, the
    index [-1] is outside [0 .. n-1] and yet the undo is carried out on
    the last rental: it is answered as undone, it leaves the list, and its
    amounts leave the totals of its category. *)
Theorem undo_rental_accepts_minus_one
    (cats : gmap text (totals A)) (rs : list (rental A)) (r : rental A) :
  undo_rental (-1) (Json (Document (Dict cats) (rs ++ [r])))
  = (Json (Document
             (Dict match cats !! category r with
                   | Some t => <[category r := subtract r t]> cats
                   | None => cats
                   end)
             rs),
     RentalUndone r).
Proof.
  assert (length (rs ++ [r]) = S (length rs)) as Hlen
    by (rewrite length_app; cbn; lia).
  rewrite (undo_rental_at (-1) (length rs) r).
  - unfold store; cbn [load_data doc_categories doc_rentals fst categories
      rentals].
    rewrite delete_take_drop, take_app_length.
    rewrite drop_ge by (rewrite Hlen; lia).
    by rewrite app_nil_r.
  - unfold store; cbn [load_data doc_categories doc_rentals fst rentals].
    rewrite py_index_negative by lia. f_equal. lia.
  - unfold store; cbn [load_data doc_categories doc_rentals fst rentals].
    by rewrite lookup_app_r, Nat.sub_diag.
Qed.

End NegativeIndex.

(** * The scenarios on binary64 *)

Module Runs.

#[local] Existing Instance Binary64.amount.
#[local] Existing Instance Binary64.conversion.
Import Scenario.

Lemma float_neq (x y : PrimFloat.float) :
  PrimFloat.eqb x y = false -> PrimFloat.is_nan x = false -> x <> y.
Proof.
  intros Hne Hnan ->. unfold PrimFloat.is_nan in Hnan.
  rewrite Hne in Hnan. discriminate.
Qed.

(** Reads the amounts of the next rental line of the run as the floats of
    [a] and [b]. *)
Ltac amounts a b :=
  match goal with
  | |- context [typed_amounts ?t] =>
      let E := fresh "E" in
      assert (typed_amounts t = Some (Binary64.of_Z a, Binary64.of_Z b)) as E
        by (by vm_compute);
      rewrite E; clear E
  end;
  exists a, b; split; [reflexivity|]; split; [reflexivity|]; split; [lia|].

(** [int] skips the white space of C and the Unicode spaces at both ends,
    but not the separators 28 to 31, which [str.split] takes for white
    space. *)
Example int_white_space :
  PyStr.int (py " 5" ++ [160%N]) = Some 5
  /\ PyStr.int (py "5" ++ [31%N]) = None
  /\ PyStr.split_ws (py "5" ++ [31%N] ++ py "6") = [py "5"; py "6"].
Proof. by vm_compute. Qed.

(** The notification scenario: after the category and the rental are
    added, a run of the job at 14:07 sends one message for "Camera" and
    sets the flag; a run at 14:08 sends nothing more. *)
Example camera_scenario :
  let w1 := check_rental_end_times t_14_07 7 (World camera_file []) in
  let w2 := check_rental_end_times t_14_08 7 w1 in
  sent w1 = [Notification 7 (py "Camera")]
  /\ (notified <$> rentals (store (disk w1))) = [true]
  /\ sent w2 = sent w1
  /\ disk w2 = disk w1.
Proof. vm_compute. repeat split. Qed.

(** After the run "Camera" has zero totals and a rental of profit
    50000. *)
Lemma orphan_run_breaks_totals :
  ~ consistent (store (run orphan_run Missing)).
Proof.
  intros H.
  destruct (H (py "Camera") zero_totals) as [Hp _]; [by vm_compute|].
  vm_compute in Hp. revert Hp. by apply float_neq.
Qed.

(** On binary64 the undo of the first rental leaves the total 1 where the
    remaining rental has profit 2: the run is guarded and its amounts are
    integers, but their absolute values add up to 2^53 + 1. *)
Lemma rounding_run_breaks_totals :
  guarded rounding_run Missing
  /\ integral (2 ^ 53 + 1) rounding_run
  /\ ~ consistent (store (run rounding_run Missing)).
Proof.
  split; [|split].
  - vm_compute. repeat split; eexists; reflexivity.
  - unfold rounding_run. cbn [integral].
    amounts 9007199254740991 0. amounts 2 0. exact I.
  - intros H.
    destruct (H (py "Camera")
                (@Totals Binary64.amount (Binary64.of_Z 1)
                         PrimFloat.zero (Binary64.of_Z 1))) as [Hp _];
      [by vm_compute|].
    vm_compute in Hp. revert Hp. by apply float_neq.
Qed.

(** C1 fails on two runs from the empty store: on one a rental is added
    under a name that is no key at that moment, on the other the amounts
    do not add up within 2^53. *)
Lemma totals_differ_from_rentals :
  ~ consistent (store (run orphan_run Missing))
  /\ ~ consistent (store (run rounding_run Missing)).
Proof.
  split; [apply orphan_run_breaks_totals | apply rounding_run_breaks_totals].
Qed.

(** The amended C1 at a guarded run of two categories, three rentals, an
    undo and a deletion, whose amounts add up to 95900. *)
Lemma ledger_run_witness :
  store (Missing : file Binary64.amount) = default_data
  /\ guarded ledger_run Missing
  /\ 95900 < 2 ^ 53
  /\ integral 95900 ledger_run
  /\ consistent (store (run ledger_run Missing)).
Proof.
  assert (integral 95900 ledger_run) as Hi.
  { unfold ledger_run. cbn [integral].
    amounts 50000 10000. amounts 700 200. amounts 30000 5000. exact I. }
  assert (guarded ledger_run Missing) as Hg
    by (vm_compute; repeat split; eexists; reflexivity).
  split; [reflexivity|]. split; [exact Hg|]. split; [lia|].
  split; [exact Hi|].
  apply (totals_match_rentals_on_guarded_runs ledger_run Missing 95900);
    [reflexivity | exact Hg | lia | exact Hi].
Defined.

(** C2 fails on this request: "Camera" is not a key, the answer is that
    the rental was added, and the list of rentals has grown. *)
Lemma missing_category_rental_is_stored :
  let f : file Binary64.amount := Json (Document (Dict ∅) []) in
  let res := handle_text (selected (py "Camera")) camera_rental f in
  categories (store f) !! py "Camera" = None
  /\ res.2 = RentalAdded camera
  /\ rentals (store res.1.2) = [camera]
  /\ store res.1.2 <> store f.
Proof.
  repeat split. intros H. discriminate H.
Qed.

(** The amended C2 at the request above on a missing file. *)
Lemma missing_category_rental_witness :
  handle_text (selected (py "Camera")) camera_rental Missing
  = (UserData None None, Json (Document (Dict ∅) [camera]), RentalAdded camera).
Proof.
  apply (rental_for_missing_category_is_appended (A:=Binary64.amount)
           (selected (py "Camera")) camera_rental Missing (py "Camera")
           (py "50000") (py "10000") (py "14:06-11.07.25")
           (py "14:07-11.07.25")
           (Binary64.of_Z 50000) (Binary64.of_Z 10000)
           63887839560000000 63887839620000000);
    reflexivity.
Defined.

(** C7 at a request whose end equals its start. *)
Lemma equal_end_and_start_witness :
  handle_text (selected (py "Camera"))
              (py "50000 10000 14:06-11.07.25 14:06-11.07.25") camera_file
  = (selected (py "Camera"), camera_file, EndNotLater).
Proof.
  apply (end_not_after_start_is_rejected (A:=Binary64.amount)
           (selected (py "Camera"))
           (py "50000 10000 14:06-11.07.25 14:06-11.07.25")
           camera_file (py "Camera")
           (py "50000") (py "10000") (py "14:06-11.07.25")
           (py "14:06-11.07.25")
           (Binary64.of_Z 50000) (Binary64.of_Z 10000)
           63887839560000000 63887839560000000);
    first [reflexivity | lia].
Defined.

(** C5 at the run of 14:07 on the file of the scenario: the end time of
    the one rental is 14:07, the message names "Camera", and the rental is
    stored with the flag true. *)
Lemma camera_tick_witness :
  Forall (fun r => time_text (end_time r)) (rentals (store camera_file))
  /\ filter (spec_window t_14_07) (rentals (store camera_file)) = [camera]
  /\ let d := store camera_file in
     let w' := check_rental_end_times t_14_07 7 (World camera_file []) in
     sent w' = [] ++ ((fun r => Notification 7 (category r))
                        <$> filter (spec_window t_14_07) (rentals d))
     /\ store (disk w')
        = Data (categories d)
               ((fun r => if decide (spec_window t_14_07 r)
                          then Rental (category r) (profit r) (expense r)
                                      (start_time r) (end_time r) (income r)
                                      true
                          else r)
                  <$> rentals d)
     /\ disk w' = Json (Document (Dict (categories (store (disk w'))))
                                 (rentals (store (disk w')))).
Proof.
  assert (Forall (fun r => time_text (end_time r))
                 (rentals (store camera_file))) as Ht.
  { assert (rentals (store camera_file) = [camera]) as -> by (by vm_compute).
    constructor; [|constructor]. eexists. by vm_compute. }
  split; [exact Ht|]. split; [by vm_compute|].
  apply (tick_notifies_exactly_the_window t_14_07 7 (World camera_file [])).
  exact Ht.
Defined.

End Runs.

(** * Further properties of the store and the ledger *)

Section MoreStorage.

Context {A : Amount}.

(** X1.  Whatever the file was (missing, empty, unreadable, a legacy list
    or a dictionary), after [load_data] it holds the returned state in
    dictionary form, and loading again returns the same state and leaves the
    file as it is; a missing, empty or unreadable file gives the empty
    store. *)
Theorem load_data_settles (f : file A) :
  let '(d, f') := load_data f in
  f' = Json (Document (Dict (categories d)) (rentals d))
  /\ load_data f' = (d, f')
  /\ match f with
     | Json _ => True
     | _ => d = default_data
     end.
Proof.
  destruct f as [ | | | [[names|m] rs]]; cbn; repeat split.
Qed.

End MoreStorage.

Section MoreLedger.

Context {A : Amount} {F : Conversion A}.

(** X2.  A text typed while a category name is awaited: the name is the
    stripped text.  When it is not a key it becomes one with zero totals,
    every other key and the rentals stay, the file holds the result and
    [user_data] is cleared; when it is a key the answer says so, the state
    stays and [user_data] stays, so the next text is again taken as a
    name. *)
Theorem category_name_message sel text (f : file A) :
  let ud := UserData (Some add_category) sel in
  let name := PyStr.strip text in
  let '(ud', f', ans) := handle_text ud text f in
  match categories (store f) !! name with
  | None =>
      ans = CategoryAdded name
      /\ ud' = UserData None None
      /\ f' = Json (Document
                (Dict (<[name := zero_totals]> (categories (store f))))
                (rentals (store f)))
      /\ categories (store f') !! name = Some zero_totals
      /\ (forall other, other <> name ->
            categories (store f') !! other = categories (store f) !! other)
  | Some _ =>
      ans = CategoryExists /\ ud' = ud /\ store f' = store f
  end.
Proof.
  intros ud name. unfold handle_text. cbn [action ud]. rewrite load_data_eq.
  fold name. destruct (categories (store f) !! name) eqn:Hn.
  - split; [done|]. split; [done|]. apply store_save.
  - split; [done|]. split; [done|]. split; [done|].
    rewrite store_save. cbn [categories].
    split; [apply lookup_insert_eq|].
    intros other Hne. by apply lookup_insert_ne.
Qed.

(** The outcomes of a text typed while a rental is awaited. *)
Lemma rental_message_inv ud cat text (f : file A) :
  action ud = Some add_rental ->
  selected_category ud = Some cat ->
  (handle_text ud text f = (ud, f, BadFieldCount)
   \/ handle_text ud text f = (ud, f, BadData)
   \/ handle_text ud text f = (ud, f, BadStartTime)
   \/ handle_text ud text f = (ud, f, BadEndTime)
   \/ handle_text ud text f = (ud, f, EndNotLater))
  \/ exists p e s t profit expense sd ed,
       PyStr.split_ws (PyStr.strip text) = [p; e; s; t]
       /\ to_float p = Some profit /\ to_float e = Some expense
       /\ validate_datetime_format s = true
       /\ validate_datetime_format t = true
       /\ parse_dt s = Some sd /\ parse_dt t = Some ed /\ sd < ed
       /\ handle_text ud text f
          = (start ud,
             save_data
               (Data match categories (store f) !! cat with
                     | Some c => <[cat := accumulate profit expense
                                            (nsub profit expense) c]>
                                   (categories (store f))
                     | None => categories (store f)
                     end
                     (rentals (store f)
                      ++ [Rental cat profit expense s t (nsub profit expense)
                                 false])) f,
             RentalAdded (Rental cat profit expense s t (nsub profit expense)
                                 false)).
Proof.
  intros Ha Hc.
  destruct (PyStr.split_ws (PyStr.strip text)) as [|p [|e [|s [|t [|]]]]] eqn:Hsp;
    try (left; left; unfold handle_text; by rewrite Ha, Hc, Hsp).
  destruct (to_float p) as [profit|] eqn:Hp;
    [|left; right; left; unfold handle_text; by rewrite Ha, Hc, Hsp, Hp].
  destruct (to_float e) as [expense|] eqn:He;
    [|left; right; left; unfold handle_text; by rewrite Ha, Hc, Hsp, Hp, He].
  destruct (validate_datetime_format s) eqn:Hs;
    [|left; do 2 right; left; unfold handle_text;
      by rewrite Ha, Hc, Hsp, Hp, He, Hs].
  destruct (validate_datetime_format t) eqn:Ht;
    [|left; do 3 right; left; unfold handle_text;
      by rewrite Ha, Hc, Hsp, Hp, He, Hs, Ht].
  destruct (parse_dt s) as [sd|] eqn:Hsd;
    [|left; right; left; unfold handle_text;
      by rewrite Ha, Hc, Hsp, Hp, He, Hs, Ht, Hsd].
  destruct (parse_dt t) as [ed|] eqn:Hed;
    [|left; right; left; unfold handle_text;
      by rewrite Ha, Hc, Hsp, Hp, He, Hs, Ht, Hsd, Hed].
  rewrite (handle_text_add_rental _ _ _ _ _ _ _ _ _ _ _ _
             Ha Hc Hsp Hp He Hs Ht Hsd Hed).
  destruct (Z.leb_spec ed sd) as [Hle|Hlt].
  - left. by do 4 right.
  - right. exists p, e, s, t, profit, expense, sd, ed. by repeat split.
Qed.

(** X3.  Only two answers go with a change of the store: whatever
    [user_data] and the text are, unless the answer is that a category or a
    rental was added, the state [load_data] returns afterwards is the one it
    returned before. *)
Theorem rejected_message_changes_nothing ud text (f : file A) :
  let '(_, f', ans) := handle_text ud text f in
  match ans with
  | CategoryAdded _ | RentalAdded _ => True
  | _ => store f' = store f
  end.
Proof.
  destruct ud as [[[]|] sel].
  - pose proof (category_name_message sel text f) as H. cbn zeta in H.
    destruct (handle_text _ text f) as [[ud' f'] ans].
    destruct (categories (store f) !! PyStr.strip text).
    + by destruct H as (-> & _ & ->).
    + by destruct H as (-> & _).
  - destruct sel as [cat|]; [|done].
    destruct (rental_message_inv (UserData (Some add_rental) (Some cat))
                cat text f eq_refl eq_refl)
      as [[H|[H|[H|[H|H]]]] | (p & e & s & t & profit & expense & sd & ed & H)];
      try (by rewrite H).
    destruct H as (_ & _ & _ & _ & _ & _ & _ & _ & ->). done.
  - done.
Qed.

End MoreLedger.

Section Tokens.

(** No character of the text is white space. *)
Definition spaceless (s : text) : Prop :=
  Forall (fun c => PyStr.is_space c = false) s.

Lemma split_ws_aux_spaceless cur s :
  spaceless cur -> Forall spaceless (PyStr.split_ws_aux cur s).
Proof.
  revert cur. induction s as [|c s IH]; intros cur Hcur; cbn.
  - destruct cur; [constructor|]. constructor; [|constructor].
    by apply Forall_reverse.
  - destruct (PyStr.is_space c) eqn:Hc.
    + destruct cur.
      * apply IH. constructor.
      * constructor; [by apply Forall_reverse|]. apply IH. constructor.
    + apply IH. by constructor.
Qed.

(** The fields [text.split()] gives contain no white space. *)
Lemma split_ws_spaceless s : Forall spaceless (PyStr.split_ws s).
Proof. apply split_ws_aux_spaceless. constructor. Qed.

(** On a text without white space the source accepts the time texts and
    nothing else. *)
Lemma validate_spaceless s :
  spaceless s -> validate_datetime_format s = true -> time_text s.
Proof.
  intros Hs Hv.
  apply validate_datetime_format_spec in Hv as (t & [->| ->] & Ht); [done|].
  apply Forall_app in Hs as [_ Hs]. by apply Forall_cons in Hs as [Hs _].
Qed.

End Tokens.

Section LedgerEffects.

Context {A : Amount} {F : Conversion A}.

(** X4.  A rental message that passes every check and whose selected
    category is a key: the answer is that the rental was added, the file
    holds the old rentals followed by the new one (flag clear, income
    computed), the totals of the category grow by the profit, the expense
    and the income, every other category is as before, and [user_data] is
    cleared. *)
Theorem rental_message_accumulates
    ud text (f : file A) cat p e s t profit expense sd ed c :
  action ud = Some add_rental ->
  selected_category ud = Some cat ->
  PyStr.split_ws (PyStr.strip text) = [p; e; s; t] ->
  to_float p = Some profit ->
  to_float e = Some expense ->
  validate_datetime_format s = true ->
  validate_datetime_format t = true ->
  parse_dt s = Some sd ->
  parse_dt t = Some ed ->
  sd < ed ->
  categories (store f) !! cat = Some c ->
  let r := Rental cat profit expense s t (nsub profit expense) false in
  let '(ud', f', ans) := handle_text ud text f in
  ans = RentalAdded r
  /\ ud' = UserData None None
  /\ rentals (store f') = rentals (store f) ++ [r]
  /\ categories (store f') !! cat
     = Some (Totals (nadd (cat_profit c) profit) (nadd (cat_expense c) expense)
                    (nadd (cat_income c) (nsub profit expense)))
  /\ (forall other, other <> cat ->
        categories (store f') !! other = categories (store f) !! other)
  /\ f' = Json (Document (Dict (categories (store f'))) (rentals (store f'))).
Proof.
  intros Ha Hc Hsp Hp He Hs Ht Hsd Hed Hlt Hcat r.
  rewrite (handle_text_add_rental _ _ _ _ _ _ _ _ _ _ _ _
             Ha Hc Hsp Hp He Hs Ht Hsd Hed).
  rewrite (proj2 (Z.leb_gt _ _) Hlt). cbn zeta. rewrite Hcat, store_save.
  cbn [categories rentals]. repeat split.
  - apply lookup_insert_eq.
  - intros other Hne. by apply lookup_insert_ne.
Qed.

Lemma run_command_well_formed c (f : file A) :
  Forall well_formed (rentals (store f)) ->
  Forall well_formed (rentals (store (run_command c f))).
Proof.
  intros Hall. destruct c as [text|cat text|i|name]; cbn [run_command].
  - rewrite handle_text_add_category. cbn zeta.
    by destruct (categories (store f) !! PyStr.strip text);
      cbn [fst snd]; rewrite store_save.
  - destruct (rental_message_inv (UserData (Some add_rental) (Some cat))
                cat text f eq_refl eq_refl)
      as [[H|[H|[H|[H|H]]]] | (p & e & s & t & profit & expense & sd & ed & H)];
      try (by rewrite H).
    destruct H as (Hsp & _ & _ & Hs & Ht & Hsd & Hed & Hlt & ->).
    cbn [fst snd]. rewrite store_save. cbn [rentals].
    apply Forall_app. split; [done|]. constructor; [|constructor].
    pose proof (split_ws_spaceless (PyStr.strip text)) as Hsl.
    rewrite Hsp in Hsl.
    apply Forall_cons in Hsl as [_ Hsl]. apply Forall_cons in Hsl as [_ Hsl].
    apply Forall_cons in Hsl as [Hss Hsl]. apply Forall_cons in Hsl as [Hst _].
    apply validate_spaceless in Hs; [|done].
    apply validate_spaceless in Ht; [|done].
    rewrite (time_text_parse_dt _ Hs) in Hsd.
    rewrite (time_text_parse_dt _ Ht) in Hed.
    repeat split; try done. by exists sd, ed.
  - rewrite undo_rental_eq. cbn zeta.
    destruct (py_index _ i) as [k|]; [|cbn [fst]; by rewrite store_save].
    destruct (rentals (store f) !! k) as [r|];
      cbn [fst]; rewrite store_save; [|done].
    cbn [rentals]. by apply Forall_delete.
  - rewrite delete_category_eq.
    destruct (categories (store f) !! name);
      cbn [fst]; rewrite store_save; [|done].
    cbn [rentals]. rewrite Forall_forall in Hall. apply Forall_forall.
    intros x Hx. apply Hall. by apply list_elem_of_filter in Hx as [_ ?].
Qed.

(** X5.  Every rental in a store built from the empty state by the
    handlers has two time texts (the shape HH:MM-DD.MM.YY in decimal digits
    of any script, with calendar-valid fields), the instant of its end
    strictly after the instant of its start, an income equal to its profit
    minus its expense, and a clear flag: the line feed that
    [validate_datetime_format] would let through never reaches it, because
    the fields come from [text.split()]. *)
Theorem stored_rentals_are_well_formed cs (f : file A) :
  store f = default_data ->
  Forall well_formed (rentals (store (run cs f))).
Proof.
  intros H0.
  assert (Forall well_formed (rentals (store f))) as Hall
    by (rewrite H0; constructor).
  clear H0. revert f Hall. induction cs as [|c cs IH]; intros f Hall; [done|].
  cbn [run foldl]. apply IH. by apply run_command_well_formed.
Qed.

Lemma position_spec (n : nat) (i : Z) :
  - Z.of_nat n <= i < Z.of_nat n ->
  position n i = if decide (0 <= i) then Z.to_nat i
                 else Z.to_nat (Z.of_nat n + i).
Proof.
  intros H. unfold position. destruct (decide (0 <= i)).
  - by rewrite Z.mod_small by lia.
  - rewrite <- (Z.mod_add i 1 (Z.of_nat n)) by lia.
    rewrite Z.mod_small by lia. f_equal. lia.
Qed.

(** X6.  [undo_rental] in full.  With [n] rentals, an index of the range
    [-n .. n-1] is accepted and denotes the position [i mod n]: the answer
    names the rental there, that rental leaves the list and the others keep
    their order, its amounts leave the totals of its category when that is a
    key, every other category is as before, and the file holds the result.
    Any other index is refused and the state stays. *)
Theorem undo_rental_in_full i (f : file A) :
  let n := length (rentals (store f)) in
  let '(f', ans) := undo_rental i f in
  if decide (- Z.of_nat n <= i < Z.of_nat n) then
    exists r,
      rentals (store f) !! position n i = Some r
      /\ ans = RentalUndone r
      /\ rentals (store f') = delete (position n i) (rentals (store f))
      /\ categories (store f') !! category r
         = subtract r <$> categories (store f) !! category r
      /\ (forall other, other <> category r ->
            categories (store f') !! other = categories (store f) !! other)
      /\ f' = Json (Document (Dict (categories (store f')))
                             (rentals (store f')))
  else ans = UndoFailed /\ store f' = store f.
Proof.
  intros n. subst n. rewrite undo_rental_eq. cbn zeta.
  destruct (decide _) as [Hin|Hout].
  - rewrite (position_spec _ _ Hin).
    destruct (py_index_cases (rentals (store f)) i)
      as [[Hr Hi]|[[Hr Hi]|[Hr Hi]]]; [| |lia]; rewrite Hi.
    + rewrite decide_True by lia.
      destruct (lookup_lt_is_Some_2 (rentals (store f)) (Z.to_nat i))
        as [r Hk]; [lia|]. rewrite Hk. exists r. rewrite store_save.
      cbn [categories rentals]. repeat split.
      * destruct (categories (store f) !! category r) eqn:Hc;
          [apply lookup_insert_eq | by rewrite Hc].
      * intros other Hne.
        destruct (categories (store f) !! category r);
          [by apply lookup_insert_ne | done].
    + rewrite decide_False by lia.
      destruct (lookup_lt_is_Some_2 (rentals (store f))
                  (Z.to_nat (Z.of_nat (length (rentals (store f))) + i)))
        as [r Hk]; [lia|]. rewrite Hk. exists r. rewrite store_save.
      cbn [categories rentals]. repeat split.
      * destruct (categories (store f) !! category r) eqn:Hc;
          [apply lookup_insert_eq | by rewrite Hc].
      * intros other Hne.
        destruct (categories (store f) !! category r);
          [by apply lookup_insert_ne | done].
  - rewrite py_index_outside by lia. split; [done | apply store_save].
Qed.

(** X8.  Deleting a category a second time finds nothing and changes
    nothing, whatever the first deletion did. *)
Theorem delete_category_twice name (f : file A) :
  let f1 := (delete_category name f).1 in
  (delete_category name f1).2 = CategoryNotFound
  /\ store (delete_category name f1).1 = store f1.
Proof.
  intros f1. subst f1.
  assert (categories (store (delete_category name f).1) !! name = None) as Hn.
  { rewrite delete_category_eq.
    destruct (categories (store f) !! name) eqn:Hk; cbn [fst];
      rewrite store_save; [apply lookup_delete_eq | done]. }
  rewrite (delete_category_eq name (delete_category name f).1), Hn.
  split; [done | apply store_save].
Qed.

(** X9.  Adding a name that is not a key and deleting it again gives back
    the categories as they were, and removes every rental that already named
    it: rentals left behind by an earlier life of the category go with
    it. *)
Theorem new_category_then_delete text (f : file A) :
  categories (store f) !! PyStr.strip text = None ->
  store (run [AddCategory text; DeleteCategory (PyStr.strip text)] f)
  = Data (categories (store f))
         (filter (fun r => category r <> PyStr.strip text) (rentals (store f))).
Proof.
  intros Hn. cbn [run foldl run_command].
  rewrite handle_text_add_category. cbn zeta. rewrite Hn. cbn [fst snd].
  rewrite delete_category_eq, store_save. cbn [categories rentals].
  rewrite lookup_insert_eq. cbn [fst]. rewrite store_save.
  by rewrite delete_insert_eq, delete_id.
Qed.

(** X10.  [show_category_stats] only reads: the state is the one loaded.
    It counts the rentals of the name, and the rentals it lists are the last
    ones of them in their order, five when there are at least five and all of
    them otherwise. *)
Theorem stats_only_reads name (f : file A) :
  let own := of_category name (rentals (store f)) in
  let '(st, f') := show_category_stats name f in
  store f' = store f
  /\ rental_count st = length own
  /\ recent st `suffix_of` own
  /\ length (recent st) = (length own `min` 5)%nat
  /\ (forall r, r ∈ recent st -> category r = name).
Proof.
  intros own. rewrite show_category_stats_eq. cbn zeta. fold own.
  cbn [rental_count recent]. split; [apply store_save|]. split; [done|].
  split; [apply suffix_drop|]. split; [unfold last5; rewrite length_drop; lia|].
  intros r Hr. unfold last5 in Hr. apply subseteq_drop in Hr.
  unfold own, of_category in Hr. by apply list_elem_of_filter in Hr as [? _].
Qed.

End LedgerEffects.

Section FloatUndo.

#[local] Existing Instance Binary64.amount.
Context {F : Conversion Binary64.amount}.

Local Abbreviation of_Z := Binary64.of_Z.

(** Taking away what was just added gives the total back, while the
    integers stay below 2^53. *)
Lemma subtract_accumulate a b P E I (r : rental Binary64.amount) :
  profit r = of_Z a -> expense r = of_Z b -> income r = nsub (of_Z a) (of_Z b) ->
  Z.abs P + Z.abs a < 2 ^ 53 ->
  Z.abs E + Z.abs b < 2 ^ 53 ->
  Z.abs I + (Z.abs a + Z.abs b) < 2 ^ 53 ->
  subtract r (accumulate (profit r) (expense r) (income r)
                         (Totals (of_Z P) (of_Z E) (of_Z I)))
  = Totals (of_Z P) (of_Z E) (of_Z I).
Proof.
  intros Hp He Hi HP HE HI.
  unfold subtract, accumulate. cbn [cat_profit cat_expense cat_income].
  rewrite Hp, He, Hi.
  cbn [nadd nsub Binary64.amount].
  repeat first
    [ rewrite Exactness.of_Z_add by (unfold Exactness.small; lia)
    | rewrite Exactness.of_Z_sub by (unfold Exactness.small; lia) ].
  f_equal; f_equal; lia.
Qed.

(** X7.  On binary64, when the profit and the expense of the rental just
    added are the floats of integers [a] and [b] and the totals of its
    category are the floats of integers [P], [E] and [I] with
    [|P| + |a|], [|E| + |b|] and [|I| + |a| + |b|] below 2^53, undoing that
    rental gives back the store as it was before the addition: the same
    categories with the same totals and the same rentals.  The index is the
    length the list had, which is the position of the new rental. *)
Theorem undo_of_new_rental_restores
    cat text (f : file Binary64.amount) r a b :
  (handle_text (UserData (Some add_rental) (Some cat)) text f).2
    = RentalAdded r ->
  profit r = of_Z a -> expense r = of_Z b ->
  (forall c, categories (store f) !! cat = Some c ->
     exists P E I,
       c = Totals (of_Z P) (of_Z E) (of_Z I)
       /\ Z.abs P + Z.abs a < 2 ^ 53
       /\ Z.abs E + Z.abs b < 2 ^ 53
       /\ Z.abs I + (Z.abs a + Z.abs b) < 2 ^ 53) ->
  undo_rental (Z.of_nat (length (rentals (store f))))
              (handle_text (UserData (Some add_rental) (Some cat)) text f).1.2
  = (Json (Document (Dict (categories (store f))) (rentals (store f))),
     RentalUndone r).
Proof.
  intros Hans Hpa Heb Htot.
  destruct (rental_message_inv (UserData (Some add_rental) (Some cat))
              cat text f eq_refl eq_refl)
    as [[H|[H|[H|[H|H]]]] | (p & e & s & t & pr & ex & sd & ed & H)];
    try (by rewrite H in Hans).
  destruct H as (_ & _ & _ & _ & _ & _ & _ & _ & H).
  rewrite H in Hans |- *. cbn [fst snd] in *. injection Hans as <-.
  cbn [profit expense] in Hpa, Heb. subst pr ex.
  set (r := @Rental Binary64.amount cat (of_Z a) (of_Z b) s t
                    (@nsub Binary64.amount (of_Z a) (of_Z b)) false).
  rewrite (undo_rental_at _ (length (rentals (store f))) r);
    rewrite ?store_save; cbn [categories rentals].
  - rewrite delete_take_drop, take_app_length.
    rewrite drop_ge by (rewrite length_app; cbn; lia). rewrite app_nil_r.
    cbn [category r].
    destruct (categories (store f) !! cat) as [c|] eqn:Hc.
    + destruct (Htot c eq_refl) as (P & E & I & -> & HP & HE & HI).
      rewrite lookup_insert_eq, insert_insert_eq.
      pose proof (subtract_accumulate a b P E I r eq_refl eq_refl eq_refl
                    HP HE HI) as Hsa.
      unfold r in Hsa |- *. cbn [profit expense income] in Hsa.
      rewrite Hsa. by rewrite insert_id.
    + by rewrite Hc.
  - rewrite py_index_nonneg by (rewrite length_app; cbn; lia).
    by rewrite Nat2Z.id.
  - by rewrite lookup_app_r, Nat.sub_diag.
Qed.

End FloatUndo.


(** * Further properties of the notification job *)

Section MoreScheduler.

Context {A : Amount}.

(** The messages of the runs [events] on the rentals [rs], in order. *)
Fixpoint event_notes (events : list (PyDatetime.instant * Z))
    (rs : list (rental A)) : list notification :=
  match events with
  | [] => []
  | e :: events =>
      notes e.1 e.2 rs ++ event_notes events (mark e.1 <$> rs)
  end.

Lemma jobs_run_cons e events (w : world A) :
  jobs_run (e :: events) w
  = jobs_run events (check_rental_end_times e.1 e.2 w).
Proof. reflexivity. Qed.

Lemma jobs_run_spec events cats (rs : list (rental A)) out :
  jobs_run events (World (Json (Document (Dict cats) rs)) out)
  = World (Json (Document (Dict cats) (marks events.*1 rs)))
          (out ++ event_notes events rs).
Proof.
  revert rs out. induction events as [|[now chat] events IH]; intros rs out.
  - cbn. by rewrite app_nil_r.
  - rewrite jobs_run_cons, check_rental_end_times_spec.
    unfold store, save_data; cbn [load_data disk sent doc_categories
      doc_rentals fst snd categories rentals].
    rewrite IH. cbn [event_notes fmap list_fmap marks fst snd].
    by rewrite app_assoc.
Qed.

(** Any world is, for the job, the dictionary file of its state. *)
Lemma jobs_run_store events (w : world A) :
  jobs_run events w
  = match events with
    | [] => w
    | _ => jobs_run events
             (World (Json (Document (Dict (categories (store (disk w))))
                                    (rentals (store (disk w))))) (sent w))
    end.
Proof.
  destruct events as [|[now chat] events]; [done|].
  rewrite !jobs_run_cons. f_equal. rewrite !check_rental_end_times_spec.
  cbn [disk sent fst snd]. unfold store, save_data;
    cbn [load_data doc_categories doc_rentals fst categories rentals].
  done.
Qed.

Lemma due_unnotified now (r : rental A) : due now r = true -> notified r = false.
Proof. unfold due. by destruct (notified r). Qed.

Lemma tick_accounting now chat (rs : list (rental A)) :
  (length (notes now chat rs) + unnotified (mark now <$> rs))%nat
  = unnotified rs.
Proof.
  induction rs as [|r rs IH]; [done|].
  rewrite notes_cons, fmap_cons. unfold unnotified in *.
  destruct (due now r) eqn:Hd.
  - assert (mark now r = set_notified r) as -> by (unfold mark; by rewrite Hd).
    rewrite filter_cons_False by done.
    rewrite filter_cons_True by (by apply (due_unnotified now)).
    cbn [length]. lia.
  - assert (mark now r = r) as -> by (unfold mark; by rewrite Hd).
    rewrite !filter_cons.
    destruct (decide (notified r = false)); cbn [length]; lia.
Qed.

Lemma event_accounting events (rs : list (rental A)) :
  (length (event_notes events rs) + unnotified (marks events.*1 rs))%nat
  = unnotified rs.
Proof.
  revert rs. induction events as [|[now chat] events IH]; intros rs; [done|].
  cbn [event_notes fmap list_fmap marks fst snd]. rewrite length_app.
  rewrite <- (tick_accounting now chat rs), <- (IH (mark now <$> rs)). lia.
Qed.

(** X11.  Over any sequence of runs of the job, for any chats and at any
    instants, the messages already sent stay, and the number of messages
    added is the number of rentals whose flag went from clear to set: a
    rental is announced at most once, to one chat only, and never more
    messages are sent than there were rentals not yet notified. *)
Theorem each_rental_is_announced_once events (w : world A) :
  let w' := jobs_run events w in
  sent w `prefix_of` sent w'
  /\ (length (sent w') + unnotified (rentals (store (disk w'))))%nat
     = (length (sent w) + unnotified (rentals (store (disk w))))%nat.
Proof.
  intros w'. subst w'. rewrite jobs_run_store.
  destruct events as [|e events]; [done|].
  rewrite jobs_run_spec. cbn [disk sent].
  unfold store at 1; cbn [load_data doc_categories doc_rentals fst rentals].
  split; [by apply prefix_app_r|].
  rewrite length_app.
  change (rentals (store (Json (Document ?c ?rs)))) with rs.
  pose proof (event_accounting (e :: events) (rentals (store (disk w)))). lia.
Qed.

(** X12.  Running the job twice at the same instant is running it once:
    the second run, for whichever chat, sends nothing and leaves the file as
    the first run left it. *)
Theorem job_twice_at_one_instant now chat chat' (w : world A) :
  check_rental_end_times now chat' (check_rental_end_times now chat w)
  = check_rental_end_times now chat w.
Proof.
  rewrite (check_rental_end_times_spec now chat'
             (check_rental_end_times now chat w)).
  rewrite check_rental_end_times_spec. cbn [disk sent].
  rewrite store_save. cbn [categories rentals].
  assert (forall r : rental A, mark now (mark now r) = mark now r) as Hm.
  { intros r. destruct (due now r) eqn:Hd.
    - assert (mark now r = set_notified r) as ->
        by (unfold mark; by rewrite Hd).
      unfold mark. by rewrite due_set_notified.
    - assert (mark now r = r) as Hr by (unfold mark; by rewrite Hd).
      by rewrite !Hr. }
  assert (forall r : rental A, due now (mark now r) = false) as Hn.
  { intros r. unfold mark. destruct (due now r) eqn:Hd;
      [apply due_set_notified | done]. }
  rewrite <- list_fmap_compose.
  rewrite (list_fmap_ext (mark now ∘ mark now) (mark now))
    by (intros; apply Hm).
  rewrite (notes_not_due now chat' (mark now <$> rentals (store (disk w)))),
    app_nil_r; [by unfold save_data|].
  apply Forall_fmap, Forall_forall. intros r _. apply Hn.
Qed.

Lemma marks_same_ledger nows (rs : list (rental A)) :
  set_notified <$> marks nows rs = set_notified <$> rs.
Proof.
  rewrite marks_closed_form, <- list_fmap_compose.
  apply list_fmap_ext. intros _ r _. unfold compose.
  by destruct (existsb _ nows).
Qed.

Lemma same_ledger_fields {X} (g : rental A -> X) name
    (rs' rs : list (rental A)) :
  (forall r, g (set_notified r) = g r) ->
  set_notified <$> rs' = set_notified <$> rs ->
  g <$> of_category name rs' = g <$> of_category name rs.
Proof.
  intros Hg. revert rs. induction rs' as [|r' rs' IH]; intros [|r rs] H;
    try done.
  rewrite !fmap_cons in H.
  assert (set_notified r' = set_notified r) as Hr by congruence.
  assert (set_notified <$> rs' = set_notified <$> rs) as Hrs by congruence.
  rewrite !of_category_cons.
  assert (category r' = category r) as Hc by (by apply (f_equal category) in Hr).
  assert (g r' = g r) as Hgr
    by (rewrite <- (Hg r'), <- (Hg r); by f_equal).
  rewrite Hc. destruct (decide (category r = name)).
  - rewrite !fmap_cons, Hgr. f_equal. by apply IH.
  - by apply IH.
Qed.

(** X13.  The job never touches the ledger: over any sequence of runs the
    categories and their totals are the same, the rentals are the same up to
    their flags (none added, removed or moved, no amount or time text
    changed), and the totals agree with the rentals afterwards exactly when
    they did before. *)
Theorem job_keeps_the_ledger events (w : world A) :
  let w' := jobs_run events w in
  categories (store (disk w')) = categories (store (disk w))
  /\ set_notified <$> rentals (store (disk w'))
     = set_notified <$> rentals (store (disk w))
  /\ (consistent (store (disk w')) <-> consistent (store (disk w))).
Proof.
  intros w'. subst w'.
  assert (categories (store (disk (jobs_run events w)))
            = categories (store (disk w))
          /\ set_notified <$> rentals (store (disk (jobs_run events w)))
             = set_notified <$> rentals (store (disk w))) as [Hc Hr].
  { rewrite jobs_run_store. destruct events as [|e events]; [done|].
    rewrite jobs_run_spec. cbn [disk].
    unfold store at 1 3; cbn [load_data doc_categories doc_rentals fst
      categories rentals].
    split; [done | apply marks_same_ledger]. }
  split; [done|]. split; [done|].
  unfold consistent. rewrite Hc.
  split; intros H name t Ht; specialize (H name t Ht);
    rewrite !sum_of_py_sum in *.
  - by rewrite <- (same_ledger_fields profit name _ _ (fun _ => eq_refl) Hr),
      <- (same_ledger_fields expense name _ _ (fun _ => eq_refl) Hr),
      <- (same_ledger_fields income name _ _ (fun _ => eq_refl) Hr).
  - by rewrite (same_ledger_fields profit name _ _ (fun _ => eq_refl) Hr),
      (same_ledger_fields expense name _ _ (fun _ => eq_refl) Hr),
      (same_ledger_fields income name _ _ (fun _ => eq_refl) Hr).
Qed.

Lemma due_is_in_window now (r : rental A) :
  due now r = true -> in_window now r.
Proof.
  unfold due, in_window, PyDatetime.add_minute.
  destruct (notified r); [done|].
  destruct (parse_dt (end_time r)) as [e|]; [|done].
  destruct (Z.leb_spec e now) as [Hle|]; [|done].
  destruct (Z.leb_spec (e + PyDatetime.us_per_minute) PyDatetime.max_instant)
    as [Hmax|]; [|done].
  intros Hlt%Z.ltb_lt. split; [done|]. exists e. split; [done | lia].
Qed.

Lemma marks_never_due nows (r : rental A) :
  Forall (fun now => due now r = false) nows -> marks nows [r] = [r].
Proof.
  induction 1 as [|now nows Hd _ IH]; [done|].
  cbn. unfold mark. by rewrite Hd.
Qed.

Lemma event_notes_skip events (rs1 rs2 : list (rental A)) r :
  Forall (fun e => due e.1 r = false) events ->
  event_notes events (rs1 ++ r :: rs2) = event_notes events (rs1 ++ rs2).
Proof.
  intros Hall. revert rs1 rs2.
  induction Hall as [|[now chat] events Hd _ IH]; intros rs1 rs2; [done|].
  cbn [event_notes fst snd] in *. rewrite !fmap_app, fmap_cons.
  assert (mark now r = r) as -> by (unfold mark; by rewrite Hd).
  rewrite IH. f_equal.
  rewrite !notes_app, notes_cons. by rewrite Hd.
Qed.

(** X14.  A rental that is in its window at none of the instants at which
    the job runs (its flag is set, or its end time cannot be read, or every
    run comes before its end or a minute or more after it) is never
    announced and never changed, and the messages sent and the other
    rentals are what they would be without it.  A run that comes late does
    not make up for the missed minute. *)
Theorem rental_outside_its_window_is_skipped
    events cats (rs1 rs2 : list (rental A)) (r : rental A) out :
  Forall (fun e => ~ in_window e.1 r) events ->
  let w1 := jobs_run events
              (World (Json (Document (Dict cats) (rs1 ++ r :: rs2))) out) in
  let w2 := jobs_run events
              (World (Json (Document (Dict cats) (rs1 ++ rs2))) out) in
  sent w1 = sent w2
  /\ exists rs1' rs2',
       length rs1' = length rs1
       /\ rentals (store (disk w1)) = rs1' ++ r :: rs2'
       /\ rentals (store (disk w2)) = rs1' ++ rs2'.
Proof.
  intros Hout w1 w2. subst w1 w2. rewrite !jobs_run_spec. cbn [disk sent].
  unfold store; cbn [load_data doc_categories doc_rentals fst rentals].
  assert (Forall (fun e : PyDatetime.instant * Z => due e.1 r = false) events)
    as Hnd.
  { eapply Forall_impl; [exact Hout|]. intros e He.
    destruct (due e.1 r) eqn:Hd; [|done].
    exfalso. by apply He, due_is_in_window. }
  split; [by rewrite event_notes_skip|].
  exists (marks events.*1 rs1), (marks events.*1 rs2).
  split; [apply marks_length|].
  rewrite (marks_app _ rs1 (_ :: _)), (marks_app _ [_] rs2 : marks _ (_ :: _) = _).
  rewrite marks_never_due, marks_app; [done|].
  by apply Forall_fmap.
Qed.

End MoreScheduler.

(** * Callback data *)

Section Callbacks.

Context {A : Amount} {F : Conversion A}.

Lemma split_nonempty sep s : PyStr.split sep s <> [].
Proof.
  destruct s as [|c s]; [done|]. cbn.
  destruct (PyStr.eqc c sep); [done|]. by destruct (PyStr.split sep s).
Qed.

(** Splitting a text that has a separator in the middle. *)
Lemma split_app_separator sep a b :
  PyStr.split sep (a ++ sep :: b) = PyStr.split sep a ++ PyStr.split sep b.
Proof.
  induction a as [|c a IH]; [apply split_separator|].
  cbn [app PyStr.split]. rewrite IH.
  destruct (PyStr.eqc c sep); [done|].
  pose proof (split_nonempty sep a).
  by destruct (PyStr.split sep a).
Qed.

Lemma join_cons_char sep c x xs :
  PyText.join sep ((c :: x) :: xs) = c :: PyText.join sep (x :: xs).
Proof. by destruct xs. Qed.

(** [sep.join(s.split(sep))] is [s]. *)
Lemma join_split sep s : PyText.join sep (PyStr.split sep s) = s.
Proof.
  induction s as [|c s IH]; [done|]. cbn [PyStr.split].
  destruct (PyStr.eqc c sep) eqn:Hc.
  - apply N.eqb_eq in Hc as ->.
    pose proof (split_nonempty sep s).
    destruct (PyStr.split sep s) as [|x xs] eqn:Hs; [done|].
    cbn [PyText.join app] in *. by rewrite IH.
  - pose proof (split_nonempty sep s).
    destruct (PyStr.split sep s) as [|x xs] eqn:Hs; [done|].
    rewrite join_cons_char. by rewrite IH.
Qed.

Lemma inner_frame {X} (a b : X) (xs : list X) :
  PyText.inner (a :: xs ++ [b]) = xs.
Proof.
  unfold PyText.inner. cbn [length]. rewrite length_app. cbn [length].
  replace (S (length xs + 1) - 1)%nat with (S (length xs)) by lia.
  cbn [take drop firstn skipn]. change (firstn ?n ?l) with (take n l).
  by rewrite take_app_length.
Qed.

Lemma final_frame (a b : text) (xs : list text) :
  PyText.final (a :: xs ++ [b]) = b.
Proof.
  unfold PyText.final. change (a :: xs ++ [b]) with ((a :: xs) ++ [b]).
  by rewrite last_snoc.
Qed.

(** The parts of the data of a category button whose mode has no
    underscore. *)
Lemma split_callback_data c mode :
  PyStr.split (ch "_") mode = [mode] ->
  PyStr.split (ch "_") (callback_data c mode)
  = py "category" :: PyStr.split (ch "_") c ++ [mode].
Proof.
  intros Hm. unfold callback_data.
  change (py "category_" ++ c ++ py "_" ++ mode)
    with (py "category" ++ ch "_" :: (c ++ ch "_" :: mode)).
  by rewrite !split_app_separator, Hm.
Qed.

Lemma startswith_app p s : PyText.startswith (p ++ s) p = true.
Proof.
  induction p as [|c p IH]; [by destruct s|].
  cbn [app PyText.startswith]. unfold PyStr.eqc. by rewrite N.eqb_refl.
Qed.

Lemma button_category_data queue c mode ud :
  PyStr.split (ch "_") mode = [mode] ->
  button queue (callback_data c mode) ud
  = if PyText.eqs mode (py "view") then (ud, ShowCategoryStats c)
    else if PyText.eqs mode (py "rental")
    then (UserData (Some add_rental) (Some c), AskRental c)
    else if PyText.eqs mode (py "delete") then (ud, DeleteCategoryOf c)
    else if PyText.eqs mode (py "undo") then (ud, UndoMenu c)
    else (ud, NoRoute).
Proof.
  intros Hm. unfold button.
  rewrite (eq_refl : PyText.eqs (callback_data c mode) (py "select_category")
                     = false).
  rewrite (eq_refl : PyText.eqs (callback_data c mode)
                       (py "select_category_for_rental") = false).
  rewrite (eq_refl : PyText.eqs (callback_data c mode) (py "other_options")
                     = false).
  rewrite (eq_refl : PyText.eqs (callback_data c mode) (py "add_category")
                     = false).
  rewrite (eq_refl : PyText.eqs (callback_data c mode) (py "delete_category")
                     = false).
  rewrite (eq_refl : PyText.eqs (callback_data c mode)
                       (py "select_category_to_undo") = false).
  rewrite (eq_refl : PyText.eqs (callback_data c mode) (py "info") = false).
  rewrite (eq_refl : PyText.eqs (callback_data c mode)
                       (py "stop_notifications") = false).
  rewrite (startswith_app (py "category_") (c ++ py "_" ++ mode)
           : PyText.startswith (callback_data c mode) (py "category_") = true).
  rewrite split_callback_data by done.
  by rewrite inner_frame, final_frame, join_split.
Qed.

(** X15.  The data of a category button is read back exactly, whatever
    the name is (empty, or with underscores in it), with or without a job
    queue: pressing the button of a category in the view, rental, delete or
    undo menu leads to the statistics, the rental prompt (which selects the
    category), the deletion or the undo menu of that very category; and
    every key of the store has its button in the menu. *)
Theorem category_button_round_trip queue c ud mode (f : file A) :
  button queue (callback_data c (py "view")) ud = (ud, ShowCategoryStats c)
  /\ button queue (callback_data c (py "rental")) ud
     = (UserData (Some add_rental) (Some c), AskRental c)
  /\ button queue (callback_data c (py "delete")) ud
     = (ud, DeleteCategoryOf c)
  /\ button queue (callback_data c (py "undo")) ud = (ud, UndoMenu c)
  /\ (is_Some (categories (store f) !! c) ->
      callback_data c mode ∈ (select_category_menu mode f).1).
Proof.
  rewrite !button_category_data by done. repeat split.
  intros [t Ht]. unfold select_category_menu. rewrite load_data_eq.
  cbn [fst]. apply elem_of_app. left.
  apply (list_elem_of_fmap_2
           (fun kv : text * totals A => callback_data kv.1 mode) _ (c, t)).
  by apply elem_of_map_to_list.
Qed.

End Callbacks.

(** * Decimal texts *)

Section Decimal.

(** Every character of the text is a decimal digit. *)
Definition all_digits (s : text) : Prop :=
  Forall (fun c => PyStr.is_digit c = true) s.

Lemma digit_char_facts d :
  0 <= d <= 9 ->
  PyStr.is_digit (PyText.digit_char d) = true
  /\ PyStr.digit_val (PyText.digit_char d) = Some d.
Proof.
  intros H.
  assert (d = 0 \/ d = 1 \/ d = 2 \/ d = 3 \/ d = 4 \/ d = 5 \/ d = 6
          \/ d = 7 \/ d = 8 \/ d = 9) as Hd by lia.
  repeat (destruct Hd as [->|Hd]; [by vm_compute|]). subst d. by vm_compute.
Qed.

Lemma digit_is_plain c :
  PyStr.is_digit c = true ->
  PyStr.is_space c = false /\ PyStr.is_int_space c = false
  /\ PyStr.eqc c (ch "_") = false
  /\ PyStr.eqc c (ch "+") = false /\ PyStr.eqc c (ch "-") = false.
Proof.
  intros H.
  destruct (digit_plain c _ (is_digit_val c H))
    as (? & ? & _ & ? & _ & ? & ? & _).
  done.
Qed.

Lemma str_digits_all_digits fuel n acc :
  0 <= n -> all_digits acc -> all_digits (PyText.str_digits fuel n acc).
Proof.
  revert n acc. induction fuel as [|fuel IH]; intros n acc Hn Hacc; [done|].
  cbn [PyText.str_digits].
  assert (all_digits (PyText.digit_char (n mod 10) :: acc)) as Hacc'.
  { constructor; [|done]. apply digit_char_facts.
    pose proof (Z.mod_pos_bound n 10). lia. }
  destruct (n <? 10); [done|]. apply IH; [|done].
  apply Z.div_pos; lia.
Qed.

Lemma str_digits_nonempty fuel n acc :
  exists c rest, PyText.str_digits (S fuel) n acc = c :: rest.
Proof.
  revert n acc. induction fuel as [|fuel IH]; intros n acc.
  - cbn. destruct (n <? 10); by eexists _, _.
  - change (PyText.str_digits (S (S fuel)) n acc)
      with (if n <? 10 then PyText.digit_char (n mod 10) :: acc
            else PyText.str_digits (S fuel) (n / 10)
                   (PyText.digit_char (n mod 10) :: acc)).
    destruct (n <? 10); [by eexists _, _ | apply IH].
Qed.

(** Reading back the digits that were written. *)
Lemma str_digits_read fuel n acc :
  0 <= n < 2 ^ Z.of_nat (S fuel) ->
  exists k, 0 < k /\ forall a seen,
    PyStr.int_digits a seen (PyText.str_digits (S fuel) n acc)
    = PyStr.int_digits (a * 10 ^ k + n) true acc.
Proof.
  revert n acc. induction fuel as [|fuel IH]; intros n acc Hn.
  - exists 1. split; [lia|]. intros a seen. cbn [PyText.str_digits].
    assert (n < 10) as Hlt by (cbn in Hn; lia).
    rewrite (proj2 (Z.ltb_lt _ _) Hlt), Z.mod_small by lia.
    cbn [PyStr.int_digits].
    rewrite (proj2 (digit_char_facts n ltac:(lia))). f_equal. lia.
  - change (PyText.str_digits (S (S fuel)) n acc)
      with (if n <? 10 then PyText.digit_char (n mod 10) :: acc
            else PyText.str_digits (S fuel) (n / 10)
                   (PyText.digit_char (n mod 10) :: acc)).
    destruct (Z.ltb_spec n 10) as [Hlt|Hge].
    + exists 1. split; [lia|]. intros a seen. rewrite Z.mod_small by lia.
      cbn [PyStr.int_digits].
      rewrite (proj2 (digit_char_facts n ltac:(lia))). f_equal. lia.
    + destruct (IH (n / 10) (PyText.digit_char (n mod 10) :: acc))
        as (k & Hk0 & Hk).
      { split; [apply Z.div_pos; lia|].
        apply Z.div_lt_upper_bound; [lia|].
        replace (Z.of_nat (S (S fuel))) with (Z.succ (Z.of_nat (S fuel)))
          in Hn by lia.
        rewrite Z.pow_succ_r in Hn by lia. lia. }
      exists (k + 1). split; [lia|]. intros a seen. rewrite Hk.
      cbn [PyStr.int_digits].
      pose proof (Z.mod_pos_bound n 10 ltac:(lia)).
      rewrite (proj2 (digit_char_facts (n mod 10) ltac:(lia))).
      f_equal. rewrite Z.pow_add_r by lia.
      pose proof (Z.div_mod n 10 ltac:(lia)). lia.
Qed.

Lemma lstrip_by_plain sp (s : text) :
  Forall (fun c => sp c = false) s -> PyStr.lstrip_by sp s = s.
Proof.
  destruct s as [|c s]; [done|]. intros Hs.
  apply Forall_cons in Hs as [Hc _]. cbn. by rewrite Hc.
Qed.

Lemma strip_by_plain sp (s : text) :
  Forall (fun c => sp c = false) s -> PyStr.strip_by sp s = s.
Proof.
  intros Hs. unfold PyStr.strip_by.
  rewrite (lstrip_by_plain sp s Hs).
  rewrite (lstrip_by_plain sp (reverse s)) by (by apply Forall_reverse).
  apply reverse_involutive.
Qed.

(** [strip] leaves a text without white space as it is. *)
Lemma strip_spaceless s : spaceless s -> PyStr.strip s = s.
Proof.
  intros Hs. unfold PyStr.strip, PyStr.rstrip, PyStr.lstrip.
  rewrite (lstrip_by_plain _ s Hs).
  rewrite (lstrip_by_plain _ (reverse s)) by (by apply Forall_reverse).
  apply reverse_involutive.
Qed.

Lemma all_digits_spaceless s : all_digits s -> spaceless s.
Proof.
  intros H. eapply Forall_impl; [exact H|]. intros c Hc.
  by apply digit_is_plain.
Qed.

Lemma all_digits_int_spaceless s :
  all_digits s -> Forall (fun c => PyStr.is_int_space c = false) s.
Proof.
  intros H. eapply Forall_impl; [exact H|]. intros c Hc.
  by apply digit_is_plain.
Qed.

Lemma all_digits_no_underscore s :
  all_digits s -> Forall (fun c => PyStr.eqc c (ch "_") = false) s.
Proof.
  intros H. eapply Forall_impl; [exact H|]. intros c Hc.
  by apply digit_is_plain.
Qed.

(** [int] of a text of digits reads all of them. *)
Lemma int_unsigned c rest :
  all_digits (c :: rest) ->
  PyStr.int (c :: rest) = PyStr.int_digits 0 false (c :: rest).
Proof.
  intros Hs. unfold PyStr.int.
  rewrite (strip_by_plain _ _ (all_digits_int_spaceless _ Hs)).
  apply Forall_cons in Hs as [Hc _].
  destruct (digit_is_plain c Hc) as (_ & _ & _ & -> & ->). done.
Qed.

Lemma log2_fuel n : 0 <= n -> n < 2 ^ Z.of_nat (S (Z.to_nat (Z.log2 n))).
Proof.
  intros Hn. pose proof (Z.log2_nonneg n).
  replace (Z.of_nat (S (Z.to_nat (Z.log2 n)))) with (Z.succ (Z.log2 n)) by lia.
  assert (n = 0 \/ 0 < n) as [->|Hpos] by lia; [done|].
  by apply Z.log2_spec.
Qed.

Lemma str_nonneg n :
  0 <= n ->
  all_digits (PyText.str n)
  /\ (exists c rest, PyText.str n = c :: rest)
  /\ PyStr.int_digits 0 false (PyText.str n) = Some n.
Proof.
  intros Hn. unfold PyText.str.
  rewrite (proj2 (Z.ltb_ge _ _) Hn).
  split; [apply str_digits_all_digits; [done|constructor]|].
  split; [apply str_digits_nonempty|].
  destruct (str_digits_read (Z.to_nat (Z.log2 n)) n [])
    as (k & _ & Hk); [split; [done|by apply log2_fuel]|].
  rewrite Hk. cbn [PyStr.int_digits]. f_equal; lia.
Qed.

(** [int(str(n))] is [n]. *)
Lemma int_str n : PyStr.int (PyText.str n) = Some n.
Proof.
  assert (0 <= n \/ n < 0) as [Hn|Hn] by lia.
  - destruct (str_nonneg n Hn) as (Hd & (c & rest & Hs) & Hr).
    rewrite Hs in *. by rewrite int_unsigned.
  - destruct (str_nonneg (- n) ltac:(lia)) as (Hd & _ & Hr).
    unfold PyText.str in *. rewrite (proj2 (Z.ltb_lt _ _) Hn).
    rewrite (proj2 (Z.ltb_ge (- n) 0) ltac:(lia)) in Hd, Hr.
    unfold PyStr.int. rewrite strip_by_plain.
    + change (PyStr.eqc (ch "-") (ch "+")) with false.
      change (PyStr.eqc (ch "-") (ch "-")) with true. cbv iota.
      rewrite Hr. cbn [fmap option_fmap option_map]. f_equal; lia.
    + constructor; [done|]. by apply all_digits_int_spaceless.
Qed.

Lemma str_inj a b : PyText.str a = PyText.str b -> a = b.
Proof.
  intros H. pose proof (int_str a) as Ha. rewrite H, int_str in Ha.
  congruence.
Qed.

Lemma str_no_underscore n :
  Forall (fun c => PyStr.eqc c (ch "_") = false) (PyText.str n).
Proof.
  assert (0 <= n \/ n < 0) as [Hn|Hn] by lia.
  - apply all_digits_no_underscore, str_nonneg, Hn.
  - destruct (str_nonneg (- n) ltac:(lia)) as (Hd & _ & _).
    unfold PyText.str in *. rewrite (proj2 (Z.ltb_lt _ _) Hn).
    rewrite (proj2 (Z.ltb_ge (- n) 0) ltac:(lia)) in Hd.
    constructor; [done|]. by apply all_digits_no_underscore.
Qed.

Lemma split_no_separator sep s :
  Forall (fun c => PyStr.eqc c sep = false) s ->
  PyStr.split sep s = [s].
Proof.
  induction s as [|c s IH]; [done|]. intros Hs.
  apply Forall_cons in Hs as [Hc Hs]. cbn [PyStr.split].
  by rewrite Hc, (IH Hs).
Qed.

End Decimal.

(** * The undo menu *)

Section UndoMenu.

Context {A : Amount} {F : Conversion A}.

Lemma button_undo_data queue n ud :
  button queue (py "undo_" ++ PyText.str n) ud = (ud, UndoRentalAt n).
Proof.
  unfold button.
  rewrite (eq_refl : PyText.eqs (py "undo_" ++ PyText.str n)
                       (py "select_category") = false).
  rewrite (eq_refl : PyText.eqs (py "undo_" ++ PyText.str n)
                       (py "select_category_for_rental") = false).
  rewrite (eq_refl : PyText.eqs (py "undo_" ++ PyText.str n)
                       (py "other_options") = false).
  rewrite (eq_refl : PyText.eqs (py "undo_" ++ PyText.str n)
                       (py "add_category") = false).
  rewrite (eq_refl : PyText.eqs (py "undo_" ++ PyText.str n)
                       (py "delete_category") = false).
  rewrite (eq_refl : PyText.eqs (py "undo_" ++ PyText.str n)
                       (py "select_category_to_undo") = false).
  rewrite (eq_refl : PyText.eqs (py "undo_" ++ PyText.str n) (py "info")
                     = false).
  rewrite (eq_refl : PyText.eqs (py "undo_" ++ PyText.str n)
                       (py "stop_notifications") = false).
  rewrite (eq_refl : PyText.startswith (py "undo_" ++ PyText.str n)
                       (py "category_") = false).
  rewrite (startswith_app (py "undo_") (PyText.str n)).
  change (py "undo_" ++ PyText.str n)
    with (py "undo" ++ ch "_" :: PyText.str n).
  rewrite split_app_separator, (split_no_separator _ _ (str_no_underscore n)).
  change ((PyStr.split (ch "_") (py "undo") ++ [PyText.str n]) !! 1%nat)
    with (Some (PyText.str n)).
  cbv beta iota. by rewrite int_str.
Qed.

(** X16.  The number of an undo button is read back exactly: whatever
    integer [n] is, negative or not, the data ["undo_" ++ str(n)] leads to
    the undo of position [n] and leaves the user data alone; [int] inverts
    [str], so two different numbers never share a button. *)
Theorem undo_button_round_trip queue n ud :
  button queue (py "undo_" ++ PyText.str n) ud = (ud, UndoRentalAt n)
  /\ PyStr.int (PyText.str n) = Some n
  /\ forall m, PyText.str m = PyText.str n -> m = n.
Proof.
  split; [apply button_undo_data|]. split; [apply int_str|].
  intros m. apply str_inj.
Qed.

Lemma show_rentals_to_undo_eq name (f : file A) :
  (show_rentals_to_undo name f).1
  = let rs := rentals (store f) in
    let own := last5 (of_category name rs) in
    match own with
    | [] => None
    | _ =>
        Some (UndoMenuOf
                (reverse own)
                ((fun i : nat =>
                    (py "undo_" ++ PyText.str (Z.of_nat (length rs)
                                            - Z.of_nat (length own)
                                            + Z.of_nat i)))
                   <$> seq 0 (length own)))
    end.
Proof.
  unfold show_rentals_to_undo. rewrite load_data_eq. cbn zeta.
  by destruct (last5 (of_category name (rentals (store f)))).
Qed.

Lemma last5_length {X} (xs : list X) :
  length (last5 xs) = Nat.min 5 (length xs).
Proof. unfold last5. rewrite length_drop. lia. Qed.

Lemma last5_nil {X} (xs : list X) : last5 xs = [] <-> xs = [].
Proof.
  split; [|by intros ->]. intros H.
  apply (f_equal length) in H. rewrite last5_length in H.
  destruct xs; [done | cbn in H; lia].
Qed.

Lemma of_category_length name (rs : list (rental A)) :
  (length (of_category name rs) <= length rs)%nat.
Proof. apply length_filter. Qed.

(** What the menu holds when the category has a rental. *)
Lemma undo_menu_some name (f : file A) m :
  (show_rentals_to_undo name f).1 = Some m ->
  let rs := rentals (store f) in
  let own := last5 (of_category name rs) in
  own <> []
  /\ shown m = reverse own
  /\ undo_buttons m
     = (fun i : nat =>
          (py "undo_" ++ PyText.str (Z.of_nat (length rs) - Z.of_nat (length own)
                                  + Z.of_nat i)))
         <$> seq 0 (length own).
Proof.
  rewrite show_rentals_to_undo_eq. cbn zeta.
  destruct (last5 (of_category name (rentals (store f)))) as [|r own] eqn:E;
    [done|].
  intros [= <-]. by cbn [shown undo_buttons].
Qed.

(** The button at place [i] of the menu. *)
Lemma undo_menu_button name (f : file A) m i b :
  (show_rentals_to_undo name f).1 = Some m ->
  undo_buttons m !! i = Some b ->
  let rs := rentals (store f) in
  let k := length (last5 (of_category name rs)) in
  (i < k)%nat /\ (k <= length rs)%nat /\ (k <= 5)%nat
  /\ b = (py "undo_" ++ PyText.str (Z.of_nat (length rs) - Z.of_nat k
                                 + Z.of_nat i)).
Proof.
  intros Hm Hb. cbn zeta.
  destruct (undo_menu_some name f m Hm) as (_ & _ & Hbs).
  rewrite Hbs in Hb. apply list_lookup_fmap_Some in Hb as (j & -> & Hj).
  apply lookup_seq in Hj as [-> Hi]. cbn [Nat.add] in *.
  pose proof (of_category_length name (rentals (store f))).
  rewrite last5_length in *. repeat split; lia.
Qed.

(** Undoing at a position of the list removes the rental that is there. *)
Lemma undo_rental_position j r (f : file A) :
  rentals (store f) !! j = Some r ->
  (undo_rental (Z.of_nat j) f).2 = RentalUndone r
  /\ rentals (store (undo_rental (Z.of_nat j) f).1)
     = delete j (rentals (store f)).
Proof.
  intros Hr. pose proof (lookup_lt_Some _ _ _ Hr) as Hlt.
  rewrite (undo_rental_at (Z.of_nat j) j r f);
    [by split| |done].
  rewrite py_index_nonneg by lia. by rewrite Nat2Z.id.
Qed.

(** X17.  The undo menu of a category is empty-handed exactly when the
    category has no rental.  Otherwise it shows at most five rentals, one
    button per line, and every button works: pressing it leads to the undo
    of a position that exists in the whole list of rentals, one of its last
    five at most, and that undo succeeds and takes out the rental at that
    position. *)
Theorem undo_menu_buttons_work queue name ud (f : file A) :
  let rs := rentals (store f) in
  match (show_rentals_to_undo name f).1 with
  | None => of_category name rs = []
  | Some m =>
      of_category name rs <> []
      /\ length (undo_buttons m) = length (shown m)
      /\ (length (shown m) <= 5)%nat
      /\ (forall r, r ∈ shown m -> r ∈ rs /\ category r = name)
      /\ forall i b, undo_buttons m !! i = Some b ->
           exists (j : nat) r,
             button queue b ud = (ud, UndoRentalAt (Z.of_nat j))
             /\ j = (length rs - length (shown m) + i)%nat
             /\ rs !! j = Some r
             /\ (undo_rental (Z.of_nat j) f).2 = RentalUndone r
             /\ rentals (store (undo_rental (Z.of_nat j) f).1) = delete j rs
  end.
Proof.
  cbn zeta.
  destruct ((show_rentals_to_undo name f).1) as [m|] eqn:Hm.
  - destruct (undo_menu_some name f m Hm) as (Hne & Hshown & Hbs).
    split; [by rewrite <- last5_nil|].
    split; [by rewrite Hbs, Hshown, length_fmap, length_seq, length_reverse|].
    split; [rewrite Hshown, length_reverse, last5_length; lia|].
    split.
    { intros r Hr. rewrite Hshown, elem_of_reverse in Hr.
      unfold last5 in Hr. apply subseteq_drop in Hr.
      unfold of_category in Hr. by apply list_elem_of_filter in Hr as [? ?]. }
    intros i b Hb.
    destruct (undo_menu_button name f m i b Hm Hb) as (Hi & Hk & _ & ->).
    rewrite Hshown, length_reverse.
    set (k := length (last5 (of_category name (rentals (store f))))) in *.
    set (j := (length (rentals (store f)) - k + i)%nat).
    destruct (lookup_lt_is_Some_2 (rentals (store f)) j) as [r Hr];
      [unfold j; lia|].
    exists j, r.
    replace (Z.of_nat (length (rentals (store f))) - Z.of_nat k + Z.of_nat i)
      with (Z.of_nat j) by (unfold j; lia).
    split; [apply button_undo_data|]. split; [done|]. split; [done|].
    by apply undo_rental_position.
  - rewrite show_rentals_to_undo_eq in Hm. cbn zeta in Hm.
    destruct (last5 (of_category name (rentals (store f)))) eqn:E; [|done].
    by apply last5_nil.
Qed.

End UndoMenu.

Section UndoMenuOrder.

Context {A : Amount} {F : Conversion A}.

(** X18.  When the rentals the undo menu shows are the last rentals of the
    whole list, the buttons run against the lines: the message lists the
    rentals newest first, the buttons address them oldest first, so the
    button at place [i] undoes the rental of the line at place [k - 1 - i]
    of the [k] lines.  Where the shown rentals differ from each other, it is
    the rental of its own line only for the middle button of an odd
    number. *)
Theorem undo_buttons_run_against_the_lines queue name ud pre (f : file A) m i b :
  (show_rentals_to_undo name f).1 = Some m ->
  rentals (store f) = pre ++ last5 (of_category name (rentals (store f))) ->
  undo_buttons m !! i = Some b ->
  exists (j : nat) r,
    button queue b ud = (ud, UndoRentalAt (Z.of_nat j))
    /\ (undo_rental (Z.of_nat j) f).2 = RentalUndone r
    /\ shown m !! (length (shown m) - 1 - i)%nat = Some r
    /\ (NoDup (shown m) -> (2 * i + 1)%nat <> length (shown m) ->
        shown m !! i <> Some r).
Proof.
  intros Hm Hpre Hb.
  destruct (undo_menu_some name f m Hm) as (_ & Hshown & _).
  destruct (undo_menu_button name f m i b Hm Hb) as (Hi & Hk & _ & ->).
  cbn zeta in Hshown.
  set (own := last5 (of_category name (rentals (store f)))) in *.
  assert (length (rentals (store f)) = (length pre + length own)%nat) as Hn
    by (by rewrite Hpre at 1; rewrite length_app).
  destruct (lookup_lt_is_Some_2 own i) as [r Hr]; [done|].
  assert (rentals (store f) !! (length pre + i)%nat = Some r) as Hj
    by (by rewrite Hpre, lookup_app_r, Nat.add_comm, Nat.add_sub by lia).
  assert (shown m !! (length (shown m) - 1 - i)%nat = Some r) as Hline.
  { rewrite Hshown, length_reverse, reverse_lookup by lia.
    rewrite <- Hr. f_equal. lia. }
  exists (length pre + i)%nat, r.
  replace (Z.of_nat (length (rentals (store f))) - Z.of_nat (length own)
           + Z.of_nat i) with (Z.of_nat (length pre + i)) by lia.
  split; [apply button_undo_data|].
  split; [by apply undo_rental_position|].
  split; [done|].
  intros Hnd Hmid Hsame.
  pose proof (NoDup_lookup _ _ _ _ Hnd Hsame Hline) as Heq.
  rewrite Hshown, length_reverse in Heq, Hmid. lia.
Qed.

(** X19.  The undo menu of a category reaches beyond the category: when
    the last rental of the whole list belongs to another category, the last
    button of the menu undoes that rental, which is none of the rentals the
    menu shows. *)
Theorem undo_menu_reaches_another_category queue name ud (f : file A) m r :
  (show_rentals_to_undo name f).1 = Some m ->
  last (rentals (store f)) = Some r ->
  category r <> name ->
  exists b (j : nat),
    last (undo_buttons m) = Some b
    /\ button queue b ud = (ud, UndoRentalAt (Z.of_nat j))
    /\ (undo_rental (Z.of_nat j) f).2 = RentalUndone r
    /\ r ∉ shown m.
Proof.
  intros Hm Hlast Hcat.
  destruct (undo_menu_some name f m Hm) as (Hne & Hshown & Hbs).
  cbn zeta in *.
  set (own := last5 (of_category name (rentals (store f)))) in *.
  assert (0 < length own)%nat as Hk by (destruct own; [done | cbn; lia]).
  assert (length own <= length (rentals (store f)))%nat as Hle.
  { unfold own. rewrite last5_length.
    pose proof (of_category_length name (rentals (store f))). lia. }
  rewrite last_lookup in Hlast.
  exists (py "undo_" ++ PyText.str (Z.of_nat (pred (length (rentals (store f)))))),
    (pred (length (rentals (store f)))).
  split.
  { rewrite Hbs, fmap_last, last_lookup, length_seq.
    rewrite (proj2 (lookup_seq 0 (length own) (pred (length own))
                               (pred (length own))))
      by (split; lia).
    cbn [fmap option_fmap option_map]. do 3 f_equal. lia. }
  split; [apply button_undo_data|].
  split; [by apply undo_rental_position|].
  intros Hin. rewrite Hshown, elem_of_reverse in Hin.
  unfold own, last5 in Hin. apply subseteq_drop in Hin.
  unfold of_category in Hin. by apply list_elem_of_filter in Hin as [? _].
Qed.

End UndoMenuOrder.

(** Runs of the menus on binary64. *)
Module MenuRuns.

#[local] Existing Instance Binary64.amount.
#[local] Existing Instance Binary64.conversion.
Import MenuScenario.

(** X18 on two rentals of "Camera": the first button undoes the rental of
    the second line. *)
Lemma two_cameras_witness :
  exists (j : nat) r,
    button true (py "undo_0") idle = (idle, UndoRentalAt (Z.of_nat j))
    /\ (undo_rental (Z.of_nat j) two_cameras).2 = RentalUndone r
    /\ [second_camera; first_camera] !! (2 - 1 - 0)%nat = Some r
    /\ (NoDup [second_camera; first_camera] -> (2 * 0 + 1)%nat <> 2%nat ->
        [second_camera; first_camera] !! 0%nat <> Some r).
Proof.
  apply (undo_buttons_run_against_the_lines
           true (py "Camera") idle [] two_cameras
           (UndoMenuOf [second_camera; first_camera]
                       [py "undo_0"; py "undo_1"]
            : undo_menu (A:=Binary64.amount))
           0 (py "undo_0")); reflexivity.
Defined.

(** X19 on a rental of "Camera" followed by one of "Tripod": the button of
    the menu of "Camera" undoes the rental of "Tripod". *)
Lemma camera_then_tripod_witness :
  exists b (j : nat),
    last [py "undo_1"] = Some b
    /\ button true b idle = (idle, UndoRentalAt (Z.of_nat j))
    /\ (undo_rental (Z.of_nat j) camera_then_tripod).2 = RentalUndone tripod
    /\ tripod ∉ [first_camera].
Proof.
  apply (undo_menu_reaches_another_category
           true (py "Camera") idle camera_then_tripod
           (UndoMenuOf [first_camera] [py "undo_1"]
            : undo_menu (A:=Binary64.amount))
           tripod); [reflexivity | reflexivity | discriminate].
Defined.

End MenuRuns.

(** * Subscriptions to the job *)

Section Subscriptions.

Context {A : Amount} {F : Conversion A}.




Lemma in_removed (c chat : Z) (chats : gset Z) :
  c ∈ chats ∖ {[chat]} <-> c ∈ chats /\ c <> chat.
Proof. by rewrite elem_of_difference, elem_of_singleton. Qed.



Lemma handle_jobs chat u ud (f : file A) s :
  (handle chat u ud f s).2 = s
  \/ (handle chat u ud f s).2 = start_job chat s
  \/ (handle chat u ud f s).2 = stop_notifications chat s.
Proof.
  destruct u as [| | |query_data|text]; cbn [handle].
  - right. by left.
  - right. by right.
  - by left.
  - destruct (button _ query_data ud) as [ud' r]. destruct r; cbn [snd]; auto.
  - destruct (handle_text ud text f) as [[ud' f'] a].
    destruct (calls_start a); cbn [snd]; auto.
Qed.

Lemma dispatch_eq e (b : bot (A:=A)) :
  dispatch e b
  = let h := handle (in_chat e) (what e) (user_data_of (from_user e) b)
                    (storage b) (jobs b) in
    Bot (<[from_user e := h.1.1]> (users b)) h.1.2 h.2.
Proof. unfold dispatch. by destruct (handle _ _ _ _ _) as [[? ?] ?]. Qed.

Lemma converse_cons e es (b : bot (A:=A)) :
  converse (e :: es) b = converse es (dispatch e b).
Proof. reflexivity. Qed.





Lemma no_queue_start chat s : job_queue s = None -> start_job chat s = s.
Proof. intros H. unfold start_job. by rewrite H. Qed.

Lemma no_queue_stop chat :
  stop_notifications chat (Session None ∅) = Session None ∅.
Proof.
  unfold stop_notifications. cbn. f_equal. apply set_eq. intros x.
  rewrite in_removed. split; [tauto|]. by intros ?%not_elem_of_empty.
Qed.

(** X21.  Without a job queue nothing is ever subscribed: after any
    updates the queue is still absent and no chat is marked as subscribed,
    so no job will ever announce the end of a rental. *)
Theorem no_queue_no_subscription es us (f : file A) :
  jobs (converse es (Bot us f (Session None ∅))) = Session None ∅.
Proof.
  assert (forall b : bot (A:=A), jobs b = Session None ∅ ->
                   jobs (converse es b) = Session None ∅) as H.
  { induction es as [|e es IH]; intros b Hb; [done|].
    rewrite converse_cons. apply IH. rewrite dispatch_eq. cbn [jobs].
    destruct (handle_jobs (in_chat e) (what e) (user_data_of (from_user e) b)
                          (storage b) (jobs b)) as [-> | [-> | ->]];
      rewrite Hb; [done | by apply no_queue_start | apply no_queue_stop]. }
  by apply H.
Qed.

End Subscriptions.

(** * Conversations *)

Section Conversations.

Context {A : Amount} {F : Conversion A}.

Lemma dispatch_storage e (b : bot (A:=A)) :
  storage (dispatch e b)
  = (handle (in_chat e) (what e) (user_data_of (from_user e) b)
            (storage b) (jobs b)).1.2.
Proof. by rewrite dispatch_eq. Qed.








Lemma select_category_menu_file mode (f : file A) :
  (select_category_menu mode f).2 = (load_data f).2.
Proof. unfold select_category_menu. by destruct (load_data f). Qed.

Lemma show_category_stats_file name (f : file A) :
  (show_category_stats name f).2 = (load_data f).2.
Proof. unfold show_category_stats. by destruct (load_data f). Qed.

Lemma show_rentals_to_undo_file name (f : file A) :
  (show_rentals_to_undo name f).2 = (load_data f).2.
Proof.
  unfold show_rentals_to_undo. destruct (load_data f) as [d f'].
  by destruct (last5 (of_category name (rentals d))).
Qed.

(** X23.  An update leaves the store as it is unless it is a text, the
    button of a deletion or the button of an undo: the two commands, the
    menus, the statistics, the information and every button whose data is
    not understood only read. *)
Theorem only_three_updates_write e (b : bot (A:=A)) :
  store (storage (dispatch e b)) = store (storage b)
  \/ (exists text, what e = TextMessage text)
  \/ (exists query_data,
        what e = CallbackQuery query_data
        /\ let queue := bool_decide (is_Some (job_queue (jobs b))) in
           (exists c,
              (button queue query_data (user_data_of (from_user e) b)).2
              = DeleteCategoryOf c)
           \/ (exists i,
                 (button queue query_data (user_data_of (from_user e) b)).2
                 = UndoRentalAt i)).
Proof.
  rewrite dispatch_storage.
  destruct (what e) as [| | |query_data|text]; cbn [handle].
  - by left.
  - by left.
  - by left.
  - destruct (button _ query_data (user_data_of (from_user e) b))
      as [ud' r] eqn:Hb.
    destruct r; cbn [fst snd];
      first [ left; reflexivity
            | left; rewrite ?select_category_menu_file,
                ?show_category_stats_file, ?show_rentals_to_undo_file;
              apply store_loaded
            | right; right; exists query_data; split; [done|]; cbn zeta;
              rewrite Hb;
              first [left; by eexists | right; by eexists] ].
  - right. left. by exists text.
Qed.

End Conversations.

(** * The calendar of the time format *)

Section LeapDay.

Lemma is_leap_this_century yy :
  0 <= yy <= 99 -> PyDatetime.is_leap (2000 + yy) = (yy mod 4 =? 0).
Proof.
  intros Hy. unfold PyDatetime.is_leap.
  destruct (Z.eqb_spec ((2000 + yy) mod 4) 0) as [H4|H4],
    (Z.eqb_spec ((2000 + yy) mod 100) 0) as [H100|H100],
    (Z.eqb_spec ((2000 + yy) mod 400) 0) as [H400|H400],
    (Z.eqb_spec (yy mod 4) 0) as [Hy4|Hy4];
    cbn [andb orb negb]; try reflexivity; exfalso;
    revert H4 H100 H400 Hy4; Z.div_mod_to_equations; lia.
Qed.

(** X24.  The 29th of February is a date of the format exactly in the
    years whose two digits are a multiple of four, 00 included: the year is
    read as 2000 + YY, and the source leaves the rule to [datetime].  The
    digits may be those of any script. *)
Theorem leap_day_every_fourth_year h1 h2 m1 m2 d1 d2 o1 o2 y1 y2 :
  Forall (fun c => PyStr.is_digit c = true)
         [h1; h2; m1; m2; d1; d2; o1; o2; y1; y2] ->
  value h1 h2 <= 23 ->
  value m1 m2 <= 59 ->
  value d1 d2 = 29 ->
  value o1 o2 = 2 ->
  validate_datetime_format (shaped h1 h2 m1 m2 d1 d2 o1 o2 y1 y2 [])
  = (value y1 y2 mod 4 =? 0).
Proof.
  intros Hd Hh Hm Hday Hmonth.
  rewrite validate_shaped by (done || by left).
  repeat (apply Forall_cons in Hd as [? Hd]).
  unfold calendar_valid.
  rewrite (proj2 (Z.leb_le _ _) Hh), (proj2 (Z.leb_le _ _) Hm), Hday, Hmonth.
  unfold PyDatetime.days_in_month. cbn [andb Z.eqb Z.leb Z.compare
    Pos.compare Pos.compare_cont Pos.eqb].
  pose proof (value_range y1 y2 ltac:(done) ltac:(done)).
  rewrite is_leap_this_century by lia.
  by destruct (value y1 y2 mod 4 =? 0).
Qed.

End LeapDay.

(** Runs of the calendar. *)
Module CalendarRuns.

(** X24 at noon of the leap day of 2024. *)
Lemma leap_day_2024_witness :
  validate_datetime_format (py "12:00-29.02.24") = (24 mod 4 =? 0).
Proof.
  apply (leap_day_every_fourth_year (ch "1") (ch "2") (ch "0") (ch "0")
           (ch "2") (ch "9") (ch "0") (ch "2") (ch "2") (ch "4"));
    [by repeat constructor | by vm_compute | by vm_compute
    | by vm_compute | by vm_compute].
Defined.

End CalendarRuns.

(** Runs of the further properties on binary64. *)
Module LedgerRuns.

#[local] Existing Instance Binary64.amount.
#[local] Existing Instance Binary64.conversion.
Import MenuScenario.

Definition camera_line : text :=
  py "50000 10000 14:06-11.07.25 18:00-11.07.25".

Definition one_category : file Binary64.amount :=
  run [AddCategory (py "Camera")] Missing.

(** X4 at the first rental of "Camera". *)
Lemma first_rental_witness :
  let '(ud', f', ans) :=
    handle_text (UserData (Some add_rental) (Some (py "Camera"))) camera_line
                one_category in
  ans = RentalAdded first_camera
  /\ ud' = UserData None None
  /\ rentals (store f') = rentals (store one_category) ++ [first_camera]
  /\ categories (store f') !! py "Camera"
     = Some (@Totals Binary64.amount
               (PrimFloat.add PrimFloat.zero (Binary64.of_Z 50000))
               (PrimFloat.add PrimFloat.zero (Binary64.of_Z 10000))
               (PrimFloat.add PrimFloat.zero
                  (PrimFloat.sub (Binary64.of_Z 50000)
                                 (Binary64.of_Z 10000))))
  /\ (forall other, other <> py "Camera" ->
        categories (store f') !! other
        = categories (store one_category) !! other)
  /\ f' = Json (Document (Dict (categories (store f'))) (rentals (store f'))).
Proof.
  apply (rental_message_accumulates
           (UserData (Some add_rental) (Some (py "Camera"))) camera_line
           one_category (py "Camera") (py "50000") (py "10000")
           (py "14:06-11.07.25") (py "18:00-11.07.25")
           (Binary64.of_Z 50000) (Binary64.of_Z 10000)
           63887839560000000 63887853600000000 zero_totals);
    first [reflexivity | lia].
Defined.

(** X5 at the run of the ledger scenario. *)
Lemma ledger_rentals_witness :
  Forall well_formed (rentals (store (run Scenario.ledger_run Missing))).
Proof.
  apply (stored_rentals_are_well_formed Scenario.ledger_run Missing).
  reflexivity.
Defined.

(** X7 at the first rental of "Camera": the amounts are 50000 and 10000,
    the totals of the category are zero. *)
Lemma undo_first_rental_witness :
  undo_rental
    (Z.of_nat (length (rentals (store one_category))))
    (handle_text (UserData (Some add_rental) (Some (py "Camera"))) camera_line
                 one_category).1.2
  = (Json (Document (Dict (categories (store one_category)))
                    (rentals (store one_category))),
     RentalUndone first_camera).
Proof.
  apply (undo_of_new_rental_restores (py "Camera") camera_line
           one_category first_camera 50000 10000);
    [reflexivity | reflexivity | reflexivity|].
  intros c Hc. exists 0, 0, 0.
  split; [|lia].
  assert (categories (store one_category) !! py "Camera"
          = Some (@Totals Binary64.amount (Binary64.of_Z 0) (Binary64.of_Z 0)
                          (Binary64.of_Z 0))) as E by reflexivity.
  rewrite E in Hc. by injection Hc as <-.
Defined.

(** X9 at a new name typed with spaces around it. *)
Lemma add_then_delete_witness :
  store (run [AddCategory (py " Tripod ");
              DeleteCategory (PyStr.strip (py " Tripod "))]
             one_category)
  = Data (categories (store one_category))
         (filter (fun r => category r <> PyStr.strip (py " Tripod "))
                 (rentals (store one_category))).
Proof.
  apply (new_category_then_delete (py " Tripod ") one_category). reflexivity.
Defined.

(** X14 at a run of the job at 14:06, hours before the camera is due. *)
Lemma early_run_witness :
  let w1 := jobs_run [(63887839560000000, 7)]
              (World (Json (Document (Dict ∅) ([] ++ first_camera :: [tripod])))
                     []) in
  let w2 := jobs_run [(63887839560000000, 7)]
              (World (Json (Document (Dict ∅) ([] ++ [tripod]))) []) in
  sent w1 = sent w2
  /\ exists rs1' rs2',
       length rs1' = length ([] : list (rental Binary64.amount))
       /\ rentals (store (disk w1)) = rs1' ++ first_camera :: rs2'
       /\ rentals (store (disk w2)) = rs1' ++ rs2'.
Proof.
  apply (rental_outside_its_window_is_skipped
           [(63887839560000000, 7)] ∅ [] [tripod] first_camera []).
  apply (bool_decide_unpack _). by vm_compute.
Defined.


End LedgerRuns.
